(** * OV5647 sensor driver: mode selection, power sequencing, streaming,
      controls and detection.

    A shallow embedding of the V4L2 sub-device driver for the OmniVision
    OV5647 (the variant with the six-entry mode table), together with the
    properties its specification states about it.

    C integers are carried as [Z] with every conversion and wrap-around
    written out; the driver's functions that touch the bus, the clock or
    the reset line are written in a small state monad over a [world] made
    of the driver's own [struct ov5647] and of a model of the board. *)

From Stdlib Require Import ZArith List Lia Bool.
From stdpp Require Import base gmap list.
Import ListNotations.
Open Scope Z_scope.

(** ** C integer types *)

Module CInt.

(** Conversions to [u8], [u16], [u32] and to [int] (32-bit, two's
    complement; the kernel is built with wrapping signed arithmetic). *)
Definition to_u8 (z : Z) : Z := z mod 2 ^ 8.
Definition to_u16 (z : Z) : Z := z mod 2 ^ 16.
Definition to_u32 (z : Z) : Z := z mod 2 ^ 32.
Definition to_int (z : Z) : Z := (z + 2 ^ 31) mod 2 ^ 32 - 2 ^ 31.

Definition INT_MAX : Z := 2 ^ 31 - 1.

(** The kernel's [abs()] at type [int]:
    [({ signed int __x = (x); __x < 0 ? -__x : __x; })]. *)
Definition abs (x : Z) : Z := if x <? 0 then to_int (- x) else x.

(** [BIT(n)] *)
Definition BIT (n : Z) : Z := Z.shiftl 1 n.

(** C truth value of an [int]. *)
Definition truthy (x : Z) : bool := negb (x =? 0).

End CInt.
Import CInt.

(** ** Constants of the driver *)

Definition MIPI_CTRL00_CLOCK_LANE_GATE : Z := BIT 5.
Definition MIPI_CTRL00_LINE_SYNC_ENABLE : Z := BIT 4.
Definition MIPI_CTRL00_BUS_IDLE : Z := BIT 2.
Definition MIPI_CTRL00_CLOCK_LANE_DISABLE : Z := BIT 0.

Definition OV5647_SW_STANDBY : Z := 0x0100.
Definition OV5647_SW_RESET : Z := 0x0103.
Definition OV5647_REG_CHIPID_H : Z := 0x300a.
Definition OV5647_REG_CHIPID_L : Z := 0x300b.
Definition OV5640_REG_PAD_OUT : Z := 0x300d.
Definition OV5647_REG_FRAME_OFF_NUMBER : Z := 0x4202.
Definition OV5647_REG_MIPI_CTRL00 : Z := 0x4800.
Definition OV5647_REG_MIPI_CTRL14 : Z := 0x4814.

Definition OV5647_REG_AEC_AGC : Z := 0x3503.
Definition OV5647_AEC_ENABLE : Z := BIT 0.
Definition OV5647_AGC_ENABLE : Z := BIT 1.

Definition OV5647_REG_EXPOSURE_HI : Z := 0x3500.
Definition OV5647_REG_EXPOSURE_MID : Z := 0x3501.
Definition OV5647_REG_EXPOSURE_LO : Z := 0x3502.

Definition OV5647_REG_GAIN_HI : Z := 0x350a.
Definition OV5647_REG_GAIN_LO : Z := 0x350b.

Definition OV5647_REG_AWB : Z := 0x5001.

(** Constants the driver takes from the kernel's headers (errno, media bus
    formats, V4L2 enumerations and control identifiers), with the values
    of the kernel's UAPI. *)
Definition EINVAL : Z := 22.
Definition ENODEV : Z := 19.
Definition ENOMEM : Z := 12.

Definition MEDIA_BUS_FMT_SBGGR8_1X8 : Z := 0x3001.
Definition MEDIA_BUS_FMT_SBGGR10_1X10 : Z := 0x3007.

Definition V4L2_SUBDEV_FORMAT_TRY : Z := 0.
Definition V4L2_SUBDEV_FORMAT_ACTIVE : Z := 1.
Definition V4L2_FIELD_NONE : Z := 1.
Definition V4L2_COLORSPACE_SRGB : Z := 8.
Definition V4L2_EXPOSURE_AUTO : Z := 0.
Definition V4L2_EXPOSURE_MANUAL : Z := 1.

Definition V4L2_CID_AUTO_WHITE_BALANCE : Z := 0x0098090c.
Definition V4L2_CID_EXPOSURE : Z := 0x00980911.
Definition V4L2_CID_AUTOGAIN : Z := 0x00980912.
Definition V4L2_CID_EXPOSURE_AUTO : Z := 0x009a0901.
Definition V4L2_CID_ANALOGUE_GAIN : Z := 0x009e0903.

(** ** Register tables *)

(** [struct regval_list { u16 addr; u8 data; }] *)
Record regval_list : Type := RV { addr : Z; data : Z }.

(** [sensor_oe_disable_regs], 3 entries. *)
Definition sensor_oe_disable_regs : list regval_list := [
  RV 0x3000 0x00; RV 0x3001 0x00; RV 0x3002 0x00 ].

(** [sensor_oe_enable_regs], 3 entries. *)
Definition sensor_oe_enable_regs : list regval_list := [
  RV 0x3000 0x0f; RV 0x3001 0xff; RV 0x3002 0xe4 ].

(** [ov5647_640x480], 97 entries. *)
Definition ov5647_640x480 : list regval_list := [
  RV 0x0100 0x00; RV 0x0103 0x01; RV 0x3034 0x08; RV 0x3035 0x21;
  RV 0x3036 0x46; RV 0x303c 0x11; RV 0x3106 0xf5; RV 0x3821 0x07;
  RV 0x3820 0x41; RV 0x3827 0xec; RV 0x370c 0x0f; RV 0x3612 0x59;
  RV 0x3618 0x00; RV 0x5000 0x06; RV 0x5001 0x01; RV 0x5002 0x41;
  RV 0x5003 0x00; RV 0x503d 0x00; RV 0x5a00 0x08; RV 0x3503 0x00;
  RV 0x3500 0x00; RV 0x3501 0x40; RV 0x3502 0x00; RV 0x350a 0x00;
  RV 0x350b 0x40; RV 0x3000 0x00; RV 0x3001 0x00; RV 0x3002 0x00;
  RV 0x3016 0x08; RV 0x3017 0xe0; RV 0x3018 0x44; RV 0x301c 0xf8;
  RV 0x301d 0xf0; RV 0x3a18 0x00; RV 0x3a19 0xf8; RV 0x3c01 0x80;
  RV 0x3b07 0x0c; RV 0x380c 0x07; RV 0x380d 0x68; RV 0x380e 0x03;
  RV 0x380f 0xd8; RV 0x3814 0x71; RV 0x3815 0x71; RV 0x3708 0x64;
  RV 0x3709 0x52; RV 0x3808 0x02; RV 0x3809 0x80; RV 0x380a 0x01;
  RV 0x380b 0xe0; RV 0x3800 0x00; RV 0x3801 0x00; RV 0x3802 0x00;
  RV 0x3803 0x00; RV 0x3804 0x0a; RV 0x3805 0x3f; RV 0x3806 0x07;
  RV 0x3807 0xa1; RV 0x3811 0x08; RV 0x3813 0x02; RV 0x3630 0x2e;
  RV 0x3632 0xe2; RV 0x3633 0x23; RV 0x3634 0x44; RV 0x3636 0x06;
  RV 0x3620 0x64; RV 0x3621 0xe0; RV 0x3600 0x37; RV 0x3704 0xa0;
  RV 0x3703 0x5a; RV 0x3715 0x78; RV 0x3717 0x01; RV 0x3731 0x02;
  RV 0x370b 0x60; RV 0x3705 0x1a; RV 0x3f05 0x02; RV 0x3f06 0x10;
  RV 0x3f01 0x0a; RV 0x3a08 0x01; RV 0x3a09 0x27; RV 0x3a0a 0x00;
  RV 0x3a0b 0xf6; RV 0x3a0d 0x04; RV 0x3a0e 0x03; RV 0x3a0f 0x58;
  RV 0x3a10 0x50; RV 0x3a1b 0x58; RV 0x3a1e 0x50; RV 0x3a11 0x60;
  RV 0x3a1f 0x28; RV 0x4001 0x02; RV 0x4004 0x02; RV 0x4000 0x09;
  RV 0x4837 0x24; RV 0x4050 0x6e; RV 0x4051 0x8f; RV 0x4800 0x34;
  RV 0x0100 0x01 ].

(** [ov5647_2592x1944], 97 entries. *)
Definition ov5647_2592x1944 : list regval_list := [
  RV 0x0100 0x00; RV 0x0103 0x01; RV 0x3034 0x08; RV 0x3035 0x21;
  RV 0x3036 0x69; RV 0x303c 0x11; RV 0x3106 0xf5; RV 0x3821 0x06;
  RV 0x3820 0x00; RV 0x3827 0xec; RV 0x370c 0x03; RV 0x3612 0x5b;
  RV 0x3618 0x04; RV 0x5000 0x06; RV 0x5001 0x01; RV 0x5002 0x41;
  RV 0x5003 0x00; RV 0x503d 0x00; RV 0x5a00 0x08; RV 0x3503 0x00;
  RV 0x3500 0x00; RV 0x3501 0x40; RV 0x3502 0x00; RV 0x350a 0x00;
  RV 0x350b 0x40; RV 0x3000 0x00; RV 0x3001 0x00; RV 0x3002 0x00;
  RV 0x3016 0x08; RV 0x3017 0xe0; RV 0x3018 0x44; RV 0x301c 0xf8;
  RV 0x301d 0xf0; RV 0x3a18 0x00; RV 0x3a19 0xf8; RV 0x3c01 0x80;
  RV 0x3b07 0x0c; RV 0x380c 0x0b; RV 0x380d 0x1c; RV 0x380e 0x07;
  RV 0x380f 0xb0; RV 0x3814 0x11; RV 0x3815 0x11; RV 0x3708 0x64;
  RV 0x3709 0x12; RV 0x3808 0x0a; RV 0x3809 0x20; RV 0x380a 0x07;
  RV 0x380b 0x98; RV 0x3800 0x00; RV 0x3801 0x00; RV 0x3802 0x00;
  RV 0x3803 0x00; RV 0x3804 0x0a; RV 0x3805 0x3f; RV 0x3806 0x07;
  RV 0x3807 0xa3; RV 0x3810 0x00; RV 0x3811 0x10; RV 0x3812 0x00;
  RV 0x3813 0x06; RV 0x3630 0x2e; RV 0x3632 0xe2; RV 0x3633 0x23;
  RV 0x3634 0x44; RV 0x3636 0x06; RV 0x3620 0x64; RV 0x3621 0xe0;
  RV 0x3600 0x37; RV 0x3704 0xa0; RV 0x3703 0x5a; RV 0x3715 0x78;
  RV 0x3717 0x01; RV 0x3731 0x02; RV 0x370b 0x60; RV 0x3705 0x1a;
  RV 0x3f05 0x02; RV 0x3f06 0x10; RV 0x3f01 0x0a; RV 0x3a08 0x01;
  RV 0x3a09 0x28; RV 0x3a0a 0x00; RV 0x3a0b 0xf6; RV 0x3a0d 0x08;
  RV 0x3a0e 0x06; RV 0x3a0f 0x58; RV 0x3a10 0x50; RV 0x3a1b 0x58;
  RV 0x3a1e 0x50; RV 0x3a11 0x60; RV 0x3a1f 0x28; RV 0x4001 0x02;
  RV 0x4004 0x04; RV 0x4000 0x09; RV 0x4837 0x19; RV 0x4800 0x34;
  RV 0x0100 0x01 ].

(** [ov5647_1280x960], 95 entries. *)
Definition ov5647_1280x960 : list regval_list := [
  RV 0x0100 0x00; RV 0x0103 0x01; RV 0x3034 0x08; RV 0x3035 0x21;
  RV 0x3036 0x46; RV 0x303c 0x11; RV 0x3106 0xf5; RV 0x3821 0x06;
  RV 0x3820 0x00; RV 0x3827 0xec; RV 0x370c 0x0f; RV 0x3612 0x59;
  RV 0x3618 0x00; RV 0x5000 0x06; RV 0x5001 0x01; RV 0x5002 0x41;
  RV 0x5003 0x00; RV 0x503d 0x00; RV 0x5a00 0x08; RV 0x3503 0x00;
  RV 0x3500 0x00; RV 0x3501 0x40; RV 0x3502 0x00; RV 0x350a 0x00;
  RV 0x350b 0x40; RV 0x3000 0x00; RV 0x3001 0x00; RV 0x3002 0x00;
  RV 0x3016 0x08; RV 0x3017 0xe0; RV 0x3018 0x44; RV 0x301c 0xf8;
  RV 0x301d 0xf0; RV 0x3a18 0x00; RV 0x3a19 0xf8; RV 0x3c01 0x80;
  RV 0x3b07 0x0c; RV 0x380c 0x07; RV 0x380d 0x68; RV 0x380e 0x03;
  RV 0x380f 0xd8; RV 0x3814 0x31; RV 0x3815 0x31; RV 0x3708 0x64;
  RV 0x3709 0x52; RV 0x3808 0x05; RV 0x3809 0x00; RV 0x380a 0x03;
  RV 0x380b 0xc0; RV 0x3800 0x00; RV 0x3801 0x08; RV 0x3802 0x00;
  RV 0x3803 0x02; RV 0x3804 0x0a; RV 0x3805 0x37; RV 0x3806 0x07;
  RV 0x3807 0x9f; RV 0x3811 0x04; RV 0x3813 0x02; RV 0x3630 0x2e;
  RV 0x3632 0xe2; RV 0x3633 0x23; RV 0x3634 0x44; RV 0x3636 0x06;
  RV 0x3620 0x64; RV 0x3621 0xe0; RV 0x3600 0x37; RV 0x3704 0xa0;
  RV 0x3703 0x5a; RV 0x3715 0x78; RV 0x3717 0x01; RV 0x3731 0x02;
  RV 0x370b 0x60; RV 0x3705 0x1a; RV 0x3f05 0x02; RV 0x3f06 0x10;
  RV 0x3f01 0x0a; RV 0x3a08 0x01; RV 0x3a09 0x28; RV 0x3a0a 0x00;
  RV 0x3a0b 0xf6; RV 0x3a0d 0x08; RV 0x3a0e 0x06; RV 0x3a0f 0x58;
  RV 0x3a10 0x50; RV 0x3a1b 0x58; RV 0x3a1e 0x50; RV 0x3a11 0x60;
  RV 0x3a1f 0x28; RV 0x4001 0x02; RV 0x4004 0x04; RV 0x4000 0x09;
  RV 0x4837 0x16; RV 0x4800 0x34; RV 0x0100 0x01 ].

(** [ov5647_1920x1080], 88 entries. *)
Definition ov5647_1920x1080 : list regval_list := [
  RV 0x0100 0x00; RV 0x0103 0x01; RV 0x3034 0x1a; RV 0x3035 0x21;
  RV 0x3036 0x62; RV 0x303c 0x11; RV 0x3106 0xf5; RV 0x3821 0x06;
  RV 0x3820 0x00; RV 0x3827 0xec; RV 0x370c 0x03; RV 0x3612 0x5b;
  RV 0x3618 0x04; RV 0x5000 0x06; RV 0x5002 0x41; RV 0x5003 0x08;
  RV 0x5a00 0x08; RV 0x3000 0x00; RV 0x3001 0x00; RV 0x3002 0x00;
  RV 0x3016 0x08; RV 0x3017 0xe0; RV 0x3018 0x44; RV 0x301c 0xf8;
  RV 0x301d 0xf0; RV 0x3a18 0x00; RV 0x3a19 0xf8; RV 0x3c01 0x80;
  RV 0x3b07 0x0c; RV 0x380c 0x09; RV 0x380d 0x70; RV 0x380e 0x04;
  RV 0x380f 0x50; RV 0x3814 0x11; RV 0x3815 0x11; RV 0x3708 0x64;
  RV 0x3709 0x12; RV 0x3808 0x07; RV 0x3809 0x80; RV 0x380a 0x04;
  RV 0x380b 0x38; RV 0x3800 0x01; RV 0x3801 0x5c; RV 0x3802 0x01;
  RV 0x3803 0xb2; RV 0x3804 0x08; RV 0x3805 0xe3; RV 0x3806 0x05;
  RV 0x3807 0xf1; RV 0x3811 0x04; RV 0x3813 0x02; RV 0x3630 0x2e;
  RV 0x3632 0xe2; RV 0x3633 0x23; RV 0x3634 0x44; RV 0x3636 0x06;
  RV 0x3620 0x64; RV 0x3621 0xe0; RV 0x3600 0x37; RV 0x3704 0xa0;
  RV 0x3703 0x5a; RV 0x3715 0x78; RV 0x3717 0x01; RV 0x3731 0x02;
  RV 0x370b 0x60; RV 0x3705 0x1a; RV 0x3f05 0x02; RV 0x3f06 0x10;
  RV 0x3f01 0x0a; RV 0x3a08 0x01; RV 0x3a09 0x4b; RV 0x3a0a 0x01;
  RV 0x3a0b 0x13; RV 0x3a0d 0x04; RV 0x3a0e 0x03; RV 0x3a0f 0x58;
  RV 0x3a10 0x50; RV 0x3a1b 0x58; RV 0x3a1e 0x50; RV 0x3a11 0x60;
  RV 0x3a1f 0x28; RV 0x4001 0x02; RV 0x4004 0x04; RV 0x4000 0x09;
  RV 0x4837 0x19; RV 0x4800 0x34; RV 0x3503 0x00; RV 0x0100 0x01 ].

(** [ov5647_1296x972], 97 entries. *)
Definition ov5647_1296x972 : list regval_list := [
  RV 0x0100 0x00; RV 0x0103 0x01; RV 0x3034 0x08; RV 0x3035 0x21;
  RV 0x3036 0x46; RV 0x303c 0x11; RV 0x3106 0xf5; RV 0x3821 0x07;
  RV 0x3820 0x41; RV 0x3827 0xec; RV 0x370c 0x0f; RV 0x3612 0x59;
  RV 0x3618 0x00; RV 0x5000 0x06; RV 0x5001 0x01; RV 0x5002 0x41;
  RV 0x5003 0x00; RV 0x503d 0x00; RV 0x5a00 0x08; RV 0x3503 0x00;
  RV 0x3500 0x00; RV 0x3501 0x40; RV 0x3502 0x00; RV 0x350a 0x00;
  RV 0x350b 0x40; RV 0x3000 0x00; RV 0x3001 0x00; RV 0x3002 0x00;
  RV 0x3016 0x08; RV 0x3017 0xe0; RV 0x3018 0x44; RV 0x301c 0xf8;
  RV 0x301d 0xf0; RV 0x3a18 0x00; RV 0x3a19 0xf8; RV 0x3c01 0x80;
  RV 0x3b07 0x0c; RV 0x380c 0x07; RV 0x380d 0x68; RV 0x380e 0x05;
  RV 0x380f 0x9b; RV 0x3814 0x31; RV 0x3815 0x31; RV 0x3708 0x64;
  RV 0x3709 0x52; RV 0x3808 0x05; RV 0x3809 0x10; RV 0x380a 0x03;
  RV 0x380b 0xcc; RV 0x3800 0x00; RV 0x3801 0x00; RV 0x3802 0x00;
  RV 0x3803 0x00; RV 0x3804 0x0a; RV 0x3805 0x3f; RV 0x3806 0x07;
  RV 0x3807 0xa3; RV 0x3810 0x00; RV 0x3811 0x08; RV 0x3812 0x00;
  RV 0x3813 0x02; RV 0x3630 0x2e; RV 0x3632 0xe2; RV 0x3633 0x23;
  RV 0x3634 0x44; RV 0x3636 0x06; RV 0x3620 0x64; RV 0x3621 0xe0;
  RV 0x3600 0x37; RV 0x3704 0xa0; RV 0x3703 0x5a; RV 0x3715 0x78;
  RV 0x3717 0x01; RV 0x3731 0x02; RV 0x370b 0x60; RV 0x3705 0x1a;
  RV 0x3f05 0x02; RV 0x3f06 0x10; RV 0x3f01 0x0a; RV 0x3a08 0x01;
  RV 0x3a09 0x28; RV 0x3a0a 0x00; RV 0x3a0b 0xf6; RV 0x3a0d 0x08;
  RV 0x3a0e 0x06; RV 0x3a0f 0x58; RV 0x3a10 0x50; RV 0x3a1b 0x58;
  RV 0x3a1e 0x50; RV 0x3a11 0x60; RV 0x3a1f 0x28; RV 0x4001 0x02;
  RV 0x4004 0x04; RV 0x4000 0x09; RV 0x4837 0x16; RV 0x4800 0x34;
  RV 0x0100 0x01 ].

(** [ov5647_640x480_binned], 97 entries. *)
Definition ov5647_640x480_binned : list regval_list := [
  RV 0x0100 0x00; RV 0x0103 0x01; RV 0x3034 0x08; RV 0x3035 0x21;
  RV 0x3036 0x46; RV 0x303c 0x11; RV 0x3106 0xf5; RV 0x3821 0x07;
  RV 0x3820 0x41; RV 0x3827 0xec; RV 0x370c 0x0f; RV 0x3612 0x59;
  RV 0x3618 0x00; RV 0x5000 0x06; RV 0x5001 0x01; RV 0x5002 0x41;
  RV 0x5003 0x00; RV 0x503d 0x00; RV 0x5a00 0x08; RV 0x3503 0x00;
  RV 0x3500 0x00; RV 0x3501 0x40; RV 0x3502 0x00; RV 0x350a 0x00;
  RV 0x350b 0x40; RV 0x3000 0x00; RV 0x3001 0x00; RV 0x3002 0x00;
  RV 0x3016 0x08; RV 0x3017 0xe0; RV 0x3018 0x44; RV 0x301c 0xf8;
  RV 0x301d 0xf0; RV 0x3a18 0x00; RV 0x3a19 0xf8; RV 0x3c01 0x80;
  RV 0x3b07 0x0c; RV 0x380c 0x07; RV 0x380d 0x3c; RV 0x380e 0x01;
  RV 0x380f 0xf8; RV 0x3814 0x35; RV 0x3815 0x35; RV 0x3708 0x64;
  RV 0x3709 0x52; RV 0x3808 0x02; RV 0x3809 0x80; RV 0x380a 0x01;
  RV 0x380b 0xe0; RV 0x3800 0x00; RV 0x3801 0x10; RV 0x3802 0x00;
  RV 0x3803 0x00; RV 0x3804 0x0a; RV 0x3805 0x2f; RV 0x3806 0x07;
  RV 0x3807 0x9f; RV 0x3810 0x00; RV 0x3811 0x10; RV 0x3812 0x00;
  RV 0x3813 0x04; RV 0x3630 0x2e; RV 0x3632 0xe2; RV 0x3633 0x23;
  RV 0x3634 0x44; RV 0x3636 0x06; RV 0x3620 0x64; RV 0x3621 0xe0;
  RV 0x3600 0x37; RV 0x3704 0xa0; RV 0x3703 0x5a; RV 0x3715 0x78;
  RV 0x3717 0x01; RV 0x3731 0x02; RV 0x370b 0x60; RV 0x3705 0x1a;
  RV 0x3f05 0x02; RV 0x3f06 0x10; RV 0x3f01 0x0a; RV 0x3a08 0x01;
  RV 0x3a09 0x28; RV 0x3a0a 0x00; RV 0x3a0b 0xf6; RV 0x3a0d 0x08;
  RV 0x3a0e 0x06; RV 0x3a0f 0x58; RV 0x3a10 0x50; RV 0x3a1b 0x58;
  RV 0x3a1e 0x50; RV 0x3a11 0x60; RV 0x3a1f 0x28; RV 0x4001 0x02;
  RV 0x4004 0x02; RV 0x4000 0x09; RV 0x4837 0x24; RV 0x4800 0x34;
  RV 0x0100 0x01 ].

(** ** The mode table *)

(** [struct ov5647_mode]; [num_regs] is [ARRAY_SIZE(reg_list)] in every
    entry and is therefore derived from the list. *)
Record ov5647_mode : Type := Mode {
  width : Z;
  height : Z;
  mbus_code : Z;
  pixel_rate : Z;
  reg_list : list regval_list
}.

Definition num_regs (m : ov5647_mode) : Z := Z.of_nat (length (reg_list m)).

Definition ov5647_modes : list ov5647_mode := [
  (* 640x480, 4x subsample (0x71), full FOV *)
  Mode 640 480 MEDIA_BUS_FMT_SBGGR8_1X8 55000000 ov5647_640x480;
  (* 640x480, 2x2 bin+sub (0x35), mainline style *)
  Mode 640 480 MEDIA_BUS_FMT_SBGGR8_1X8 55000000 ov5647_640x480_binned;
  (* 1296x972, 2x2 binning (0x31), full FOV, high quality *)
  Mode 1296 972 MEDIA_BUS_FMT_SBGGR8_1X8 81666700 ov5647_1296x972;
  (* 1280x960, 2x subsample (0x31), full FOV *)
  Mode 1280 960 MEDIA_BUS_FMT_SBGGR8_1X8 55969920 ov5647_1280x960;
  (* 1920x1080, center crop, 10-bit *)
  Mode 1920 1080 MEDIA_BUS_FMT_SBGGR10_1X10 81666700 ov5647_1920x1080;
  (* 2592x1944, full 5MP, no subsample *)
  Mode 2592 1944 MEDIA_BUS_FMT_SBGGR8_1X8 87500000 ov5647_2592x1944 ].

Definition OV5647_NUM_MODES : Z := Z.of_nat (length ov5647_modes).

(** [ov5647_modes[i]]; an index outside the table has no meaning in C and
    is given the first entry here (no caller produces one). *)
Definition mode_at (i : Z) : ov5647_mode :=
  nth (Z.to_nat i) ov5647_modes (Mode 640 480 MEDIA_BUS_FMT_SBGGR8_1X8 55000000 ov5647_640x480).

(** ** Format negotiation *)

(** The fields of [struct v4l2_mbus_framefmt] the driver writes. *)
Record v4l2_mbus_framefmt : Type := FrameFmt {
  fmt_width : Z;
  fmt_height : Z;
  code : Z;
  field : Z;
  colorspace : Z
}.

(** [struct v4l2_subdev_format] *)
Record v4l2_subdev_format : Type := SubdevFmt {
  which : Z;
  pad : Z;
  format : v4l2_mbus_framefmt
}.

(** The fields of [struct ov5647] that the modelled functions use.  The
    clock and the reset line live on the board; [reset_gpio] records
    whether the optional GPIO descriptor is usable
    ([!IS_ERR_OR_NULL(ov5647->reset_gpio)]).  The struct's [width] and
    [height] are prefixed to keep them apart from the mode's. *)
Record ov5647 : Type := Sensor {
  sensor_width : Z;
  sensor_height : Z;
  power_count : Z;
  reset_gpio : bool;
  current_mode : Z
}.

(** One pass of the loop body of [ov5647_set_fmt]: the [u32 diff] of table
    entry [m] against the requested [fw] x [fh], [fcode]. *)
Definition mode_diff (m : ov5647_mode) (fw fh fcode : Z) : Z :=
  let diff :=
    to_u32 (to_int (abs (to_int (to_int (width m) - to_int fw)) +
                    abs (to_int (to_int (height m) - to_int fh)))) in
  if negb (mbus_code m =? fcode) then to_u32 (diff + 10000) else diff.

(** The [for] loop of [ov5647_set_fmt] from index [i] on, over the rest
    [modes] of the table; returns the final [(best_diff, best_mode)]. *)
Fixpoint set_fmt_loop (modes : list ov5647_mode) (i : Z) (fw fh fcode : Z)
    (best_diff best_mode : Z) : Z * Z :=
  match modes with
  | [] => (best_diff, best_mode)
  | m :: rest =>
      let diff := mode_diff m fw fh fcode in
      if diff <? best_diff
      then set_fmt_loop rest (i + 1) fw fh fcode diff i
      else set_fmt_loop rest (i + 1) fw fh fcode best_diff best_mode
  end.

(** [int i, best_mode = 0; u32 best_diff = ~0;] followed by the loop. *)
Definition set_fmt_best_mode (fw fh fcode : Z) : Z :=
  snd (set_fmt_loop ov5647_modes 0 fw fh fcode (to_u32 (Z.lnot 0)) 0).

(** [ov5647_set_fmt].  [subdev_api] is [CONFIG_VIDEO_V4L2_SUBDEV_API];
    [cfg] holds the TRY format of each pad
    ([v4l2_subdev_get_try_format(sd, cfg, pad)]).  Returns the return
    value, the driver state, the pad configuration and the format handed
    back to the caller. *)
Definition ov5647_set_fmt (subdev_api : bool) (s : ov5647)
    (cfg : list v4l2_mbus_framefmt) (fmt : v4l2_subdev_format)
    : Z * ov5647 * list v4l2_mbus_framefmt * v4l2_subdev_format :=
  let best_mode :=
    set_fmt_best_mode (fmt_width (format fmt)) (fmt_height (format fmt))
                      (code (format fmt)) in
  let f := FrameFmt (width (mode_at best_mode)) (height (mode_at best_mode))
                    (mbus_code (mode_at best_mode))
                    V4L2_FIELD_NONE V4L2_COLORSPACE_SRGB in
  let fmt' := SubdevFmt (which fmt) (pad fmt) f in
  if which fmt =? V4L2_SUBDEV_FORMAT_TRY then
    (0, s, (if subdev_api then <[Z.to_nat (pad fmt) := f]> cfg else cfg), fmt')
  else
    (0, Sensor (fmt_width f) (fmt_height f) (power_count s) (reset_gpio s) best_mode,
     cfg, fmt').

(** ** The board: bus, clock and reset line *)

(** What the driver does to the outside world, in program order.  The
    [dev_info]/[dev_err]/[dev_dbg] messages are not recorded. *)
Inductive fw_call : Type :=
| CtrlHandlerInit | MediaEntityPadsInit | AsyncRegisterSubdev
| PmRuntimeEnable | MediaEntityCleanup | CtrlHandlerFree | MutexDestroy.

Inductive event : Type :=
| EvClkPrepareEnable (ret : Z)
| EvClkDisableUnprepare
| EvGpioSet (value : Z)
| EvUsleepRange (lo hi : Z)
| EvI2cSend (data : list Z) (ret : Z)
| EvI2cRecv (count : Z) (ret : Z)
| EvWarnOn
| EvFramework (c : fw_call) (ret : Z).

(** The sensor's register file behind the two-wire bus, the clock's
    enable count, the level of the reset line, and the outcomes that the
    next bus transfers and clock requests will have: an entry below zero
    is the errno with which the next call fails, any other entry (or
    none) lets it succeed. *)
Record board : Type := Board {
  regs : gmap Z Z;
  reg_ptr : Z;
  xclk_enabled : Z;
  reset_level : Z;
  i2c_faults : list Z;
  clk_faults : list Z;
  trace : list event
}.

Record world : Type := World { sensor : ov5647; hw : board }.

Definition reg_value (b : board) (a : Z) : Z := default 0 (regs b !! a).

Definition next_fault (l : list Z) : Z * list Z :=
  match l with
  | [] => (0, [])
  | e :: rest => (e, rest)
  end.

(** The sensor's side of a completed write transfer: two address bytes,
    optionally followed by one data byte. *)
Definition sccb_receive (data : list Z) (b : board) : gmap Z Z * Z :=
  match data with
  | [hi; lo] => (regs b, hi * 256 + lo)
  | [hi; lo; v] => (<[hi * 256 + lo := v]> (regs b), hi * 256 + lo)
  | _ => (regs b, reg_ptr b)
  end.

(** ** A state monad over the world *)

Definition M (A : Type) : Type := world -> A * world.

Definition pure {A : Type} (a : A) : M A := fun w => (a, w).

Definition bind {A B : Type} (m : M A) (k : A -> M B) : M B :=
  fun w => let (a, w') := m w in k a w'.

Notation "x <- m ;; k" := (bind m (fun x => k))
  (at level 100, m at next level, right associativity).
Notation "m ;;; k" := (bind m (fun _ => k))
  (at level 100, right associativity).

Definition on_board {A : Type} (f : board -> A * board) : M A :=
  fun w => let (a, b) := f (hw w) in (a, World (sensor w) b).

Definition get_sensor : M ov5647 := fun w => (sensor w, w).

Definition put_sensor (s : ov5647) : M unit := fun w => (tt, World s (hw w)).

Definition emit (e : event) : M unit :=
  on_board (fun b =>
    (tt, Board (regs b) (reg_ptr b) (xclk_enabled b) (reset_level b)
               (i2c_faults b) (clk_faults b) (trace b ++ [e]))).

(** ** External capabilities *)

(** [i2c_master_send(client, data, count)]: the number of bytes sent, or
    a negative errno. *)
Definition i2c_master_send (data : list Z) (count : Z) : M Z :=
  on_board (fun b =>
    let (e, rest) := next_fault (i2c_faults b) in
    if e <? 0 then
      (e, Board (regs b) (reg_ptr b) (xclk_enabled b) (reset_level b)
                rest (clk_faults b) (trace b ++ [EvI2cSend data e]))
    else
      let (r, p) := sccb_receive data b in
      (count, Board r p (xclk_enabled b) (reset_level b)
                    rest (clk_faults b) (trace b ++ [EvI2cSend data count]))).

(** [i2c_master_recv(client, val, count)] with [count = 1]: the return
    value and the byte received. *)
Definition i2c_master_recv (count : Z) : M (Z * Z) :=
  on_board (fun b =>
    let (e, rest) := next_fault (i2c_faults b) in
    if e <? 0 then
      ((e, 0), Board (regs b) (reg_ptr b) (xclk_enabled b) (reset_level b)
                     rest (clk_faults b) (trace b ++ [EvI2cRecv count e]))
    else
      ((count, to_u8 (reg_value b (reg_ptr b))),
       Board (regs b) (reg_ptr b) (xclk_enabled b) (reset_level b)
             rest (clk_faults b) (trace b ++ [EvI2cRecv count count]))).

(** [clk_prepare_enable(xclk)]: 0, or a negative errno. *)
Definition clk_prepare_enable : M Z :=
  on_board (fun b =>
    let (e, rest) := next_fault (clk_faults b) in
    if e <? 0 then
      (e, Board (regs b) (reg_ptr b) (xclk_enabled b) (reset_level b)
                (i2c_faults b) rest (trace b ++ [EvClkPrepareEnable e]))
    else
      (0, Board (regs b) (reg_ptr b) (xclk_enabled b + 1) (reset_level b)
                (i2c_faults b) rest (trace b ++ [EvClkPrepareEnable 0]))).

(** [clk_disable_unprepare(xclk)] *)
Definition clk_disable_unprepare : M unit :=
  on_board (fun b =>
    (tt, Board (regs b) (reg_ptr b) (xclk_enabled b - 1) (reset_level b)
               (i2c_faults b) (clk_faults b)
               (trace b ++ [EvClkDisableUnprepare]))).

(** [gpiod_set_value_cansleep(reset_gpio, value)] *)
Definition gpiod_set_value_cansleep (value : Z) : M unit :=
  on_board (fun b =>
    (tt, Board (regs b) (reg_ptr b) (xclk_enabled b) value
               (i2c_faults b) (clk_faults b) (trace b ++ [EvGpioSet value]))).

Definition usleep_range (lo hi : Z) : M unit := emit (EvUsleepRange lo hi).

(** ** Register transport *)

(** [ov5647_write(sd, reg, val)] with [u16 reg, u8 val]. *)
Definition ov5647_write (reg val : Z) : M Z :=
  let reg := to_u16 reg in
  let val := to_u8 val in
  i2c_master_send [to_u8 (Z.shiftr reg 8); to_u8 (Z.land reg 0xff); val] 3.

(** [ov5647_read(sd, reg, &val)]: the return value and the byte stored
    through [val].  When the transfer fails the C code leaves [*val]
    untouched and every caller that goes on to use it only logs it. *)
Definition ov5647_read (reg : Z) : M (Z * Z) :=
  let reg := to_u16 reg in
  ret <- i2c_master_send [to_u8 (Z.shiftr reg 8); to_u8 (Z.land reg 0xff)] 2 ;;
  if ret <? 0 then pure (ret, 0)
  else i2c_master_recv 1.

(** The loop of [ov5647_write_array] over the entries still to write. *)
Fixpoint write_regs (rs : list regval_list) : M Z :=
  match rs with
  | [] => pure 0
  | r :: rest =>
      ret <- ov5647_write (addr r) (data r) ;;
      if ret <? 0 then pure ret else write_regs rest
  end.

(** [ov5647_write_array(sd, regs, array_size)] *)
Definition ov5647_write_array (rs : list regval_list) (array_size : Z) : M Z :=
  write_regs (take (Z.to_nat array_size) rs).

Definition ARRAY_SIZE {A : Type} (l : list A) : Z := Z.of_nat (length l).

(** [ov5647_set_virtual_channel(sd, channel)] *)
Definition ov5647_set_virtual_channel (channel : Z) : M Z :=
  r <- ov5647_read OV5647_REG_MIPI_CTRL14 ;;
  let (ret, channel_id) := r : Z * Z in
  if ret <? 0 then pure ret
  else
    let channel_id := to_u8 (Z.land channel_id (Z.lnot (Z.shiftl 3 6))) in
    ov5647_write OV5647_REG_MIPI_CTRL14
                 (Z.lor channel_id (to_int (Z.shiftl channel 6))).

(** ** Streaming *)

(** [ov5647_stream_on]; the first read only feeds a log message. *)
Definition ov5647_stream_on : M Z :=
  _ <- ov5647_read OV5647_REG_MIPI_CTRL00 ;;
  ret <- ov5647_write OV5647_REG_MIPI_CTRL00
           (Z.lor MIPI_CTRL00_LINE_SYNC_ENABLE MIPI_CTRL00_BUS_IDLE) ;;
  if ret <? 0 then pure ret
  else
    ret <- ov5647_write OV5647_REG_FRAME_OFF_NUMBER 0x00 ;;
    if ret <? 0 then pure ret
    else ov5647_write OV5640_REG_PAD_OUT 0x00.

(** [ov5647_stream_off] *)
Definition ov5647_stream_off : M Z :=
  ret <- ov5647_write OV5647_REG_MIPI_CTRL00
           (Z.lor (Z.lor MIPI_CTRL00_CLOCK_LANE_GATE MIPI_CTRL00_BUS_IDLE)
                  MIPI_CTRL00_CLOCK_LANE_DISABLE) ;;
  if ret <? 0 then pure ret
  else
    ret <- ov5647_write OV5647_REG_FRAME_OFF_NUMBER 0x0f ;;
    if ret <? 0 then pure ret
    else ov5647_write OV5640_REG_PAD_OUT 0x01.

(** [ov5647_s_stream(sd, enable)] *)
Definition ov5647_s_stream (enable : Z) : M Z :=
  if truthy enable then ov5647_stream_on else ov5647_stream_off.

(** [set_sw_standby(sd, standby)] *)
Definition set_sw_standby (standby : bool) : M Z :=
  r <- ov5647_read OV5647_SW_STANDBY ;;
  let (ret, rdval) := r : Z * Z in
  if ret <? 0 then pure ret
  else
    let rdval :=
      if standby then to_u8 (Z.land rdval (Z.lnot 0x01))
      else to_u8 (Z.lor rdval 0x01) in
    ov5647_write OV5647_SW_STANDBY rdval.

(** ** Power sequencing *)

(** [__sensor_init]; the read of [MIPI_CTRL00] only feeds a log message. *)
Definition __sensor_init : M Z :=
  s <- get_sensor ;;
  let mode := mode_at (current_mode s) in
  r <- ov5647_read OV5647_SW_STANDBY ;;
  if fst r <? 0 then pure (fst r)
  else
    ret <- ov5647_write_array (reg_list mode) (num_regs mode) ;;
    if ret <? 0 then pure ret
    else
      _ <- ov5647_read OV5647_REG_MIPI_CTRL00 ;;
      ret <- ov5647_set_virtual_channel 0 ;;
      if ret <? 0 then pure ret
      else
        r <- ov5647_read OV5647_SW_STANDBY ;;
        let (ret, resetval) := r : Z * Z in
        if ret <? 0 then pure ret
        else
          if Z.land resetval 0x01 =? 0 then
            ret <- ov5647_write OV5647_SW_STANDBY 0x01 ;;
            if ret <? 0 then pure ret
            else ov5647_stream_off
          else ov5647_stream_off.

(** [if (!IS_ERR_OR_NULL(ov5647->reset_gpio)) {
       gpiod_set_value_cansleep(ov5647->reset_gpio, 0);
       usleep_range(5000, 10000); }] *)
Definition deassert_reset : M unit :=
  s <- get_sensor ;;
  if reset_gpio s
  then gpiod_set_value_cansleep 0 ;;; usleep_range 5000 10000
  else pure tt.

(** [if (!IS_ERR_OR_NULL(ov5647->reset_gpio))
       gpiod_set_value_cansleep(ov5647->reset_gpio, 1);] *)
Definition assert_reset : M unit :=
  s <- get_sensor ;;
  if reset_gpio s then gpiod_set_value_cansleep 1 else pure tt.

Definition with_power_count (pc : Z) (s : ov5647) : ov5647 :=
  Sensor (sensor_width s) (sensor_height s) pc (reset_gpio s) (current_mode s).

(** The tail of [ov5647_sensor_power] that is skipped by [goto out]:
    [power_count += on ? 1 : -1; WARN_ON(power_count < 0);] *)
Definition update_power_count (on : Z) : M unit :=
  s <- get_sensor ;;
  let pc := to_int (power_count s + (if truthy on then 1 else -1)) in
  put_sensor (with_power_count pc s) ;;;
  if pc <? 0 then emit EvWarnOn else pure tt.

(** [ov5647_sensor_power(sd, on)], the body between [mutex_lock] and
    [mutex_unlock]. *)
Definition ov5647_sensor_power (on : Z) : M Z :=
  s <- get_sensor ;;
  if truthy on && (power_count s =? 0) then
    ret <- clk_prepare_enable ;;
    if ret <? 0 then pure ret
    else
      deassert_reset ;;;
      ret <- ov5647_write_array sensor_oe_enable_regs
                                (ARRAY_SIZE sensor_oe_enable_regs) ;;
      if ret <? 0 then clk_disable_unprepare ;;; pure ret
      else
        ret <- __sensor_init ;;
        if ret <? 0 then clk_disable_unprepare ;;; pure ret
        else update_power_count on ;;; pure ret
  else if negb (truthy on) && (power_count s =? 1) then
    _ <- ov5647_write_array sensor_oe_disable_regs
                            (ARRAY_SIZE sensor_oe_disable_regs) ;;
    ret <- set_sw_standby true ;;
    clk_disable_unprepare ;;;
    assert_reset ;;;
    update_power_count on ;;; pure ret
  else
    update_power_count on ;;; pure 0.

(** The four steps of the power-on branch, run without looking at their
    results, and the four steps of the power-off branch. *)
Definition power_on_sequence : M Z :=
  clk_prepare_enable ;;;
  deassert_reset ;;;
  ov5647_write_array sensor_oe_enable_regs (ARRAY_SIZE sensor_oe_enable_regs) ;;;
  __sensor_init.

Definition power_off_sequence : M unit :=
  ov5647_write_array sensor_oe_disable_regs (ARRAY_SIZE sensor_oe_disable_regs) ;;;
  set_sw_standby true ;;;
  clk_disable_unprepare ;;;
  assert_reset.

(** [n] calls of the same operation in a row. *)
Fixpoint repeat_op (n : nat) (m : M Z) : M unit :=
  match n with
  | O => pure tt
  | S k => m ;;; repeat_op k m
  end.

(** The specification's names for the two uses of [ov5647_sensor_power]. *)
Definition acquire : M Z := ov5647_sensor_power 1.
Definition release : M Z := ov5647_sensor_power 0.

(** The board after [WARN_ON] fired. *)
Definition warned (b : board) : board :=
  Board (regs b) (reg_ptr b) (xclk_enabled b) (reset_level b)
        (i2c_faults b) (clk_faults b) (trace b ++ [EvWarnOn]).

(** The stages of the first acquire: the clock request, the reset line,
    the output-enable group, the sensor initialisation. *)
Definition stage_clock (w : world) : Z * world := clk_prepare_enable w.
Definition stage_reset (w : world) : world :=
  snd (deassert_reset (snd (stage_clock w))).
Definition stage_oe (w : world) : Z * world :=
  ov5647_write_array sensor_oe_enable_regs (ARRAY_SIZE sensor_oe_enable_regs)
                     (stage_reset w).
Definition stage_init (w : world) : Z * world :=
  __sensor_init (snd (stage_oe w)).

(** The first acquire fails with [e]: at the clock, at the output-enable
    writes, or in the sensor initialisation. *)
Definition acquire_fails_with (w : world) (e : Z) : Prop :=
  e < 0 /\
  (fst (stage_clock w) = e \/
   (0 <= fst (stage_clock w) /\ fst (stage_oe w) = e) \/
   (0 <= fst (stage_clock w) /\ 0 <= fst (stage_oe w) /\ fst (stage_init w) = e)).

(** ** Controls *)

(** [struct v4l2_ctrl], the two fields [ov5647_s_ctrl] reads. *)
Record v4l2_ctrl : Type := Ctrl { id : Z; val : Z }.

(** [ov5647_s_ctrl] *)
Definition ov5647_s_ctrl (ctrl : v4l2_ctrl) : M Z :=
  s <- get_sensor ;;
  if power_count s =? 0 then pure 0
  else
    ret <-
      (if id ctrl =? V4L2_CID_AUTO_WHITE_BALANCE then
         ov5647_write OV5647_REG_AWB (if truthy (val ctrl) then 1 else 0)
       else if id ctrl =? V4L2_CID_AUTOGAIN then
         r <- ov5647_read OV5647_REG_AEC_AGC ;;
         let (ret, reg) := r : Z * Z in
         if ret <? 0 then pure ret
         else
           let reg :=
             if truthy (val ctrl)
             then to_u8 (Z.land reg (Z.lnot OV5647_AGC_ENABLE))
             else to_u8 (Z.lor reg OV5647_AGC_ENABLE) in
           ov5647_write OV5647_REG_AEC_AGC reg
       else if id ctrl =? V4L2_CID_EXPOSURE_AUTO then
         r <- ov5647_read OV5647_REG_AEC_AGC ;;
         let (ret, reg) := r : Z * Z in
         if ret <? 0 then pure ret
         else
           let reg :=
             if val ctrl =? V4L2_EXPOSURE_AUTO
             then to_u8 (Z.land reg (Z.lnot OV5647_AEC_ENABLE))
             else to_u8 (Z.lor reg OV5647_AEC_ENABLE) in
           ov5647_write OV5647_REG_AEC_AGC reg
       else if id ctrl =? V4L2_CID_EXPOSURE then
         ret <- ov5647_write OV5647_REG_EXPOSURE_HI
                  (Z.land (Z.shiftr (val ctrl) 12) 0x0f) ;;
         if ret <? 0 then pure ret
         else
           ret <- ov5647_write OV5647_REG_EXPOSURE_MID
                    (Z.land (Z.shiftr (val ctrl) 4) 0xff) ;;
           if ret <? 0 then pure ret
           else
             ov5647_write OV5647_REG_EXPOSURE_LO
               (Z.land (to_int (Z.shiftl (val ctrl) 4)) 0xf0)
       else if id ctrl =? V4L2_CID_ANALOGUE_GAIN then
         ret <- ov5647_write OV5647_REG_GAIN_HI
                  (Z.land (Z.shiftr (val ctrl) 8) 0x03) ;;
         if ret <? 0 then pure ret
         else ov5647_write OV5647_REG_GAIN_LO (Z.land (val ctrl) 0xff)
       else pure (- EINVAL)) ;;
    pure (if ret <? 0 then ret else 0).

(** ** Detection and attach *)

(** [ov5647_detect] *)
Definition ov5647_detect : M Z :=
  ret <- ov5647_write OV5647_SW_RESET 0x01 ;;
  if ret <? 0 then pure ret
  else
    r <- ov5647_read OV5647_REG_CHIPID_H ;;
    let (ret, read) := r : Z * Z in
    if ret <? 0 then pure ret
    else if negb (read =? 0x56) then pure (- ENODEV)
    else
      r <- ov5647_read OV5647_REG_CHIPID_L ;;
      let (ret, read) := r : Z * Z in
      if ret <? 0 then pure ret
      else if negb (read =? 0x47) then pure (- ENODEV)
      else ov5647_write OV5647_SW_RESET 0x00.

(** [__ov5647_power_on] *)
Definition __ov5647_power_on : M Z :=
  ret <- clk_prepare_enable ;;
  if ret <? 0 then pure ret
  else deassert_reset ;;; pure 0.

(** [__ov5647_power_off] *)
Definition __ov5647_power_off : M unit :=
  assert_reset ;;; clk_disable_unprepare.

(** What the kernel answers to [ov5647_probe]'s requests: allocation,
    device-tree endpoint, clock lookup and rate, optional reset GPIO,
    control-handler set-up ([ov5647_init_controls], framework calls only),
    pad initialisation and asynchronous registration. *)
Record probe_env : Type := ProbeEnv {
  kzalloc_ok : bool;
  of_node : bool;
  parse_dt_ret : Z;
  clk_get_err : Z;
  clk_rate : Z;
  reset_gpio_found : bool;
  init_controls_ret : Z;
  pads_init_ret : Z;
  register_ret : Z
}.

Definition framework (c : fw_call) (ret : Z) : M Z :=
  emit (EvFramework c ret) ;;; pure ret.

(** The labels at the end of [ov5647_probe]. *)
Definition probe_mutex_remove (ret : Z) : M Z :=
  framework MutexDestroy 0 ;;; pure ret.
Definition probe_ctrl_free (ret : Z) : M Z :=
  framework CtrlHandlerFree 0 ;;; probe_mutex_remove ret.
Definition probe_error (ret : Z) : M Z :=
  framework MediaEntityCleanup 0 ;;; probe_ctrl_free ret.
Definition probe_power_off (ret : Z) : M Z :=
  __ov5647_power_off ;;; probe_error ret.

(** [devm_gpiod_get_optional(dev, "reset", GPIOD_OUT_HIGH)]: a line that
    is found is driven to logical one. *)
Definition devm_gpiod_get_optional (found : bool) : M bool :=
  on_board (fun b =>
    (found, Board (regs b) (reg_ptr b) (xclk_enabled b)
                  (if found then 1 else reset_level b)
                  (i2c_faults b) (clk_faults b) (trace b))).

(** [ov5647_probe]; the sensor structure comes zeroed from
    [devm_kzalloc]. *)
Definition ov5647_probe (env : probe_env) : M Z :=
  if negb (kzalloc_ok env) then pure (- ENOMEM)
  else if of_node env && negb (parse_dt_ret env =? 0) then pure (parse_dt_ret env)
  else if negb (clk_get_err env =? 0) then pure (clk_get_err env)
  else if negb (to_u32 (clk_rate env) =? 25000000) then pure (- EINVAL)
  else
    gpio <- devm_gpiod_get_optional (reset_gpio_found env) ;;
    put_sensor (Sensor 0 0 0 gpio 0) ;;;
    ret <- framework CtrlHandlerInit (init_controls_ret env) ;;
    if negb (ret =? 0) then probe_mutex_remove ret
    else
      ret <- framework MediaEntityPadsInit (pads_init_ret env) ;;
      if ret <? 0 then probe_ctrl_free ret
      else
        ret <- __ov5647_power_on ;;
        if negb (ret =? 0) then probe_error ret
        else
          ret <- ov5647_detect ;;
          if ret <? 0 then probe_power_off ret
          else
            ret <- framework AsyncRegisterSubdev (register_ret env) ;;
            if ret <? 0 then probe_power_off ret
            else framework PmRuntimeEnable 0 ;;; pure 0.

(** ** The specification's cost function *)

(** The penalty the specification calls [LARGE_PENALTY]. *)
Definition LARGE_PENALTY : Z := 10000.

(** The dimension distance and the cost of the specification's Mode
    Selector, over the integers. *)
Definition dim_distance (m : ov5647_mode) (w h : Z) : Z :=
  Z.abs (width m - w) + Z.abs (height m - h).

Definition cost (m : ov5647_mode) (w h fcode : Z) : Z :=
  dim_distance m w h + (if mbus_code m =? fcode then 0 else LARGE_PENALTY).

(** No 32-bit operation of the selection loop wraps on this request. *)
Definition no_wrap (w h fcode : Z) : Prop :=
  0 <= w < 2 ^ 31 /\ 0 <= h < 2 ^ 31 /\
  Forall (fun m => cost m w h fcode < 2 ^ 32) ov5647_modes.

(** ** Vocabulary of the statements *)

(** The board after a successful register write of [val] to [reg]. *)
Definition wr (reg val : Z) (b : board) : board :=
  Board (<[reg := val]> (regs b)) reg (xclk_enabled b) (reset_level b)
        (snd (next_fault (i2c_faults b))) (clk_faults b)
        (trace b ++ [EvI2cSend [reg / 256; reg mod 256; val] 3]).

(** The board after a transfer that failed with [ev]. *)
Definition failed (ev : event) (b : board) : board :=
  Board (regs b) (reg_ptr b) (xclk_enabled b) (reset_level b)
        (snd (next_fault (i2c_faults b))) (clk_faults b) (trace b ++ [ev]).

(** The board after the address phase of a register read. *)
Definition addressed (reg : Z) (b : board) : board :=
  Board (regs b) reg (xclk_enabled b) (reset_level b)
        (snd (next_fault (i2c_faults b))) (clk_faults b)
        (trace b ++ [EvI2cSend [reg / 256; reg mod 256] 2]).

(** The board after the data phase of a register read. *)
Definition received (b : board) : board :=
  Board (regs b) (reg_ptr b) (xclk_enabled b) (reset_level b)
        (snd (next_fault (i2c_faults b))) (clk_faults b)
        (trace b ++ [EvI2cRecv 1 1]).

Definition is_i2c (e : event) : bool :=
  match e with
  | EvI2cSend _ _ | EvI2cRecv _ _ => true
  | _ => false
  end.

Definition is_clk_enable (e : event) : bool :=
  match e with EvClkPrepareEnable _ => true | _ => false end.

Definition is_clk_disable (e : event) : bool :=
  match e with EvClkDisableUnprepare => true | _ => false end.

Definition is_registration (e : event) : bool :=
  match e with EvFramework AsyncRegisterSubdev _ => true | _ => false end.

Fixpoint count_ev (p : event -> bool) (t : list event) : nat :=
  match t with
  | [] => 0
  | e :: rest => (if p e then 1 else 0) + count_ev p rest
  end.

(** [w'] differs from [w] by bus traffic only: the driver's structure,
    the clock and the reset line are as before and the trace grew by
    transfers. *)
Definition bus_frame (w w' : world) : Prop :=
  sensor w' = sensor w /\
  xclk_enabled (hw w') = xclk_enabled (hw w) /\
  reset_level (hw w') = reset_level (hw w) /\
  clk_faults (hw w') = clk_faults (hw w) /\
  exists t, trace (hw w') = trace (hw w) ++ t /\ forallb is_i2c t = true.

Definition bus_only {A : Type} (m : M A) : Prop :=
  forall w, bus_frame w (snd (m w)).

(** A board with an empty register file, the clock off, the reset line
    asserted and no failure scheduled, and a freshly attached driver. *)
Definition idle_board : board := Board ∅ 0 0 1 [] [] [].
Definition fresh_world : world := World (Sensor 0 0 0 true 0) idle_board.

(** A driver that holds one power reference, on the idle board. *)
Definition powered_world : world := World (Sensor 640 480 1 true 0) idle_board.

(** No bus transfer on the board's script fails. *)
Definition transfers_succeed (b : board) : Prop :=
  Forall (fun e => 0 <= e) (i2c_faults b).

(** The kernel's answers let [ov5647_probe] get as far as
    [ov5647_detect]: every request before it succeeds. *)
Definition probe_reaches_detect (env : probe_env) (b : board) : Prop :=
  kzalloc_ok env = true /\
  (of_node env = false \/ parse_dt_ret env = 0) /\
  clk_get_err env = 0 /\
  to_u32 (clk_rate env) = 25000000 /\
  init_controls_ret env = 0 /\
  0 <= pads_init_ret env /\
  0 <= fst (next_fault (clk_faults b)).

(** The transfers of [ov5647_detect] when the high byte, or else the low
    byte, of the chip identifier is wrong, and when both are right. *)
Definition detect_transfers (idh idl : Z) : list event :=
  [EvI2cSend [0x01; 0x03; 0x01] 3; EvI2cSend [0x30; 0x0a] 2; EvI2cRecv 1 1] ++
  (if idh =? 0x56
   then [EvI2cSend [0x30; 0x0b] 2; EvI2cRecv 1 1] ++
        (if idl =? 0x47 then [EvI2cSend [0x01; 0x03; 0x00] 3] else [])
   else []).

(** What [ov5647_probe] does when detection fails on a chip identifier:
    set-up, power-on, the transfers of [ov5647_detect], then the
    [power_off], [error], [ctrl_free] and [mutex_remove] labels. *)
Definition probe_abort_trace (gpio : bool) (pads_ret idh idl : Z) : list event :=
  [EvFramework CtrlHandlerInit 0; EvFramework MediaEntityPadsInit pads_ret;
   EvClkPrepareEnable 0] ++
  (if gpio then [EvGpioSet 0; EvUsleepRange 5000 10000] else []) ++
  detect_transfers idh idl ++
  (if gpio then [EvGpioSet 1] else []) ++
  [EvClkDisableUnprepare; EvFramework MediaEntityCleanup 0;
   EvFramework CtrlHandlerFree 0; EvFramework MutexDestroy 0].

(** Register writes (two address bytes and a data byte) on the bus. *)
Definition is_reg_write (e : event) : bool :=
  match e with
  | EvI2cSend [_; _; _] _ => true
  | _ => false
  end.

(** Answers of the kernel under which [ov5647_probe] reaches detection,
    and a world whose sensor reports 0x55 as the high identifier byte. *)
Definition probe_env_ok : probe_env := ProbeEnv true true 0 0 25000000 true 0 0 0.

Definition wrong_chip_world : world :=
  World (Sensor 0 0 0 false 0)
        (Board (<[0x300a := 0x55]> (<[0x300b := 0x47]> ∅)) 0 0 1 [] [] []).

(** Three worlds in which the first acquire fails: the clock request is
    refused, the second output-enable write fails, and a transfer during
    the sensor initialisation fails. *)
Definition clock_fault_world : world :=
  World (Sensor 0 0 0 true 0) (Board ∅ 0 0 1 [] [-16] []).
Definition oe_fault_world : world :=
  World (Sensor 0 0 0 true 0) (Board ∅ 0 0 1 [0; -121] [] []).
Definition init_fault_world : world :=
  World (Sensor 0 0 0 true 0) (Board ∅ 0 0 1 [0; 0; 0; 0; 0; 0; 0; -110] [] []).

(** ** Further sub-device operations *)

Definition ENOTTY : Z := 25.

Definition V4L2_SEL_TGT_CROP : Z := 0x0000.
Definition V4L2_SEL_TGT_CROP_DEFAULT : Z := 0x0001.
Definition V4L2_SEL_TGT_CROP_BOUNDS : Z := 0x0002.
Definition V4L2_SEL_TGT_NATIVE_SIZE : Z := 0x0003.

Definition OV5647_NATIVE_WIDTH : Z := 2624.
Definition OV5647_NATIVE_HEIGHT : Z := 1956.

(** [struct v4l2_dbg_register], the fields the driver uses. *)
Record v4l2_dbg_register : Type := DbgReg {
  dbg_reg : Z;
  dbg_val : Z;
  dbg_size : Z
}.

(** [ov5647_sensor_get_register] (under [CONFIG_VIDEO_ADV_DEBUG]): the
    return value and the register description handed back. *)
Definition ov5647_sensor_get_register (reg : v4l2_dbg_register)
    : M (Z * v4l2_dbg_register) :=
  r <- ov5647_read (Z.land (dbg_reg reg) 0xff) ;;
  let (ret, val) := r : Z * Z in
  if ret <? 0 then pure (ret, reg)
  else pure (0, DbgReg (dbg_reg reg) val 1).

(** [ov5647_sensor_set_register] (under [CONFIG_VIDEO_ADV_DEBUG]) *)
Definition ov5647_sensor_set_register (reg : v4l2_dbg_register) : M Z :=
  ov5647_write (Z.land (dbg_reg reg) 0xff) (Z.land (dbg_val reg) 0xff).

(** [ov5647_enum_mbus_code]: the return value and [code->code]. *)
Definition ov5647_enum_mbus_code (index code : Z) : Z * Z :=
  if index =? 0 then (0, MEDIA_BUS_FMT_SBGGR8_1X8)
  else if index =? 1 then (0, MEDIA_BUS_FMT_SBGGR10_1X10)
  else (- EINVAL, code).

(** [struct v4l2_subdev_frame_size_enum] *)
Record v4l2_subdev_frame_size_enum : Type := FrameSizeEnum {
  fse_index : Z;
  fse_code : Z;
  min_width : Z;
  max_width : Z;
  min_height : Z;
  max_height : Z
}.

(** [ov5647_enum_frame_size] *)
Definition ov5647_enum_frame_size (fse : v4l2_subdev_frame_size_enum)
    : Z * v4l2_subdev_frame_size_enum :=
  if OV5647_NUM_MODES <=? fse_index fse then (- EINVAL, fse)
  else if negb (fse_code fse =? mbus_code (mode_at (fse_index fse)))
  then (- EINVAL, fse)
  else
    (0, FrameSizeEnum (fse_index fse) (fse_code fse)
          (width (mode_at (fse_index fse))) (width (mode_at (fse_index fse)))
          (height (mode_at (fse_index fse))) (height (mode_at (fse_index fse)))).

(** [ov5647_get_fmt].  A [pad] outside [cfg] has no meaning in C (the
    framework checks it before the call) and leaves the format as it is
    here. *)
Definition ov5647_get_fmt (subdev_api : bool) (s : ov5647)
    (cfg : list v4l2_mbus_framefmt) (fmt : v4l2_subdev_format)
    : Z * v4l2_subdev_format :=
  let mode := mode_at (current_mode s) in
  if which fmt =? V4L2_SUBDEV_FORMAT_TRY then
    if subdev_api
    then (0, SubdevFmt (which fmt) (pad fmt)
               (default (format fmt) (cfg !! Z.to_nat (pad fmt))))
    else (- ENOTTY, fmt)
  else
    (0, SubdevFmt (which fmt) (pad fmt)
          (FrameFmt (width mode) (height mode) (mbus_code mode)
                    V4L2_FIELD_NONE V4L2_COLORSPACE_SRGB)).

(** [struct v4l2_rect] *)
Record v4l2_rect : Type := Rect {
  left : Z;
  top : Z;
  rect_width : Z;
  rect_height : Z
}.

(** [ov5647_get_selection]: the return value and [sel->r]. *)
Definition ov5647_get_selection (s : ov5647) (target : Z) (r : v4l2_rect)
    : Z * v4l2_rect :=
  let mode := mode_at (current_mode s) in
  if target =? V4L2_SEL_TGT_CROP then
    (0, Rect 0 0 (width mode) (height mode))
  else if target =? V4L2_SEL_TGT_NATIVE_SIZE then
    (0, Rect 0 0 OV5647_NATIVE_WIDTH OV5647_NATIVE_HEIGHT)
  else if (target =? V4L2_SEL_TGT_CROP_DEFAULT) || (target =? V4L2_SEL_TGT_CROP_BOUNDS) then
    (0, Rect 0 0 (width mode) (height mode))
  else (- EINVAL, r).

(** [ov5647_runtime_resume] and [ov5647_runtime_suspend] *)
Definition ov5647_runtime_resume : M Z := __ov5647_power_on.

Definition ov5647_runtime_suspend : M Z := __ov5647_power_off ;;; pure 0.

(** ** Further vocabulary of the statements *)

(** The transfer of one successful table write, and the register file
    after a list of them. *)
Definition write_event (r : regval_list) : event :=
  EvI2cSend [to_u16 (addr r) / 256; to_u16 (addr r) mod 256; to_u8 (data r)] 3.

Definition store_regs (rs : list regval_list) (m : gmap Z Z) : gmap Z Z :=
  fold_left (fun m r => <[to_u16 (addr r) := to_u8 (data r)]> m) rs m.

(** The transfer of a table write that failed with [e]. *)
Definition failed_write_event (r : regval_list) (e : Z) : event :=
  EvI2cSend [to_u16 (addr r) / 256; to_u16 (addr r) mod 256; to_u8 (data r)] e.

(** The byte a register file holds at an address, the two transfers of a
    successful register read, and the three writes of
    [ov5647_stream_off]. *)
Definition reg_byte (r : gmap Z Z) (a : Z) : Z := to_u8 (default 0 (r !! a)).

Definition read_events (reg : Z) : list event :=
  [EvI2cSend [to_u16 reg / 256; to_u16 reg mod 256] 2; EvI2cRecv 1 1].

Definition stream_off_events : list event :=
  [EvI2cSend [0x48; 0x00; 0x25] 3; EvI2cSend [0x42; 0x02; 0x0f] 3;
   EvI2cSend [0x30; 0x0d; 0x01] 3].

(** What a fault-free [__sensor_init] of [mode] sends, starting from the
    register file [r0]: the standby read, the mode's table, the logged
    read, the virtual-channel update, the standby check and the
    stream-off group; and the register file it leaves. *)
Definition sensor_init_channel (mode : ov5647_mode) (r0 : gmap Z Z) : Z :=
  reg_byte (store_regs (reg_list mode) r0) 0x4814 mod 64.

Definition sensor_init_standby_regs (mode : ov5647_mode) (r0 : gmap Z Z) : gmap Z Z :=
  <[0x4814 := sensor_init_channel mode r0]> (store_regs (reg_list mode) r0).

Definition sensor_init_trace (mode : ov5647_mode) (r0 : gmap Z Z) : list event :=
  read_events 0x0100 ++
  map write_event (reg_list mode) ++
  read_events 0x4800 ++
  read_events 0x4814 ++
  [EvI2cSend [0x48; 0x14; sensor_init_channel mode r0] 3] ++
  read_events 0x0100 ++
  (if Z.land (reg_byte (sensor_init_standby_regs mode r0) 0x0100) 0x01 =? 0
   then [EvI2cSend [0x01; 0x00; 0x01] 3] else []) ++
  stream_off_events.

Definition sensor_init_regs (mode : ov5647_mode) (r0 : gmap Z Z) : gmap Z Z :=
  let r := sensor_init_standby_regs mode r0 in
  <[0x300d := 0x01]> (<[0x4202 := 0x0f]> (<[0x4800 := 0x25]>
    (if Z.land (reg_byte r 0x0100) 0x01 =? 0 then <[0x0100 := 0x01]> r else r))).

(** The full power-on sequence of a fault-free first acquire: clock,
    reset line (when the GPIO is there), output-enable group, sensor
    initialisation in [mode]. *)
Definition power_on_trace (gpio : bool) (mode : ov5647_mode) (r0 : gmap Z Z)
    : list event :=
  [EvClkPrepareEnable 0] ++
  (if gpio then [EvGpioSet 0; EvUsleepRange 5000 10000] else []) ++
  map write_event sensor_oe_enable_regs ++
  sensor_init_trace mode (store_regs sensor_oe_enable_regs r0).

Definition power_on_regs (mode : ov5647_mode) (r0 : gmap Z Z) : gmap Z Z :=
  sensor_init_regs mode (store_regs sensor_oe_enable_regs r0).

(** The full power-off sequence of a fault-free last release:
    output-disable group, software standby (bit 0 of the standby register
    cleared), clock, reset line. *)
Definition power_off_trace (gpio : bool) (r0 : gmap Z Z) : list event :=
  map write_event sensor_oe_disable_regs ++
  read_events 0x0100 ++
  [EvI2cSend [0x01; 0x00;
              2 * (reg_byte (store_regs sensor_oe_disable_regs r0) 0x0100 / 2)] 3] ++
  [EvClkDisableUnprepare] ++
  (if gpio then [EvGpioSet 1] else []).

(** On a board where no transfer fails, [m] run in [w] returns [a],
    leaves the driver's structure alone and the register file as [r], and
    adds the transfers [t] to the trace. *)
Definition bus_ok {A : Type} (m : M A) (w : world) (a : A)
    (r : gmap Z Z) (t : list event) : Prop :=
  fst (m w) = a /\
  sensor (snd (m w)) = sensor w /\
  transfers_succeed (hw (snd (m w))) /\
  regs (hw (snd (m w))) = r /\
  trace (hw (snd (m w))) = trace (hw w) ++ t.


(** The three writes of [ov5647_stream_on]. *)
Definition stream_on_events : list event :=
  [EvI2cSend [0x48; 0x00; 0x14] 3; EvI2cSend [0x42; 0x02; 0x00] 3;
   EvI2cSend [0x30; 0x0d; 0x00] 3].

(** A run of power requests, [true] for an acquire and [false] for a
    release; the use count they leave when started at [n]; and whether no
    release comes at a count of zero. *)
Fixpoint power_requests (ops : list bool) : M unit :=
  match ops with
  | [] => pure tt
  | op :: rest => ov5647_sensor_power (if op then 1 else 0) ;;; power_requests rest
  end.

Fixpoint count_after (n : Z) (ops : list bool) : Z :=
  match ops with
  | [] => n
  | op :: rest => count_after (if op then n + 1 else n - 1) rest
  end.

Fixpoint balanced_from (n : Z) (ops : list bool) : bool :=
  match ops with
  | [] => true
  | true :: rest => balanced_from (n + 1) rest
  | false :: rest => (0 <? n) && balanced_from (n - 1) rest
  end.

(** No clock request on the board's script fails. *)
Definition clock_succeeds (b : board) : Prop :=
  Forall (fun e => 0 <= e) (clk_faults b).

Definition is_warning (e : event) : bool :=
  match e with EvWarnOn => true | _ => false end.



(** ** Frame intervals and the file-handle defaults *)

Definition OV5647_ROW_START_DEF : Z := 54.
Definition OV5647_COLUMN_START_DEF : Z := 16.
Definition OV5647_WINDOW_HEIGHT_DEF : Z := 1944.
Definition OV5647_WINDOW_WIDTH_DEF : Z := 2592.

(** [struct v4l2_fract] *)
Record v4l2_fract : Type := Fract { numerator : Z; denominator : Z }.

(** [ov5647_g_frame_interval]: the return value and [fi->interval]. *)
Definition ov5647_g_frame_interval (interval : v4l2_fract) : Z * v4l2_fract :=
  (0, Fract 1 30).

(** [struct v4l2_subdev_frame_interval_enum] *)
Record v4l2_subdev_frame_interval_enum : Type := FrameIntervalEnum {
  fie_index : Z;
  fie_code : Z;
  fie_width : Z;
  fie_height : Z;
  fie_interval : v4l2_fract
}.

(** [ov5647_enum_frame_interval] *)
Definition ov5647_enum_frame_interval (fie : v4l2_subdev_frame_interval_enum)
    : Z * v4l2_subdev_frame_interval_enum :=
  if 0 <? fie_index fie then (- EINVAL, fie)
  else (0, FrameIntervalEnum (fie_index fie) MEDIA_BUS_FMT_SBGGR8_1X8 640 480
             (Fract 1 30)).

(** [ov5647_open]: the return value, and the TRY formats and TRY crop
    rectangles of the file handle's pads after pad 0 got its defaults. *)
Definition ov5647_open (cfg : list v4l2_mbus_framefmt) (crops : list v4l2_rect)
    : Z * list v4l2_mbus_framefmt * list v4l2_rect :=
  (0,
   <[0%nat := FrameFmt OV5647_WINDOW_WIDTH_DEF OV5647_WINDOW_HEIGHT_DEF
                       MEDIA_BUS_FMT_SBGGR8_1X8 V4L2_FIELD_NONE V4L2_COLORSPACE_SRGB]> cfg,
   <[0%nat := Rect OV5647_COLUMN_START_DEF OV5647_ROW_START_DEF
                   OV5647_WINDOW_WIDTH_DEF OV5647_WINDOW_HEIGHT_DEF]> crops).
(** * Properties *)

(** ** Integer conversions *)

Section CIntFacts.

Lemma to_u32_range z : 0 <= to_u32 z < 2 ^ 32.
Proof. unfold to_u32. apply Z.mod_pos_bound. lia. Qed.

Lemma to_u32_small z : 0 <= z < 2 ^ 32 -> to_u32 z = z.
Proof. intros H. unfold to_u32. apply Z.mod_small. exact H. Qed.

Lemma to_int_small z : - 2 ^ 31 <= z < 2 ^ 31 -> to_int z = z.
Proof.
  intros H. unfold to_int. rewrite Z.mod_small; lia.
Qed.

Lemma to_u32_to_int z : to_u32 (to_int z) = to_u32 z.
Proof.
  unfold to_u32, to_int.
  rewrite Zminus_mod_idemp_l. f_equal. lia.
Qed.

Lemma abs_small z : - 2 ^ 31 < z < 2 ^ 31 -> abs z = Z.abs z.
Proof.
  intros H. unfold abs. destruct (Z.ltb_spec z 0).
  - rewrite to_int_small by lia. lia.
  - lia.
Qed.

End CIntFacts.

(** ** Mode selection *)

Section ModeSelection.

Variables fw fh fcode : Z.

Let D (m : ov5647_mode) : Z := mode_diff m fw fh fcode.

Lemma mode_diff_range m : 0 <= mode_diff m fw fh fcode < 2 ^ 32.
Proof.
  unfold mode_diff. destruct (negb _); apply to_u32_range.
Qed.

(** The loop keeps the first strict minimum: either nothing beat the
    incoming [best_diff], or the result is the first entry of least
    [diff]. *)
Lemma set_fmt_loop_spec (modes : list ov5647_mode) :
  forall i bd bm,
    (set_fmt_loop modes i fw fh fcode bd bm = (bd, bm) /\
     forall m, In m modes -> bd <= D m)
    \/
    (exists (k : nat) (m : ov5647_mode),
        nth_error modes k = Some m /\
        set_fmt_loop modes i fw fh fcode bd bm = (D m, i + Z.of_nat k) /\
        D m < bd /\
        (forall j mj, (j < k)%nat -> nth_error modes j = Some mj -> D m < D mj) /\
        (forall mj, In mj modes -> D m <= D mj)).
Proof.
  induction modes as [|m rest IH]; intros i bd bm.
  - left. split; [reflexivity | intros ? []].
  - cbn [set_fmt_loop]. fold (D m).
    destruct (Z.ltb_spec (D m) bd) as [Hlt | Hge].
    + destruct (IH (i + 1) (D m) i) as [[E Hall] | (k & mk & Hk & E & Hlt' & Hbefore & Hall)].
      * right. exists 0%nat, m. cbn. rewrite E, Z.add_0_r.
        repeat split; try lia; auto.
        intros mj [<- | Hin]; [lia | auto].
      * right. exists (S k), mk. cbn [nth_error]. rewrite E.
        repeat split; auto; try lia.
        -- f_equal. lia.
        -- intros [|j] mj Hj Hnth; cbn in Hnth.
           ++ injection Hnth as <-. exact Hlt'.
           ++ apply (Hbefore j); [lia | exact Hnth].
        -- intros mj [<- | Hin]; [lia | auto].
    + destruct (IH (i + 1) bd bm) as [[E Hall] | (k & mk & Hk & E & Hlt' & Hbefore & Hall)].
      * left. split; [exact E |].
        intros mj [<- | Hin]; [exact Hge | auto].
      * right. exists (S k), mk. cbn [nth_error]. rewrite E.
        repeat split; auto; try lia.
        -- f_equal. lia.
        -- intros [|j] mj Hj Hnth; cbn in Hnth.
           ++ injection Hnth as <-. lia.
           ++ apply (Hbefore j); [lia | exact Hnth].
        -- intros mj [<- | Hin]; [lia | auto].
Qed.

(** The index chosen by the code is inside the table, its entry has the
    least 32-bit [diff], and every earlier entry has a strictly larger
    one. *)
Lemma set_fmt_best_mode_spec :
  exists (k : nat) (m : ov5647_mode),
    set_fmt_best_mode fw fh fcode = Z.of_nat k /\
    nth_error ov5647_modes k = Some m /\
    (forall j mj, (j < k)%nat -> nth_error ov5647_modes j = Some mj -> D m < D mj) /\
    (forall mj, In mj ov5647_modes -> D m <= D mj).
Proof.
  unfold set_fmt_best_mode.
  destruct (set_fmt_loop_spec ov5647_modes 0 (to_u32 (Z.lnot 0)) 0)
    as [[E Hall] | (k & mk & Hk & E & Hlt' & Hbefore & Hall)].
  - rewrite E. exists 0%nat, (mode_at 0). cbn [snd].
    split; [reflexivity |]. split; [reflexivity |].
    split; [intros j mj Hj; lia |].
    intros mj Hin.
    pose proof (Hall (mode_at 0) (or_introl eq_refl)) as Hm.
    specialize (Hall mj Hin).
    pose proof (mode_diff_range (mode_at 0)) as R0.
    pose proof (mode_diff_range mj) as Rj.
    fold (D (mode_at 0)) in R0. fold (D mj) in Rj.
    change (to_u32 (Z.lnot 0)) with (2 ^ 32 - 1) in *. lia.
  - rewrite E. exists k, mk. cbn [snd]. auto.
Qed.

End ModeSelection.

Lemma modes_bounds :
  Forall (fun m => 0 <= width m <= 2592 /\ 0 <= height m <= 1944) ov5647_modes.
Proof. unfold ov5647_modes. repeat constructor; cbn [width height]; lia. Qed.

Lemma modes_length : length ov5647_modes = 6%nat.
Proof. reflexivity. Qed.

Lemma mode_at_nth (k : nat) (m : ov5647_mode) :
  nth_error ov5647_modes k = Some m -> mode_at (Z.of_nat k) = m.
Proof.
  intros H. unfold mode_at. rewrite Nat2Z.id.
  apply nth_error_nth. exact H.
Qed.

(** Without wrap-around the loop's [diff] is the specification's cost. *)
Lemma mode_diff_cost (w h fcode : Z) (m : ov5647_mode) :
  no_wrap w h fcode -> In m ov5647_modes ->
  mode_diff m w h fcode = cost m w h fcode.
Proof.
  intros (Hw & Hh & Hc) Hin.
  pose proof (proj1 (List.Forall_forall _ _) modes_bounds m Hin) as [Bw Bh].
  pose proof (proj1 (List.Forall_forall _ _) Hc m Hin) as Hm.
  unfold cost, dim_distance, LARGE_PENALTY in Hm.
  unfold mode_diff, cost, dim_distance, LARGE_PENALTY.
  rewrite (to_int_small (width m)), (to_int_small (height m)) by lia.
  rewrite (to_int_small w), (to_int_small h) by lia.
  rewrite (to_int_small (width m - w)), (to_int_small (height m - h)) by lia.
  rewrite !abs_small by lia.
  rewrite to_u32_to_int.
  destruct (mbus_code m =? fcode); cbn [negb].
  - rewrite to_u32_small by lia. lia.
  - rewrite (to_u32_small (Z.abs _ + Z.abs _)) by lia.
    rewrite to_u32_small by lia. reflexivity.
Qed.

(** Two table entries are never as far apart as the penalty. *)
Lemma modes_spread (m1 m2 : ov5647_mode) :
  In m1 ov5647_modes -> In m2 ov5647_modes ->
  Z.abs (width m1 - width m2) + Z.abs (height m1 - height m2) < LARGE_PENALTY.
Proof.
  intros H1 H2.
  pose proof (proj1 (List.Forall_forall _ _) modes_bounds m1 H1) as [? ?].
  pose proof (proj1 (List.Forall_forall _ _) modes_bounds m2 H2) as [? ?].
  unfold LARGE_PENALTY. lia.
Qed.

(** The format handed back by [ov5647_set_fmt] is built from the entry at
    the chosen index, whatever the [which] flag. *)
Lemma set_fmt_format (subdev_api : bool) (s : ov5647)
    (cfg : list v4l2_mbus_framefmt) (fmt : v4l2_subdev_format) :
  let b := set_fmt_best_mode (fmt_width (format fmt)) (fmt_height (format fmt))
                             (code (format fmt)) in
  snd (ov5647_set_fmt subdev_api s cfg fmt) =
  SubdevFmt (which fmt) (pad fmt)
            (FrameFmt (width (mode_at b)) (height (mode_at b))
                      (mbus_code (mode_at b))
                      V4L2_FIELD_NONE V4L2_COLORSPACE_SRGB).
Proof.
  unfold ov5647_set_fmt. cbv zeta.
  destruct (which fmt =? V4L2_SUBDEV_FORMAT_TRY); reflexivity.
Qed.

(** The chosen index and the least-cost property, for requests on which
    nothing wraps. *)
Lemma set_fmt_min_cost_aux (w h c : Z) :
  no_wrap w h c ->
  exists (k : nat) (m : ov5647_mode),
    nth_error ov5647_modes k = Some m /\
    set_fmt_best_mode w h c = Z.of_nat k /\
    (forall mj, In mj ov5647_modes -> cost m w h c <= cost mj w h c).
Proof.
  intros NW.
  destruct (set_fmt_best_mode_spec w h c) as (k & m & Eb & Hk & Hbefore & Hall).
  exists k, m.
  assert (Hin : In m ov5647_modes) by (eapply nth_error_In; eauto).
  split; [exact Hk |]. split; [exact Eb |].
  intros mj Hj. rewrite <- !mode_diff_cost by assumption. auto.
Qed.

(** C1 (as stated, refuted): asked for 4294967295 x 4294967295 in the 8-bit
    Bayer format, [ov5647_set_fmt] hands back table entry 0 (640x480),
    although entry 5 (2592x1944, same format) has a strictly smaller cost
    [|width_i - w| + |height_i - h| + penalty]. *)
Lemma C1_set_fmt_not_min_cost_u32 :
  let w := 4294967295 in
  let h := 4294967295 in
  let fmt := SubdevFmt V4L2_SUBDEV_FORMAT_ACTIVE 0
               (FrameFmt w h MEDIA_BUS_FMT_SBGGR8_1X8 0 0) in
  set_fmt_best_mode w h MEDIA_BUS_FMT_SBGGR8_1X8 = 0 /\
  format (snd (ov5647_set_fmt true (Sensor 0 0 0 true 0) [] fmt)) =
    FrameFmt 640 480 MEDIA_BUS_FMT_SBGGR8_1X8 V4L2_FIELD_NONE V4L2_COLORSPACE_SRGB /\
  cost (mode_at 5) w h MEDIA_BUS_FMT_SBGGR8_1X8 <
  cost (mode_at 0) w h MEDIA_BUS_FMT_SBGGR8_1X8.
Proof. vm_compute. repeat split; reflexivity. Qed.

(** C1 (amended): for every request whose width and height are below 2^31
    and for which no table entry's cost reaches 2^32 (so that none of the
    loop's 32-bit operations wraps), [ov5647_set_fmt] hands back the table
    entry of least cost, and every entry with a lower index has a strictly
    larger cost. *)
Theorem C1_set_fmt_min_cost (subdev_api : bool) (s : ov5647)
    (cfg : list v4l2_mbus_framefmt) (fmt : v4l2_subdev_format) :
  let w := fmt_width (format fmt) in
  let h := fmt_height (format fmt) in
  let c := code (format fmt) in
  no_wrap w h c ->
  exists (k : nat) (m : ov5647_mode),
    nth_error ov5647_modes k = Some m /\
    set_fmt_best_mode w h c = Z.of_nat k /\
    format (snd (ov5647_set_fmt subdev_api s cfg fmt)) =
      FrameFmt (width m) (height m) (mbus_code m)
               V4L2_FIELD_NONE V4L2_COLORSPACE_SRGB /\
    (forall mj, In mj ov5647_modes -> cost m w h c <= cost mj w h c) /\
    (forall j mj, (j < k)%nat -> nth_error ov5647_modes j = Some mj ->
                  cost m w h c < cost mj w h c).
Proof.
  intros w h c NW.
  destruct (set_fmt_best_mode_spec w h c) as (k & m & Eb & Hk & Hbefore & Hall).
  exists k, m.
  assert (Hin : In m ov5647_modes) by (eapply nth_error_In; eauto).
  split; [exact Hk |]. split; [exact Eb |]. split.
  - rewrite set_fmt_format. cbv zeta. fold w h c.
    rewrite Eb, (mode_at_nth k m Hk). reflexivity.
  - split.
    + intros mj Hj. rewrite <- !mode_diff_cost by assumption. auto.
    + intros j mj Hlt Hj.
      assert (In mj ov5647_modes) by (eapply nth_error_In; eauto).
      rewrite <- !mode_diff_cost by assumption. eauto.
Qed.

(** The specification's example: 641 x 479 in the 8-bit Bayer format. *)
Lemma C1_set_fmt_min_cost_witness :
  let fmt := SubdevFmt V4L2_SUBDEV_FORMAT_ACTIVE 0
               (FrameFmt 641 479 MEDIA_BUS_FMT_SBGGR8_1X8 0 0) in
  exists (k : nat) (m : ov5647_mode),
    nth_error ov5647_modes k = Some m /\
    set_fmt_best_mode 641 479 MEDIA_BUS_FMT_SBGGR8_1X8 = Z.of_nat k /\
    format (snd (ov5647_set_fmt true (Sensor 0 0 0 true 0) [] fmt)) =
      FrameFmt (width m) (height m) (mbus_code m)
               V4L2_FIELD_NONE V4L2_COLORSPACE_SRGB /\
    (forall mj, In mj ov5647_modes ->
        cost m 641 479 MEDIA_BUS_FMT_SBGGR8_1X8 <=
        cost mj 641 479 MEDIA_BUS_FMT_SBGGR8_1X8) /\
    (forall j mj, (j < k)%nat -> nth_error ov5647_modes j = Some mj ->
        cost m 641 479 MEDIA_BUS_FMT_SBGGR8_1X8 <
        cost mj 641 479 MEDIA_BUS_FMT_SBGGR8_1X8).
Proof.
  apply (C1_set_fmt_min_cost true (Sensor 0 0 0 true 0) []
           (SubdevFmt V4L2_SUBDEV_FORMAT_ACTIVE 0
              (FrameFmt 641 479 MEDIA_BUS_FMT_SBGGR8_1X8 0 0))).
  unfold no_wrap. cbn [format fmt_width fmt_height code].
  split; [lia |]. split; [lia |].
  unfold ov5647_modes. repeat constructor; vm_compute; reflexivity.
Defined.

(** C2 (as stated, refuted): the penalty does not exceed every possible
    dimension distance (a 20000 x 20000 request is 38880 away from entry
    0), and a format match is not always preferred: asked for
    2147483647 x 2147483647 in the 8-bit Bayer format, the penalty added to
    entry 4's [u32 diff] wraps around and [ov5647_set_fmt] hands back entry
    4 (1920x1080, 10-bit) although entry 5 has the requested format. *)
Lemma C2_penalty_not_dominant :
  let w := 2147483647 in
  let h := 2147483647 in
  let fmt := SubdevFmt V4L2_SUBDEV_FORMAT_ACTIVE 0
               (FrameFmt w h MEDIA_BUS_FMT_SBGGR8_1X8 0 0) in
  LARGE_PENALTY < dim_distance (mode_at 0) 20000 20000 /\
  mode_diff (mode_at 4) w h MEDIA_BUS_FMT_SBGGR8_1X8 = 6998 /\
  format (snd (ov5647_set_fmt true (Sensor 0 0 0 true 0) [] fmt)) =
    FrameFmt 1920 1080 MEDIA_BUS_FMT_SBGGR10_1X10
             V4L2_FIELD_NONE V4L2_COLORSPACE_SRGB /\
  mbus_code (mode_at 5) = MEDIA_BUS_FMT_SBGGR8_1X8 /\
  width (mode_at 5) <> w /\ height (mode_at 5) <> h.
Proof. vm_compute. repeat split; try reflexivity; discriminate. Qed.

(** C2 (amended): the penalty (10000) exceeds the dimension distance
    between any two entries of the mode table; hence, for every request
    on which the 32-bit cost computation does not wrap, whenever some
    table entry has the requested format the entry handed back by
    [ov5647_set_fmt] has the requested format. *)
Theorem C2_format_match_preferred (subdev_api : bool) (s : ov5647)
    (cfg : list v4l2_mbus_framefmt) (fmt : v4l2_subdev_format) :
  let w := fmt_width (format fmt) in
  let h := fmt_height (format fmt) in
  let c := code (format fmt) in
  no_wrap w h c ->
  (forall m1 m2, In m1 ov5647_modes -> In m2 ov5647_modes ->
     Z.abs (width m1 - width m2) + Z.abs (height m1 - height m2) < LARGE_PENALTY) /\
  ((exists m, In m ov5647_modes /\ mbus_code m = c) ->
   code (format (snd (ov5647_set_fmt subdev_api s cfg fmt))) = c).
Proof.
  intros w h c NW. split; [exact modes_spread |].
  intros (m' & Hin' & Hc').
  destruct (set_fmt_min_cost_aux w h c NW) as (k & m & Hk & Eb & Hmin).
  assert (Hin : In m ov5647_modes) by (eapply nth_error_In; eauto).
  rewrite set_fmt_format. cbv zeta. fold w h c. cbn [format code].
  rewrite Eb, (mode_at_nth k m Hk).
  destruct (Z.eqb_spec (mbus_code m) c) as [E | NE]; [exact E | exfalso].
  specialize (Hmin m' Hin').
  pose proof (modes_spread m m' Hin Hin') as Hs.
  unfold cost, dim_distance in Hmin.
  rewrite Hc', Z.eqb_refl in Hmin.
  destruct (Z.eqb_spec (mbus_code m) c); [contradiction |].
  lia.
Qed.

Lemma no_wrap_1920_1080 : no_wrap 1920 1080 MEDIA_BUS_FMT_SBGGR8_1X8.
Proof.
  unfold no_wrap. split; [lia |]. split; [lia |].
  unfold ov5647_modes. repeat constructor; vm_compute; reflexivity.
Qed.

(** 1920 x 1080 asked in the 8-bit format: the 10-bit entry of that very size is passed over. *)
Lemma C2_format_match_preferred_witness :
  let fmt := SubdevFmt V4L2_SUBDEV_FORMAT_ACTIVE 0
               (FrameFmt 1920 1080 MEDIA_BUS_FMT_SBGGR8_1X8 0 0) in
  no_wrap 1920 1080 MEDIA_BUS_FMT_SBGGR8_1X8 /\
  code (format (snd (ov5647_set_fmt true (Sensor 0 0 0 true 0) [] fmt))) =
  MEDIA_BUS_FMT_SBGGR8_1X8.
Proof.
  split; [exact no_wrap_1920_1080 |].
  apply (proj2 (C2_format_match_preferred true (Sensor 0 0 0 true 0) []
           (SubdevFmt V4L2_SUBDEV_FORMAT_ACTIVE 0
              (FrameFmt 1920 1080 MEDIA_BUS_FMT_SBGGR8_1X8 0 0))
           no_wrap_1920_1080)).
  exists (mode_at 0). split; [left; reflexivity | reflexivity].
Defined.

(** C10: [ov5647_set_fmt] always returns 0; the width, height and code it
    hands back are those of one of the six entries of the mode table; and
    with [which = V4L2_SUBDEV_FORMAT_TRY] the driver's state is returned
    untouched, whereas otherwise exactly [current_mode], [width] and
    [height] are set from the chosen entry. *)
Theorem C10_set_fmt_total (subdev_api : bool) (s : ov5647)
    (cfg : list v4l2_mbus_framefmt) (fmt : v4l2_subdev_format) :
  let '(ret, s', _, fmt') := ov5647_set_fmt subdev_api s cfg fmt in
  ret = 0 /\
  length ov5647_modes = 6%nat /\
  (exists m, In m ov5647_modes /\
             fmt_width (format fmt') = width m /\
             fmt_height (format fmt') = height m /\
             code (format fmt') = mbus_code m) /\
  (if which fmt =? V4L2_SUBDEV_FORMAT_TRY
   then s' = s
   else exists (k : nat) (m : ov5647_mode),
          nth_error ov5647_modes k = Some m /\
          s' = Sensor (width m) (height m) (power_count s) (reset_gpio s)
                      (Z.of_nat k)).
Proof.
  destruct (set_fmt_best_mode_spec (fmt_width (format fmt))
              (fmt_height (format fmt)) (code (format fmt)))
    as (k & m & Eb & Hk & _ & _).
  assert (Hin : In m ov5647_modes) by (eapply nth_error_In; eauto).
  unfold ov5647_set_fmt. cbv zeta. rewrite Eb, (mode_at_nth k m Hk).
  destruct (which fmt =? V4L2_SUBDEV_FORMAT_TRY); cbn [format fmt_width fmt_height code].
  - repeat split; eauto.
  - repeat split; eauto.
Qed.

(** ** Bus transfers *)

Lemma u16_bytes (reg : Z) :
  to_u8 (Z.shiftr (to_u16 reg) 8) = to_u16 reg / 256 /\
  to_u8 (Z.land (to_u16 reg) 0xff) = to_u16 reg mod 256.
Proof.
  unfold to_u8, to_u16.
  assert (0 <= reg mod 2 ^ 16 < 2 ^ 16) by (apply Z.mod_pos_bound; lia).
  rewrite Z.shiftr_div_pow2 by lia.
  change 0xff with (Z.ones 8). rewrite Z.land_ones by lia.
  change (2 ^ 8) with 256 in *.
  split.
  - apply Z.mod_small. split; [apply Z.div_pos; lia |].
    apply Z.div_lt_upper_bound; lia.
  - apply Z.mod_mod. lia.
Qed.

Lemma ov5647_write_cases (reg val : Z) (w : world) :
  (exists e, e < 0 /\
     ov5647_write reg val w =
     (e, World (sensor w)
           (failed (EvI2cSend [to_u16 reg / 256; to_u16 reg mod 256; to_u8 val] e)
                   (hw w))))
  \/
  ov5647_write reg val w =
  (3, World (sensor w) (wr (to_u16 reg) (to_u8 val) (hw w))).
Proof.
  unfold ov5647_write, i2c_master_send, on_board.
  destruct (u16_bytes reg) as [-> ->].
  destruct (next_fault (i2c_faults (hw w))) as [e rest] eqn:E.
  destruct (Z.ltb_spec e 0).
  - left. exists e. split; [assumption |].
    unfold failed. rewrite E. reflexivity.
  - right. unfold wr, sccb_receive. rewrite E. cbn [snd].
    assert (Hd : 256 * (to_u16 reg / 256) + to_u16 reg mod 256 = to_u16 reg)
      by (symmetry; apply Z.div_mod; lia).
    replace (to_u16 reg / 256 * 256 + to_u16 reg mod 256) with (to_u16 reg) by lia.
    reflexivity.
Qed.

Ltac write_step :=
  match goal with
  | |- context [ov5647_write ?r ?v ?w] =>
      let e := fresh "e" in let He := fresh "He" in let E := fresh "E" in
      destruct (ov5647_write_cases r v w) as [(e & He & E) | E];
      rewrite E in *; clear E;
      [ destruct (Z.ltb_spec e 0); [ | lia ]
      | change (3 <? 0) with false in * ];
      cbn beta iota in *
  end.

Lemma reg_value_wr_eq reg val b : reg_value (wr reg val b) reg = val.
Proof.
  unfold reg_value, wr. cbn [regs]. rewrite lookup_insert_eq. reflexivity.
Qed.

Lemma reg_value_wr_ne reg val b a :
  reg <> a -> reg_value (wr reg val b) a = reg_value b a.
Proof.
  intros. unfold reg_value, wr. cbn [regs].
  rewrite lookup_insert_ne by assumption. reflexivity.
Qed.

(** ** What a piece of driver code may touch *)

Lemma count_ev_app p t1 t2 :
  count_ev p (t1 ++ t2) = (count_ev p t1 + count_ev p t2)%nat.
Proof. induction t1 as [|e t1 IH]; cbn; [reflexivity | rewrite IH; lia]. Qed.

Lemma count_ev_i2c (p : event -> bool) t :
  (forall e, is_i2c e = true -> p e = false) ->
  forallb is_i2c t = true -> count_ev p t = 0%nat.
Proof.
  intros Hp. induction t as [|e t IH]; cbn; [reflexivity |].
  intros H. apply andb_prop in H as [He Ht].
  rewrite (Hp e He), IH by assumption. reflexivity.
Qed.

Lemma bus_frame_refl w : bus_frame w w.
Proof.
  repeat split. exists []. rewrite app_nil_r. split; reflexivity.
Qed.

Lemma bus_frame_trans w1 w2 w3 :
  bus_frame w1 w2 -> bus_frame w2 w3 -> bus_frame w1 w3.
Proof.
  intros (S1 & X1 & R1 & C1 & t1 & T1 & F1) (S2 & X2 & R2 & C2 & t2 & T2 & F2).
  repeat split; try congruence.
  exists (t1 ++ t2). split.
  - rewrite T2, T1, app_assoc. reflexivity.
  - rewrite forallb_app, F1, F2. reflexivity.
Qed.

Lemma bind_eq {A B : Type} (m : M A) (k : A -> M B) (w : world) :
  bind m k w = k (fst (m w)) (snd (m w)).
Proof. unfold bind. destruct (m w). reflexivity. Qed.

Lemma bus_only_pure {A : Type} (a : A) : bus_only (pure a).
Proof. intros w. apply bus_frame_refl. Qed.

Lemma bus_only_bind {A B : Type} (m : M A) (k : A -> M B) :
  bus_only m -> (forall a, bus_only (k a)) -> bus_only (bind m k).
Proof.
  intros Hm Hk w. rewrite bind_eq.
  eapply bus_frame_trans; [apply Hm | apply Hk].
Qed.

Lemma bus_only_send data count : bus_only (i2c_master_send data count).
Proof.
  intros w. unfold i2c_master_send, on_board.
  destruct (next_fault (i2c_faults (hw w))) as [e rest].
  destruct (e <? 0); [| destruct (sccb_receive data (hw w))];
    cbn; repeat split; eexists; split; reflexivity.
Qed.

Lemma bus_only_recv count : bus_only (i2c_master_recv count).
Proof.
  intros w. unfold i2c_master_recv, on_board.
  destruct (next_fault (i2c_faults (hw w))) as [e rest].
  destruct (e <? 0); cbn; repeat split; eexists; split; reflexivity.
Qed.

Lemma bus_only_get_sensor : bus_only get_sensor.
Proof. intros w. apply bus_frame_refl. Qed.

Create HintDb bus.
#[local] Hint Resolve bus_only_pure bus_only_send bus_only_recv
  bus_only_get_sensor : bus.

Ltac bus :=
  repeat first
    [ progress auto with bus
    | apply bus_only_bind; [ | intros ]
    | match goal with
      | |- bus_only (if ?c then _ else _) => destruct c
      | |- bus_only (let (_, _) := ?r in _) => destruct r
      end ].

Lemma bus_only_write reg val : bus_only (ov5647_write reg val).
Proof. unfold ov5647_write. bus. Qed.

Lemma bus_only_read reg : bus_only (ov5647_read reg).
Proof. unfold ov5647_read. bus. Qed.

#[local] Hint Resolve bus_only_write bus_only_read : bus.

Lemma bus_only_write_regs rs : bus_only (write_regs rs).
Proof. induction rs as [|r rest IH]; cbn [write_regs]; bus. Qed.

Lemma bus_only_write_array rs n : bus_only (ov5647_write_array rs n).
Proof. unfold ov5647_write_array. apply bus_only_write_regs. Qed.

Lemma bus_only_set_virtual_channel ch : bus_only (ov5647_set_virtual_channel ch).
Proof. unfold ov5647_set_virtual_channel. bus. Qed.

Lemma bus_only_stream_off : bus_only ov5647_stream_off.
Proof. unfold ov5647_stream_off. bus. Qed.

Lemma bus_only_stream_on : bus_only ov5647_stream_on.
Proof. unfold ov5647_stream_on. bus. Qed.

Lemma bus_only_set_sw_standby s : bus_only (set_sw_standby s).
Proof. unfold set_sw_standby. bus. Qed.

#[local] Hint Resolve bus_only_write_array bus_only_set_virtual_channel
  bus_only_stream_off bus_only_stream_on bus_only_set_sw_standby : bus.

Lemma bus_only_sensor_init : bus_only __sensor_init.
Proof. unfold __sensor_init. bus. Qed.



(** ** Controls while powered off *)

(** C7: whatever the control and its value, [ov5647_s_ctrl] called while
    [power_count] is 0 returns 0 and leaves the whole world, bus trace
    included, as it was: no register is read or written. *)
Theorem C7_s_ctrl_powered_off (ctrl : v4l2_ctrl) (w : world) :
  power_count (sensor w) = 0 ->
  ov5647_s_ctrl ctrl w = (0, w).
Proof.
  intros H. unfold ov5647_s_ctrl, bind, get_sensor, pure.
  rewrite H. reflexivity.
Qed.

(** The five controls on an unpowered sensor. *)
Lemma C7_s_ctrl_powered_off_witness :
  let w := World (Sensor 640 480 0 true 0) idle_board in
  ov5647_s_ctrl (Ctrl V4L2_CID_EXPOSURE 0x1234) w = (0, w) /\
  ov5647_s_ctrl (Ctrl V4L2_CID_ANALOGUE_GAIN 0x2ab) w = (0, w) /\
  ov5647_s_ctrl (Ctrl V4L2_CID_AUTO_WHITE_BALANCE 1) w = (0, w) /\
  ov5647_s_ctrl (Ctrl V4L2_CID_AUTOGAIN 1) w = (0, w) /\
  ov5647_s_ctrl (Ctrl V4L2_CID_EXPOSURE_AUTO 0) w = (0, w).
Proof.
  cbv zeta.
  split; [| split; [| split; [| split]]];
    apply C7_s_ctrl_powered_off; reflexivity.
Defined.

(** ** Power sequencing *)

Lemma update_power_count_eq (on : Z) (w : world) :
  update_power_count on w =
  (tt, let pc := to_int (power_count (sensor w) + (if truthy on then 1 else -1)) in
       World (with_power_count pc (sensor w))
             (if pc <? 0 then warned (hw w) else hw w)).
Proof.
  unfold update_power_count. rewrite !bind_eq. cbn [get_sensor put_sensor fst snd].
  cbv zeta.
  destruct (to_int _ <? 0); reflexivity.
Qed.

Lemma power_else (on : Z) (w : world) :
  truthy on && (power_count (sensor w) =? 0) = false ->
  negb (truthy on) && (power_count (sensor w) =? 1) = false ->
  ov5647_sensor_power on w = (0, snd (update_power_count on w)).
Proof.
  intros H1 H2. unfold ov5647_sensor_power. rewrite bind_eq.
  cbn [get_sensor fst snd]. rewrite H1, H2.
  rewrite bind_eq. reflexivity.
Qed.

(** ** Releasing an unpowered sensor *)

(** C4 (the code at the failing input): [ov5647_sensor_power(sd, 0)] with
    [power_count == 0] touches neither bus, clock nor reset line, but it
    stores -1 in [power_count] and trips its own
    [WARN_ON(power_count < 0)]; the acquire that follows finds a non-zero
    count, powers nothing on and returns 0 with [power_count] back at 0. *)
Theorem C4_release_at_zero_underflows (w : world) :
  power_count (sensor w) = 0 ->
  let w' := World (with_power_count (-1) (sensor w)) (warned (hw w)) in
  release w = (0, w') /\
  count_ev is_i2c (trace (hw w')) = count_ev is_i2c (trace (hw w)) /\
  xclk_enabled (hw w') = xclk_enabled (hw w) /\
  acquire w' = (0, World (with_power_count 0 (sensor w)) (warned (hw w))).
Proof.
  intros H. cbv zeta. unfold release, acquire. split; [| split; [| split]].
  - rewrite power_else by (rewrite H; reflexivity).
    rewrite update_power_count_eq, H. reflexivity.
  - cbn [hw warned trace]. rewrite count_ev_app. cbn. lia.
  - reflexivity.
  - rewrite power_else by reflexivity.
    rewrite update_power_count_eq. reflexivity.
Qed.

(** The release of a freshly attached, never acquired sensor. *)
Lemma C4_release_at_zero_underflows_witness :
  release fresh_world =
    (0, World (Sensor 0 0 (-1) true 0) (Board ∅ 0 0 1 [] [] [EvWarnOn])) /\
  acquire (World (Sensor 0 0 (-1) true 0) (Board ∅ 0 0 1 [] [] [EvWarnOn])) =
    (0, World (Sensor 0 0 0 true 0) (Board ∅ 0 0 1 [] [] [EvWarnOn])).
Proof.
  pose proof (C4_release_at_zero_underflows fresh_world eq_refl)
    as (H1 & _ & _ & H2).
  split; [exact H1 | exact H2].
Defined.

(** The clock request either fails and changes nothing but the trace and
    the script, or succeeds and raises the enable count by one. *)
Lemma clk_prepare_enable_cases (w : world) :
  let r := fst (clk_prepare_enable w) in
  let w' := snd (clk_prepare_enable w) in
  sensor w' = sensor w /\
  regs (hw w') = regs (hw w) /\
  i2c_faults (hw w') = i2c_faults (hw w) /\
  trace (hw w') = trace (hw w) ++ [EvClkPrepareEnable r] /\
  ((r < 0 /\ xclk_enabled (hw w') = xclk_enabled (hw w)) \/
   (r = 0 /\ xclk_enabled (hw w') = xclk_enabled (hw w) + 1)).
Proof.
  unfold clk_prepare_enable, on_board.
  destruct (next_fault (clk_faults (hw w))) as [e rest].
  destruct (Z.ltb_spec e 0); cbn; repeat split; auto.
Qed.

Lemma deassert_reset_eq (w : world) :
  let w' := snd (deassert_reset w) in
  sensor w' = sensor w /\
  regs (hw w') = regs (hw w) /\
  i2c_faults (hw w') = i2c_faults (hw w) /\
  xclk_enabled (hw w') = xclk_enabled (hw w) /\
  trace (hw w') =
    trace (hw w) ++
    (if reset_gpio (sensor w) then [EvGpioSet 0; EvUsleepRange 5000 10000] else []).
Proof.
  unfold deassert_reset. rewrite bind_eq. cbn [get_sensor fst snd].
  destruct (reset_gpio (sensor w)); cbn.
  - rewrite <- app_assoc. repeat split; reflexivity.
  - rewrite app_nil_r. repeat split; reflexivity.
Qed.

Lemma assert_reset_eq (w : world) :
  let w' := snd (assert_reset w) in
  sensor w' = sensor w /\
  xclk_enabled (hw w') = xclk_enabled (hw w) /\
  trace (hw w') =
    trace (hw w) ++ (if reset_gpio (sensor w) then [EvGpioSet 1] else []).
Proof.
  unfold assert_reset. rewrite bind_eq. cbn [get_sensor fst snd].
  destruct (reset_gpio (sensor w)); cbn.
  - repeat split; reflexivity.
  - rewrite app_nil_r. repeat split; reflexivity.
Qed.

Lemma clk_disable_unprepare_eq (w : world) :
  let w' := snd (clk_disable_unprepare w) in
  sensor w' = sensor w /\
  xclk_enabled (hw w') = xclk_enabled (hw w) - 1 /\
  trace (hw w') = trace (hw w) ++ [EvClkDisableUnprepare].
Proof. cbn. repeat split; reflexivity. Qed.

(** The power-on branch, stage by stage. *)
Lemma acquire_first_eq (w : world) :
  power_count (sensor w) = 0 ->
  acquire w =
  if fst (stage_clock w) <? 0 then stage_clock w
  else if fst (stage_oe w) <? 0
       then (fst (stage_oe w), snd (clk_disable_unprepare (snd (stage_oe w))))
       else if fst (stage_init w) <? 0
            then (fst (stage_init w), snd (clk_disable_unprepare (snd (stage_init w))))
            else (fst (stage_init w), snd (update_power_count 1 (snd (stage_init w)))).
Proof.
  intros H. unfold acquire, ov5647_sensor_power. rewrite bind_eq.
  cbn [get_sensor fst snd]. rewrite H.
  change (truthy 1 && (0 =? 0)) with true. cbn iota.
  rewrite bind_eq. fold (stage_clock w).
  destruct (fst (stage_clock w) <? 0).
  { unfold pure. destruct (stage_clock w); reflexivity. }
  rewrite bind_eq. fold (stage_reset w).
  rewrite bind_eq. fold (stage_oe w).
  destruct (fst (stage_oe w) <? 0).
  { rewrite bind_eq. reflexivity. }
  rewrite bind_eq. fold (stage_init w).
  destruct (fst (stage_init w) <? 0).
  { rewrite bind_eq. reflexivity. }
  rewrite bind_eq. reflexivity.
Qed.

Lemma stage_reset_facts (w : world) :
  sensor (stage_reset w) = sensor w /\
  trace (hw (stage_reset w)) =
    trace (hw w) ++ EvClkPrepareEnable (fst (stage_clock w)) ::
    (if reset_gpio (sensor w) then [EvGpioSet 0; EvUsleepRange 5000 10000] else []) /\
  ((fst (stage_clock w) < 0 /\
    sensor (snd (stage_clock w)) = sensor w /\
    xclk_enabled (hw (snd (stage_clock w))) = xclk_enabled (hw w)) \/
   (fst (stage_clock w) = 0 /\
    xclk_enabled (hw (stage_reset w)) = xclk_enabled (hw w) + 1)).
Proof.
  unfold stage_reset, stage_clock.
  destruct (clk_prepare_enable_cases w) as (S1 & _ & _ & T1 & X1).
  destruct (deassert_reset_eq (snd (clk_prepare_enable w))) as (S2 & _ & _ & X2 & T2).
  split; [congruence |]. split.
  - rewrite T2, T1, S1, <- app_assoc. reflexivity.
  - destruct X1 as [[? ?] | [? ?]]; [left | right]; repeat split; auto; congruence.
Qed.

Lemma stage_oe_frame (w : world) : bus_frame (stage_reset w) (snd (stage_oe w)).
Proof. apply bus_only_write_array. Qed.

Lemma stage_init_frame (w : world) : bus_frame (stage_reset w) (snd (stage_init w)).
Proof.
  eapply bus_frame_trans; [apply stage_oe_frame | apply bus_only_sensor_init].
Qed.

Lemma ltb_neg z : z < 0 -> (z <? 0) = true.
Proof. intros. apply Z.ltb_lt. assumption. Qed.

Lemma ltb_nonneg z : 0 <= z -> (z <? 0) = false.
Proof. intros. apply Z.ltb_ge. assumption. Qed.

Lemma acquire_clock_fails (w : world) :
  power_count (sensor w) = 0 -> fst (stage_clock w) < 0 ->
  acquire w = stage_clock w.
Proof.
  intros H C. rewrite (acquire_first_eq w H), (ltb_neg _ C). reflexivity.
Qed.

Lemma acquire_oe_fails (w : world) :
  power_count (sensor w) = 0 ->
  0 <= fst (stage_clock w) -> fst (stage_oe w) < 0 ->
  acquire w = (fst (stage_oe w), snd (clk_disable_unprepare (snd (stage_oe w)))).
Proof.
  intros H C O.
  rewrite (acquire_first_eq w H), (ltb_nonneg _ C), (ltb_neg _ O). reflexivity.
Qed.

Lemma acquire_init_fails (w : world) :
  power_count (sensor w) = 0 ->
  0 <= fst (stage_clock w) -> 0 <= fst (stage_oe w) -> fst (stage_init w) < 0 ->
  acquire w = (fst (stage_init w), snd (clk_disable_unprepare (snd (stage_init w)))).
Proof.
  intros H C O I.
  rewrite (acquire_first_eq w H), (ltb_nonneg _ C), (ltb_nonneg _ O), (ltb_neg _ I).
  reflexivity.
Qed.

Lemma acquire_succeeds (w : world) :
  power_count (sensor w) = 0 ->
  0 <= fst (stage_clock w) -> 0 <= fst (stage_oe w) -> 0 <= fst (stage_init w) ->
  acquire w = (fst (stage_init w), snd (update_power_count 1 (snd (stage_init w)))).
Proof.
  intros H C O I.
  rewrite (acquire_first_eq w H), (ltb_nonneg _ C), (ltb_nonneg _ O), (ltb_nonneg _ I).
  reflexivity.
Qed.

(** C6: the first acquire returns a negative value exactly when the
    clock request, the output-enable writes or the sensor initialisation
    fails; it then returns the failing step's error code, leaves the
    driver's structure as it was, [power_count] still 0, and the clock's
    enable count where it was before the call. *)
Theorem C6_failed_first_acquire (w : world) :
  power_count (sensor w) = 0 ->
  (fst (acquire w) < 0 <-> exists e, acquire_fails_with w e) /\
  (forall e, acquire_fails_with w e ->
     fst (acquire w) = e /\
     sensor (snd (acquire w)) = sensor w /\
     power_count (sensor (snd (acquire w))) = 0 /\
     xclk_enabled (hw (snd (acquire w))) = xclk_enabled (hw w)).
Proof.
  intros H.
  pose proof (stage_reset_facts w) as (SR & _ & XR).
  pose proof (stage_oe_frame w) as (SO & XO & _).
  pose proof (stage_init_frame w) as (SI & XI & _).
  pose proof (clk_disable_unprepare_eq (snd (stage_oe w))) as (SD1 & XD1 & _).
  pose proof (clk_disable_unprepare_eq (snd (stage_init w))) as (SD2 & XD2 & _).
  pose proof (acquire_clock_fails w H) as A1.
  pose proof (acquire_oe_fails w H) as A2.
  pose proof (acquire_init_fails w H) as A3.
  pose proof (acquire_succeeds w H) as A4.
  unfold acquire_fails_with.
  set (a := acquire w) in *. set (sc := stage_clock w) in *.
  set (sr := stage_reset w) in *. set (so := stage_oe w) in *.
  set (si := stage_init w) in *.
  set (d1 := clk_disable_unprepare (snd so)) in *.
  set (d2 := clk_disable_unprepare (snd si)) in *.
  set (u := update_power_count 1 (snd si)) in *.
  clearbody a sc sr so si d1 d2 u.
  destruct (Z.lt_ge_cases (fst sc) 0) as [C | C];
    [| destruct (Z.lt_ge_cases (fst so) 0) as [O | O];
       [| destruct (Z.lt_ge_cases (fst si) 0) as [I | I]]].
  - rewrite (A1 C). split; [split |].
    + intros _. exists (fst sc). auto.
    + auto.
    + intros e (He & [E | [[? E] | (? & ? & E)]]); try lia.
      destruct XR as [(_ & SC & X) | [? _]]; [| lia].
      repeat split; try congruence.
  - rewrite (A2 C O). cbn [fst snd]. split; [split |].
    + intros _. exists (fst so). auto.
    + auto.
    + intros e (He & [E | [[? E] | (? & ? & E)]]); try lia.
      destruct XR as [(? & _) | [_ X]]; [lia |].
      repeat split; try congruence. lia.
  - rewrite (A3 C O I). cbn [fst snd]. split; [split |].
    + intros _. exists (fst si). auto 6.
    + auto.
    + intros e (He & [E | [[? E] | (? & ? & E)]]); try lia.
      destruct XR as [(? & _) | [_ X]]; [lia |].
      repeat split; try congruence. lia.
  - rewrite (A4 C O I). cbn [fst snd]. split; [split |].
    + lia.
    + intros (e & He & [E | [[? E] | (? & ? & E)]]); lia.
    + intros e (He & [E | [[? E] | (? & ? & E)]]); lia.
Qed.

(** One failure at each of the three steps. *)
Lemma C6_failed_first_acquire_witness :
  (fst (acquire clock_fault_world) = -16 /\
   power_count (sensor (snd (acquire clock_fault_world))) = 0 /\
   xclk_enabled (hw (snd (acquire clock_fault_world))) = 0) /\
  (fst (acquire oe_fault_world) = -121 /\
   power_count (sensor (snd (acquire oe_fault_world))) = 0 /\
   xclk_enabled (hw (snd (acquire oe_fault_world))) = 0) /\
  (fst (acquire init_fault_world) = -110 /\
   power_count (sensor (snd (acquire init_fault_world))) = 0 /\
   xclk_enabled (hw (snd (acquire init_fault_world))) = 0).
Proof.
  split; [| split].
  - destruct (C6_failed_first_acquire clock_fault_world eq_refl) as [_ H].
    destruct (H (-16)) as (R & _ & P & X).
    + split; [lia | left; reflexivity].
    + split; [exact R |]. split; [exact P | exact X].
  - destruct (C6_failed_first_acquire oe_fault_world eq_refl) as [_ H].
    destruct (H (-121)) as (R & _ & P & X).
    + split; [lia | right; left; split; [vm_compute; discriminate | reflexivity]].
    + split; [exact R |]. split; [exact P | exact X].
  - destruct (C6_failed_first_acquire init_fault_world eq_refl) as [_ H].
    destruct (H (-110)) as (R & _ & P & X).
    + split; [lia |]. right; right.
      split; [vm_compute; discriminate |].
      split; [vm_compute; discriminate | vm_compute; reflexivity].
    + split; [exact R |]. split; [exact P | exact X].
Defined.

Lemma power_on_sequence_eq (w : world) : power_on_sequence w = stage_init w.
Proof.
  unfold power_on_sequence, stage_init, stage_oe, stage_reset, stage_clock.
  rewrite !bind_eq. reflexivity.
Qed.

Lemma with_power_count_same (w : world) :
  World (with_power_count (power_count (sensor w)) (sensor w)) (hw w) = w.
Proof. destruct w as [[] ?]. reflexivity. Qed.

(** A successful first acquire is the power-on sequence followed by the
    count going to one. *)
Lemma acquire_first_ok (w : world) :
  power_count (sensor w) = 0 -> 0 <= fst (acquire w) ->
  snd (acquire w) =
    World (with_power_count 1 (sensor w)) (hw (snd (power_on_sequence w))) /\
  xclk_enabled (hw (snd (acquire w))) = xclk_enabled (hw w) + 1 /\
  exists t,
    trace (hw (snd (acquire w))) =
      trace (hw w) ++ EvClkPrepareEnable 0 ::
      (if reset_gpio (sensor w) then [EvGpioSet 0; EvUsleepRange 5000 10000] else []) ++ t /\
    forallb is_i2c t = true.
Proof.
  intros H. rewrite power_on_sequence_eq.
  pose proof (stage_reset_facts w) as (SR & TR & XR).
  pose proof (stage_init_frame w) as (SI & XI & _ & _ & t & TI & FI).
  pose proof (acquire_clock_fails w H) as A1.
  pose proof (acquire_oe_fails w H) as A2.
  pose proof (acquire_init_fails w H) as A3.
  pose proof (acquire_succeeds w H) as A4.
  rewrite update_power_count_eq in A4. cbn [snd] in A4. cbv zeta in A4.
  rewrite SI, SR, H in A4.
  change (to_int (0 + (if truthy 1 then 1 else -1))) with 1 in A4.
  change (1 <? 0) with false in A4. cbn iota in A4.
  set (a := acquire w) in *. set (sc := stage_clock w) in *.
  set (sr := stage_reset w) in *. set (so := stage_oe w) in *.
  set (si := stage_init w) in *.
  set (d1 := clk_disable_unprepare (snd so)) in *.
  set (d2 := clk_disable_unprepare (snd si)) in *.
  clearbody a sc sr so si d1 d2.
  destruct (Z.lt_ge_cases (fst sc) 0) as [C | C];
    [| destruct (Z.lt_ge_cases (fst so) 0) as [O | O];
       [| destruct (Z.lt_ge_cases (fst si) 0) as [I | I]]].
  - rewrite (A1 C). lia.
  - rewrite (A2 C O). cbn [fst]. lia.
  - rewrite (A3 C O I). cbn [fst]. lia.
  - rewrite (A4 C O I). cbn [fst snd hw]. intros _.
    destruct XR as [(? & _) | [C0 X]]; [lia |].
    split; [reflexivity |]. split; [lia |].
    exists t. split; [| exact FI].
    rewrite TI, TR, C0, <- app_assoc. reflexivity.
Qed.

Lemma acquire_again (w : world) :
  1 <= power_count (sensor w) <= INT_MAX - 1 ->
  acquire w = (0, World (with_power_count (power_count (sensor w) + 1) (sensor w)) (hw w)).
Proof.
  intros H. unfold acquire, INT_MAX in *.
  rewrite power_else.
  - rewrite update_power_count_eq. cbn [snd]. cbv zeta.
    change (truthy 1) with true. cbn iota.
    rewrite to_int_small by lia.
    destruct (Z.ltb_spec (power_count (sensor w) + 1) 0); [lia | reflexivity].
  - change (truthy 1) with true.
    destruct (Z.eqb_spec (power_count (sensor w)) 0); [lia | reflexivity].
  - reflexivity.
Qed.

Lemma release_again (w : world) :
  2 <= power_count (sensor w) <= INT_MAX ->
  release w = (0, World (with_power_count (power_count (sensor w) - 1) (sensor w)) (hw w)).
Proof.
  intros H. unfold release, INT_MAX in *.
  rewrite power_else.
  - rewrite update_power_count_eq. cbn [snd]. cbv zeta.
    change (truthy 0) with false. cbn iota.
    change (power_count (sensor w) + -1) with (power_count (sensor w) - 1).
    rewrite to_int_small by lia.
    destruct (Z.ltb_spec (power_count (sensor w) - 1) 0); [lia | reflexivity].
  - reflexivity.
  - change (truthy 0) with false.
    destruct (Z.eqb_spec (power_count (sensor w)) 1); [lia | reflexivity].
Qed.

Lemma repeat_acquire (k : nat) :
  forall w,
    1 <= power_count (sensor w) ->
    power_count (sensor w) + Z.of_nat k <= INT_MAX ->
    snd (repeat_op k acquire w) =
    World (with_power_count (power_count (sensor w) + Z.of_nat k) (sensor w)) (hw w).
Proof.
  induction k as [|k IH]; intros w H1 H2.
  - cbn [repeat_op pure snd]. rewrite Z.add_0_r. symmetry. apply with_power_count_same.
  - cbn [repeat_op]. rewrite bind_eq, acquire_again by lia. cbn [snd].
    rewrite IH; cbn [sensor hw with_power_count power_count]; try lia.
    unfold with_power_count. cbn. do 2 f_equal. lia.
Qed.

Lemma repeat_release (k : nat) :
  forall w,
    Z.of_nat k < power_count (sensor w) <= INT_MAX ->
    snd (repeat_op k release w) =
    World (with_power_count (power_count (sensor w) - Z.of_nat k) (sensor w)) (hw w).
Proof.
  induction k as [|k IH]; intros w H.
  - cbn [repeat_op pure snd]. rewrite Z.sub_0_r. symmetry. apply with_power_count_same.
  - cbn [repeat_op]. rewrite bind_eq, release_again by lia. cbn [snd].
    rewrite IH; cbn [sensor hw with_power_count power_count]; try lia.
    unfold with_power_count. cbn. do 2 f_equal. lia.
Qed.

Lemma power_off_sequence_facts (w : world) :
  let w' := snd (power_off_sequence w) in
  sensor w' = sensor w /\
  xclk_enabled (hw w') = xclk_enabled (hw w) - 1 /\
  exists t,
    trace (hw w') =
      trace (hw w) ++ t ++ EvClkDisableUnprepare ::
      (if reset_gpio (sensor w) then [EvGpioSet 1] else []) /\
    forallb is_i2c t = true.
Proof.
  unfold power_off_sequence. rewrite !bind_eq.
  set (w1 := snd (ov5647_write_array _ _ w)).
  set (w2 := snd (set_sw_standby true w1)).
  assert (F : bus_frame w w2).
  { eapply bus_frame_trans; [apply bus_only_write_array | apply bus_only_set_sw_standby]. }
  destruct F as (S2 & X2 & _ & _ & t & T2 & F2).
  destruct (clk_disable_unprepare_eq w2) as (S3 & X3 & T3).
  destruct (assert_reset_eq (snd (clk_disable_unprepare w2))) as (S4 & X4 & T4).
  cbv zeta. split; [congruence |]. split; [lia |].
  exists t. split; [| exact F2].
  rewrite T4, T3, T2, S3, S2, <- !app_assoc. reflexivity.
Qed.

Lemma release_last (w : world) :
  power_count (sensor w) = 1 ->
  snd (release w) =
    World (with_power_count 0 (sensor w)) (hw (snd (power_off_sequence w))).
Proof.
  intros H. unfold release, ov5647_sensor_power. rewrite bind_eq.
  cbn [get_sensor fst snd]. rewrite H.
  change (truthy 0 && (1 =? 0)) with false.
  change (negb (truthy 0) && (1 =? 1)) with true. cbn iota.
  destruct (power_off_sequence_facts w) as (S & _).
  unfold power_off_sequence in *. rewrite !bind_eq in *. cbn [pure snd] in *.
  rewrite update_power_count_eq. cbn [snd]. cbv zeta.
  rewrite S, H. reflexivity.
Qed.

Lemma repeat_op_S (m : M Z) (n : nat) (w : world) :
  repeat_op (S n) m w = repeat_op n m (snd (m w)).
Proof. cbn [repeat_op]. rewrite bind_eq. reflexivity. Qed.

Lemma repeat_op_last (m : M Z) (n : nat) :
  forall w, snd (repeat_op (S n) m w) = snd (m (snd (repeat_op n m w))).
Proof.
  induction n as [|n IH]; intros w.
  - rewrite repeat_op_S. reflexivity.
  - rewrite repeat_op_S, IH, repeat_op_S. reflexivity.
Qed.


Ltac dead H :=
  try match type of H with
      | context [?e <? 0] => destruct (Z.ltb_spec e 0); [| lia]
      end;
  cbn [fst] in H; lia.

(** ** Streaming *)

Lemma stream_off_ok (w : world) :
  0 <= fst (ov5647_stream_off w) ->
  ov5647_stream_off w =
  (3, World (sensor w) (wr 0x300d 0x01 (wr 0x4202 0x0f (wr 0x4800 0x25 (hw w))))).
Proof.
  unfold ov5647_stream_off, bind, pure. intros H.
  write_step; [dead H |].
  write_step; [dead H |].
  write_step; [dead H |].
  reflexivity.
Qed.

(** C8: a successful [ov5647_s_stream(sd, 0)] issues exactly three
    register writes, in this order: [MIPI_CTRL00] with the clock-lane gate
    and bus-idle bits set, the frame-off number at 0x0f (all four bits),
    the pad-out register with its disable bit set; the register file then
    holds these values, from whatever state the call started and in
    particular right after [ov5647_s_stream(sd, 1)]. *)
Theorem C8_stream_off_order (w0 : world) (after_stream_on : bool) :
  let w := if after_stream_on then snd (ov5647_s_stream 1 w0) else w0 in
  0 <= fst (ov5647_s_stream 0 w) ->
  let w' := snd (ov5647_s_stream 0 w) in
  trace (hw w') =
    trace (hw w) ++
    [EvI2cSend [0x48; 0x00; Z.lor (Z.lor MIPI_CTRL00_CLOCK_LANE_GATE MIPI_CTRL00_BUS_IDLE)
                                  MIPI_CTRL00_CLOCK_LANE_DISABLE] 3;
     EvI2cSend [0x42; 0x02; 0x0f] 3;
     EvI2cSend [0x30; 0x0d; 0x01] 3] /\
  Z.testbit (reg_value (hw w') OV5647_REG_MIPI_CTRL00) 5 = true /\
  Z.testbit (reg_value (hw w') OV5647_REG_MIPI_CTRL00) 2 = true /\
  reg_value (hw w') OV5647_REG_FRAME_OFF_NUMBER = Z.ones 4 /\
  Z.testbit (reg_value (hw w') OV5640_REG_PAD_OUT) 0 = true.
Proof.
  cbv zeta. generalize (if after_stream_on then snd (ov5647_s_stream 1 w0) else w0).
  intros w. unfold ov5647_s_stream. change (truthy 0) with false. cbn iota.
  intros H. rewrite (stream_off_ok w H). cbn [snd hw].
  split.
  - cbn [wr trace]. rewrite <- !app_assoc. reflexivity.
  - rewrite reg_value_wr_ne, reg_value_wr_ne, reg_value_wr_eq by discriminate.
    rewrite (reg_value_wr_ne 0x300d _ _ OV5647_REG_FRAME_OFF_NUMBER) by discriminate.
    rewrite reg_value_wr_eq.
    rewrite (reg_value_wr_eq 0x300d).
    repeat split; reflexivity.
Qed.

(** Stream on, then off, on the idle board. *)
Lemma C8_stream_off_order_witness :
  let w' := snd (ov5647_s_stream 0 (snd (ov5647_s_stream 1 fresh_world))) in
  reg_value (hw w') OV5647_REG_FRAME_OFF_NUMBER = 0x0f /\
  Z.testbit (reg_value (hw w') OV5640_REG_PAD_OUT) 0 = true.
Proof.
  assert (H : 0 <= fst (ov5647_s_stream 0 (snd (ov5647_s_stream 1 fresh_world))))
    by (vm_compute; discriminate).
  destruct (C8_stream_off_order fresh_world true H) as (_ & _ & _ & F & P).
  split; [exact F | exact P].
Defined.

(** ** Exposure and gain *)

Lemma exposure_bytes (v : Z) :
  1 <= v <= 65535 ->
  let hi := Z.land (Z.shiftr v 12) 0x0f in
  let mid := Z.land (Z.shiftr v 4) 0xff in
  let lo := Z.land (to_int (Z.shiftl v 4)) 0xf0 in
  to_u8 hi = hi /\ to_u8 mid = mid /\ to_u8 lo = lo /\
  hi = v / 4096 /\ mid = (v / 16) mod 256 /\ lo = (v mod 16) * 16 /\
  hi * 4096 + mid * 16 + lo / 16 = v.
Proof.
  intros Hv. cbv zeta.
  rewrite (to_int_small (Z.shiftl v 4)) by (rewrite Z.shiftl_mul_pow2; lia).
  change 0xf0 with (Z.shiftl (Z.ones 4) 4).
  rewrite <- Z.shiftl_land.
  change 0x0f with (Z.ones 4). change 0xff with (Z.ones 8).
  rewrite !Z.land_ones by lia.
  rewrite !Z.shiftr_div_pow2, !Z.shiftl_mul_pow2 by lia.
  change (2 ^ 12) with 4096. change (2 ^ 4) with 16. change (2 ^ 8) with 256.
  assert (H1 : (v / 4096) mod 16 = v / 4096).
  { apply Z.mod_small. split; [apply Z.div_pos; lia |].
    apply Z.div_lt_upper_bound; lia. }
  rewrite H1.
  assert (H2 : v mod 16 * 16 / 16 = v mod 16) by (apply Z.div_mul; lia).
  rewrite H2.
  assert (B1 : 0 <= v / 4096 < 16).
  { split; [apply Z.div_pos; lia | apply Z.div_lt_upper_bound; lia]. }
  assert (B2 : 0 <= (v / 16) mod 256 < 256) by (apply Z.mod_pos_bound; lia).
  assert (B3 : 0 <= v mod 16 < 16) by (apply Z.mod_pos_bound; lia).
  assert (S : v / 4096 * 4096 + (v / 16) mod 256 * 16 + v mod 16 = v).
  { pose proof (Z.div_mod v 16 ltac:(lia)).
    pose proof (Z.div_mod (v / 16) 256 ltac:(lia)).
    assert (v / 16 / 256 = v / 4096) by (rewrite Z.div_div by lia; reflexivity).
    lia. }
  unfold to_u8. change (2 ^ 8) with 256.
  rewrite (Z.mod_small (v / 4096) 256), (Z.mod_small ((v / 16) mod 256) 256),
    (Z.mod_small (v mod 16 * 16) 256) by lia.
  repeat split; try reflexivity; exact S.
Qed.

Lemma gain_bytes (v : Z) :
  16 <= v <= 1023 ->
  let hi := Z.land (Z.shiftr v 8) 0x03 in
  let lo := Z.land v 0xff in
  to_u8 hi = hi /\ to_u8 lo = lo /\
  hi = v / 256 /\ lo = v mod 256 /\
  hi * 256 + lo = v.
Proof.
  intros Hv. cbv zeta.
  change 0x03 with (Z.ones 2). change 0xff with (Z.ones 8).
  rewrite !Z.land_ones by lia.
  rewrite !Z.shiftr_div_pow2 by lia.
  change (2 ^ 2) with 4. change (2 ^ 8) with 256.
  assert (B1 : 0 <= v / 256 < 4).
  { split; [apply Z.div_pos; lia | apply Z.div_lt_upper_bound; lia]. }
  assert (B2 : 0 <= v mod 256 < 256) by (apply Z.mod_pos_bound; lia).
  rewrite (Z.mod_small (v / 256) 4) by lia.
  unfold to_u8. change (2 ^ 8) with 256.
  rewrite (Z.mod_small (v / 256) 256), (Z.mod_small (v mod 256) 256) by lia.
  pose proof (Z.div_mod v 256 ltac:(lia)).
  repeat split; try reflexivity. lia.
Qed.

Lemma s_ctrl_exposure_ok (v : Z) (w : world) :
  power_count (sensor w) <> 0 ->
  0 <= fst (ov5647_s_ctrl (Ctrl V4L2_CID_EXPOSURE v) w) ->
  ov5647_s_ctrl (Ctrl V4L2_CID_EXPOSURE v) w =
  (0, World (sensor w)
        (wr 0x3502 (to_u8 (Z.land (to_int (Z.shiftl v 4)) 0xf0))
          (wr 0x3501 (to_u8 (Z.land (Z.shiftr v 4) 0xff))
            (wr 0x3500 (to_u8 (Z.land (Z.shiftr v 12) 0x0f)) (hw w))))).
Proof.
  intros Hp. unfold ov5647_s_ctrl. rewrite bind_eq. cbn [get_sensor fst snd].
  destruct (Z.eqb_spec (power_count (sensor w)) 0) as [? | _]; [contradiction |].
  cbn [id val]. change (V4L2_CID_EXPOSURE =? V4L2_CID_AUTO_WHITE_BALANCE) with false.
  change (V4L2_CID_EXPOSURE =? V4L2_CID_AUTOGAIN) with false.
  change (V4L2_CID_EXPOSURE =? V4L2_CID_EXPOSURE_AUTO) with false.
  change (V4L2_CID_EXPOSURE =? V4L2_CID_EXPOSURE) with true. cbn iota.
  unfold bind, pure. intros H.
  write_step; [dead H |].
  write_step; [dead H |].
  write_step; [dead H |].
  reflexivity.
Qed.

Lemma s_ctrl_gain_ok (v : Z) (w : world) :
  power_count (sensor w) <> 0 ->
  0 <= fst (ov5647_s_ctrl (Ctrl V4L2_CID_ANALOGUE_GAIN v) w) ->
  ov5647_s_ctrl (Ctrl V4L2_CID_ANALOGUE_GAIN v) w =
  (0, World (sensor w)
        (wr 0x350b (to_u8 (Z.land v 0xff))
          (wr 0x350a (to_u8 (Z.land (Z.shiftr v 8) 0x03)) (hw w)))).
Proof.
  intros Hp. unfold ov5647_s_ctrl. rewrite bind_eq. cbn [get_sensor fst snd].
  destruct (Z.eqb_spec (power_count (sensor w)) 0) as [? | _]; [contradiction |].
  cbn [id val]. change (V4L2_CID_ANALOGUE_GAIN =? V4L2_CID_AUTO_WHITE_BALANCE) with false.
  change (V4L2_CID_ANALOGUE_GAIN =? V4L2_CID_AUTOGAIN) with false.
  change (V4L2_CID_ANALOGUE_GAIN =? V4L2_CID_EXPOSURE_AUTO) with false.
  change (V4L2_CID_ANALOGUE_GAIN =? V4L2_CID_EXPOSURE) with false.
  change (V4L2_CID_ANALOGUE_GAIN =? V4L2_CID_ANALOGUE_GAIN) with true. cbn iota.
  unfold bind, pure. intros H.
  write_step; [dead H |].
  write_step; [dead H |].
  reflexivity.
Qed.

(** C3: while powered, a successful EXPOSURE control with value [v] in
    [1, 65535] issues exactly three register writes, high register first,
    with [hi = (v >> 12) & 0x0f], [mid = (v >> 4) & 0xff],
    [lo = (v << 4) & 0xf0]; a successful ANALOGUE_GAIN control with [v] in
    [16, 1023] issues two, high first, with [hi = (v >> 8) & 0x03],
    [lo = v & 0xff]; the registers then hold these bytes, and the bytes
    give [v] back. *)
Theorem C3_exposure_gain_bytes (v : Z) (w : world) :
  power_count (sensor w) <> 0 ->
  (1 <= v <= 65535 ->
   0 <= fst (ov5647_s_ctrl (Ctrl V4L2_CID_EXPOSURE v) w) ->
   let hi := Z.land (Z.shiftr v 12) 0x0f in
   let mid := Z.land (Z.shiftr v 4) 0xff in
   let lo := Z.land (Z.shiftl v 4) 0xf0 in
   let w' := snd (ov5647_s_ctrl (Ctrl V4L2_CID_EXPOSURE v) w) in
   trace (hw w') =
     trace (hw w) ++
     [EvI2cSend [0x35; 0x00; hi] 3; EvI2cSend [0x35; 0x01; mid] 3;
      EvI2cSend [0x35; 0x02; lo] 3] /\
   reg_value (hw w') OV5647_REG_EXPOSURE_HI = hi /\
   reg_value (hw w') OV5647_REG_EXPOSURE_MID = mid /\
   reg_value (hw w') OV5647_REG_EXPOSURE_LO = lo /\
   hi * 4096 + mid * 16 + lo / 16 = v) /\
  (16 <= v <= 1023 ->
   0 <= fst (ov5647_s_ctrl (Ctrl V4L2_CID_ANALOGUE_GAIN v) w) ->
   let hi := Z.land (Z.shiftr v 8) 0x03 in
   let lo := Z.land v 0xff in
   let w' := snd (ov5647_s_ctrl (Ctrl V4L2_CID_ANALOGUE_GAIN v) w) in
   trace (hw w') =
     trace (hw w) ++
     [EvI2cSend [0x35; 0x0a; hi] 3; EvI2cSend [0x35; 0x0b; lo] 3] /\
   reg_value (hw w') OV5647_REG_GAIN_HI = hi /\
   reg_value (hw w') OV5647_REG_GAIN_LO = lo /\
   hi * 256 + lo = v).
Proof.
  intros Hp. split.
  - intros Hv Hok. cbv zeta. rewrite (s_ctrl_exposure_ok v w Hp Hok). cbn [snd hw].
    destruct (exposure_bytes v Hv) as (U1 & U2 & U3 & _ & _ & _ & RT).
    rewrite U1, U2, U3.
    rewrite (to_int_small (Z.shiftl v 4)) in * by (rewrite Z.shiftl_mul_pow2; lia).
    split; [cbn [wr trace]; rewrite <- !app_assoc; reflexivity |].
    split; [rewrite !reg_value_wr_ne by discriminate; apply reg_value_wr_eq |].
    split; [rewrite reg_value_wr_ne by discriminate; apply reg_value_wr_eq |].
    split; [apply reg_value_wr_eq | exact RT].
  - intros Hv Hok. cbv zeta. rewrite (s_ctrl_gain_ok v w Hp Hok). cbn [snd hw].
    destruct (gain_bytes v Hv) as (U1 & U2 & _ & _ & RT).
    rewrite U1, U2.
    split; [cbn [wr trace]; rewrite <- !app_assoc; reflexivity |].
    split; [rewrite reg_value_wr_ne by discriminate; apply reg_value_wr_eq |].
    split; [apply reg_value_wr_eq | exact RT].
Qed.

(** The specification's examples: EXPOSURE(0x1234) and GAIN(0x2AB). *)
Lemma C3_exposure_gain_bytes_witness :
  trace (hw (snd (ov5647_s_ctrl (Ctrl V4L2_CID_EXPOSURE 0x1234) powered_world))) =
    [EvI2cSend [0x35; 0x00; 0x01] 3; EvI2cSend [0x35; 0x01; 0x23] 3;
     EvI2cSend [0x35; 0x02; 0x40] 3] /\
  trace (hw (snd (ov5647_s_ctrl (Ctrl V4L2_CID_ANALOGUE_GAIN 0x2ab) powered_world))) =
    [EvI2cSend [0x35; 0x0a; 0x02] 3; EvI2cSend [0x35; 0x0b; 0xab] 3].
Proof.
  assert (Hp : power_count (sensor powered_world) <> 0) by discriminate.
  split.
  - destruct (C3_exposure_gain_bytes 0x1234 powered_world Hp) as [HE _].
    apply HE; [lia | vm_compute; discriminate].
  - destruct (C3_exposure_gain_bytes 0x2ab powered_world Hp) as [_ HG].
    apply HG; [lia | vm_compute; discriminate].
Defined.

(** ** Detection and attach *)

Lemma next_fault_ok (l : list Z) :
  Forall (fun e => 0 <= e) l ->
  (fst (next_fault l) <? 0) = false /\ Forall (fun e => 0 <= e) (snd (next_fault l)).
Proof.
  intros H. destruct H as [|e l He Hl]; cbn.
  - split; [reflexivity | constructor].
  - split; [apply Z.ltb_ge; exact He | exact Hl].
Qed.

Lemma ov5647_write_ok (reg val : Z) (w : world) :
  transfers_succeed (hw w) ->
  ov5647_write reg val w =
    (3, World (sensor w) (wr (to_u16 reg) (to_u8 val) (hw w))) /\
  transfers_succeed (wr (to_u16 reg) (to_u8 val) (hw w)).
Proof.
  intros H. destruct (next_fault_ok _ H) as [Hf Hr]. split; [| exact Hr].
  destruct (ov5647_write_cases reg val w) as [(e & He & E) | E]; [| exact E].
  exfalso. revert He E. unfold ov5647_write, i2c_master_send, on_board.
  destruct (next_fault (i2c_faults (hw w))) as [e' rest]. cbn [fst] in Hf.
  rewrite Hf. destruct (sccb_receive _ _). intros He [= <- _]. lia.
Qed.

Lemma ov5647_read_ok (reg : Z) (w : world) :
  transfers_succeed (hw w) ->
  ov5647_read reg w =
    ((1, to_u8 (reg_value (hw w) (to_u16 reg))),
     World (sensor w) (received (addressed (to_u16 reg) (hw w)))) /\
  transfers_succeed (received (addressed (to_u16 reg) (hw w))).
Proof.
  intros H. destruct (next_fault_ok _ H) as [Hf Hr].
  destruct (next_fault_ok _ Hr) as [Hf2 Hr2].
  split; [| exact Hr2].
  unfold ov5647_read, bind, i2c_master_send, i2c_master_recv, on_board, pure.
  unfold received, addressed, reg_value.
  cbn [hw i2c_faults regs reg_ptr xclk_enabled reset_level clk_faults trace sensor].
  destruct (u16_bytes reg) as [-> ->].
  destruct (next_fault (i2c_faults (hw w))) as [e rest]. cbn [fst snd] in *.
  rewrite Hf. cbn [sccb_receive hw]. change (2 <? 0) with false. cbn iota.
  cbn [hw i2c_faults regs reg_ptr xclk_enabled reset_level clk_faults trace sensor].
  destruct (next_fault rest) as [e2 rest2]. cbn [fst snd] in *. rewrite Hf2.
  assert (Hd : to_u16 reg / 256 * 256 + to_u16 reg mod 256 = to_u16 reg).
  { pose proof (Z.div_mod (to_u16 reg) 256 ltac:(lia)). lia. }
  cbn. rewrite Hd, <- app_assoc. reflexivity.
Qed.

Lemma detect_result (w : world) :
  transfers_succeed (hw w) ->
  let idh := to_u8 (reg_value (hw w) OV5647_REG_CHIPID_H) in
  let idl := to_u8 (reg_value (hw w) OV5647_REG_CHIPID_L) in
  let bh := received (addressed 0x300a (wr 0x0103 1 (hw w))) in
  let bl := received (addressed 0x300b bh) in
  ov5647_detect w =
    if negb (idh =? 0x56) then (- ENODEV, World (sensor w) bh)
    else if negb (idl =? 0x47) then (- ENODEV, World (sensor w) bl)
    else (3, World (sensor w) (wr 0x0103 0 bl)).
Proof.
  intros H0. cbv zeta. unfold ov5647_detect, bind, pure.
  destruct (ov5647_write_ok OV5647_SW_RESET 0x01 w H0) as [-> H1].
  change (3 <? 0) with false. cbn iota.
  change (to_u16 OV5647_SW_RESET) with 0x0103 in *. change (to_u8 0x01) with 1 in *.
  destruct (ov5647_read_ok OV5647_REG_CHIPID_H (World (sensor w) (wr 0x0103 1 (hw w))) H1)
    as [-> H2].
  cbn [hw sensor] in *. change (1 <? 0) with false. cbn iota.
  change (to_u16 OV5647_REG_CHIPID_H) with 0x300a in *.
  rewrite (reg_value_wr_ne 0x0103 1 (hw w) 0x300a) by discriminate.
  change OV5647_REG_CHIPID_H with 0x300a.
  destruct (negb (to_u8 (reg_value (hw w) 0x300a) =? 0x56)); [reflexivity |].
  match goal with
  | |- context [ov5647_read ?r ?w0] =>
      destruct (ov5647_read_ok r w0 H2) as [-> H3]
  end.
  cbn [hw sensor] in *. change (1 <? 0) with false. cbn iota.
  change (to_u16 OV5647_REG_CHIPID_L) with 0x300b in *.
  change OV5647_REG_CHIPID_L with 0x300b.
  replace (reg_value (received (addressed 0x300a (wr 0x0103 1 (hw w)))) 0x300b)
    with (reg_value (hw w) 0x300b)
    by (symmetry; apply (reg_value_wr_ne 0x0103 1 (hw w) 0x300b); discriminate).
  destruct (negb (to_u8 (reg_value (hw w) 0x300b) =? 0x47)); [reflexivity |].
  match goal with
  | |- context [ov5647_write ?r ?v ?w0] =>
      destruct (ov5647_write_ok r v w0 H3) as [-> _]
  end.
  reflexivity.
Qed.

Lemma detect_trace (w : world) :
  transfers_succeed (hw w) ->
  let idh := to_u8 (reg_value (hw w) OV5647_REG_CHIPID_H) in
  let idl := to_u8 (reg_value (hw w) OV5647_REG_CHIPID_L) in
  let w' := snd (ov5647_detect w) in
  fst (ov5647_detect w) = (if (idh =? 0x56) && (idl =? 0x47) then 3 else - ENODEV) /\
  sensor w' = sensor w /\
  xclk_enabled (hw w') = xclk_enabled (hw w) /\
  trace (hw w') = trace (hw w) ++ detect_transfers idh idl /\
  reg_value (hw w') OV5647_SW_RESET =
    (if (idh =? 0x56) && (idl =? 0x47) then 0 else 1).
Proof.
  intros H. cbv zeta. rewrite (detect_result w H). unfold detect_transfers.
  destruct (to_u8 (reg_value (hw w) OV5647_REG_CHIPID_H) =? 0x56);
    [destruct (to_u8 (reg_value (hw w) OV5647_REG_CHIPID_L) =? 0x47) |];
    cbn [negb andb fst snd hw sensor];
    (split; [reflexivity |]); (split; [reflexivity |]); (split; [reflexivity |]);
    (split; [cbn; rewrite <- ?app_assoc; reflexivity |]).
  - apply reg_value_wr_eq.
  - apply (reg_value_wr_eq 0x0103 1).
  - apply (reg_value_wr_eq 0x0103 1).
Qed.

Lemma probe_mismatch (env : probe_env) (w : world) :
  transfers_succeed (hw w) -> probe_reaches_detect env (hw w) ->
  let idh := to_u8 (reg_value (hw w) OV5647_REG_CHIPID_H) in
  let idl := to_u8 (reg_value (hw w) OV5647_REG_CHIPID_L) in
  (idh =? 0x56) && (idl =? 0x47) = false ->
  fst (ov5647_probe env w) = - ENODEV /\
  sensor (snd (ov5647_probe env w)) = Sensor 0 0 0 (reset_gpio_found env) 0 /\
  xclk_enabled (hw (snd (ov5647_probe env w))) = xclk_enabled (hw w) /\
  trace (hw (snd (ov5647_probe env w))) =
    trace (hw w) ++
    probe_abort_trace (reset_gpio_found env) (pads_init_ret env) idh idl.
Proof.
  intros HT (Hk & Hdt & Hclk & Hrate & Hic & Hpads & Hce). cbv zeta. intros Hid.
  unfold ov5647_probe. rewrite Hk, Hclk, Hrate, Hic.
  replace (of_node env && negb (parse_dt_ret env =? 0)) with false
    by (destruct Hdt as [E | E]; rewrite E; [reflexivity | symmetry; apply andb_false_r]).
  cbn [negb]. change (0 =? 0) with true. change (25000000 =? 25000000) with true.
  cbn [negb].
  unfold framework, probe_power_off, probe_error, probe_ctrl_free, probe_mutex_remove,
    framework, __ov5647_power_on, __ov5647_power_off, deassert_reset, assert_reset,
    usleep_range, emit, gpiod_set_value_cansleep, clk_disable_unprepare,
    clk_prepare_enable, devm_gpiod_get_optional, put_sensor, get_sensor,
    bind, pure, on_board.
  cbn [fst snd hw sensor regs reg_ptr xclk_enabled reset_level i2c_faults
       clk_faults trace reset_gpio].
  change (0 =? 0) with true. cbn [negb].
  destruct (Z.ltb_spec (pads_init_ret env) 0) as [? | _]; [lia |].
  cbn [fst snd hw sensor regs reg_ptr xclk_enabled reset_level i2c_faults
       clk_faults trace reset_gpio].
  destruct (next_fault (clk_faults (hw w))) as [ce crest]. cbn [fst] in Hce.
  destruct (Z.ltb_spec ce 0) as [? | _]; [lia |].
  cbn [fst snd hw sensor regs reg_ptr xclk_enabled reset_level i2c_faults
       clk_faults trace reset_gpio].
  destruct (reset_gpio_found env);
    cbn -[ov5647_detect Z.add app];
    match goal with
    | |- context [ov5647_detect ?W] =>
        pose proof (detect_trace W HT) as D; cbv zeta in D;
        change (reg_value (hw W) OV5647_REG_CHIPID_H)
          with (reg_value (hw w) OV5647_REG_CHIPID_H) in D;
        change (reg_value (hw W) OV5647_REG_CHIPID_L)
          with (reg_value (hw w) OV5647_REG_CHIPID_L) in D;
        rewrite Hid in D;
        cbn [hw sensor xclk_enabled trace] in D;
        destruct D as (R & S & X & T & _);
        destruct (ov5647_detect W) as [r wd]
    end;
    cbn [fst snd] in R, S, X, T; subst r;
    change (- ENODEV <? 0) with true; cbn -[Z.add app]; rewrite S; cbn -[Z.add app];
    rewrite ?S;
    (split; [reflexivity |]); (split; [reflexivity |]); (split; [lia |]);
    rewrite T; unfold probe_abort_trace; rewrite <- ?app_assoc; reflexivity.
Qed.

(** C9: when no bus transfer fails, [ov5647_detect] first writes 1 to the
    software-reset register and then reads the identifier; if the high
    byte is not 0x56 or the low byte is not 0x47 it returns [-ENODEV]
    without clearing the reset flag, and [ov5647_probe] returns [-ENODEV]
    having powered the sensor off again, with no registration and no
    register write other than the reset; when both bytes match,
    [ov5647_detect] ends by writing 0 to the reset register and returns a
    non-negative value. *)
Theorem C9_detect_chip_id (env : probe_env) (w : world) :
  transfers_succeed (hw w) ->
  probe_reaches_detect env (hw w) ->
  let idh := to_u8 (reg_value (hw w) OV5647_REG_CHIPID_H) in
  let idl := to_u8 (reg_value (hw w) OV5647_REG_CHIPID_L) in
  let d := ov5647_detect w in
  let p := ov5647_probe env w in
  let abort := probe_abort_trace (reset_gpio_found env) (pads_init_ret env) idh idl in
  (exists t,
     trace (hw (snd d)) =
       trace (hw w) ++
       EvI2cSend [0x01; 0x03; 0x01] 3 :: EvI2cSend [0x30; 0x0a] 2 ::
       EvI2cRecv 1 1 :: t) /\
  trace (hw (snd d)) = trace (hw w) ++ detect_transfers idh idl /\
  (if (idh =? 0x56) && (idl =? 0x47)
   then fst d = 3 /\
        reg_value (hw (snd d)) OV5647_SW_RESET = 0 /\
        exists t,
          trace (hw (snd d)) = trace (hw w) ++ t ++ [EvI2cSend [0x01; 0x03; 0x00] 3]
   else fst d = - ENODEV /\
        reg_value (hw (snd d)) OV5647_SW_RESET = 1 /\
        count_ev is_reg_write (detect_transfers idh idl) = 1%nat /\
        fst p = - ENODEV /\
        sensor (snd p) = Sensor 0 0 0 (reset_gpio_found env) 0 /\
        xclk_enabled (hw (snd p)) = xclk_enabled (hw w) /\
        trace (hw (snd p)) = trace (hw w) ++ abort /\
        count_ev is_registration abort = 0%nat /\
        count_ev is_reg_write abort = 1%nat).
Proof.
  intros HT HP. cbv zeta.
  destruct (detect_trace w HT) as (R & _ & _ & T & SR). cbv zeta in *.
  split; [| split; [exact T |]].
  - rewrite T. unfold detect_transfers. eexists. reflexivity.
  - pose proof (probe_mismatch env w HT HP) as PM. cbv zeta in PM.
    rewrite R, SR, T.
    destruct ((to_u8 (reg_value (hw w) OV5647_REG_CHIPID_H) =? 0x56) &&
              (to_u8 (reg_value (hw w) OV5647_REG_CHIPID_L) =? 0x47)) eqn:Hid.
    + split; [reflexivity |]. split; [reflexivity |].
      unfold detect_transfers. apply andb_prop in Hid as [-> ->].
      exists [EvI2cSend [0x01; 0x03; 0x01] 3; EvI2cSend [0x30; 0x0a] 2; EvI2cRecv 1 1;
              EvI2cSend [0x30; 0x0b] 2; EvI2cRecv 1 1].
      reflexivity.
    + destruct (PM eq_refl) as (P1 & P2 & P3 & P4).
      split; [reflexivity |]. split; [reflexivity |].
      split.
      { unfold detect_transfers.
        destruct (to_u8 (reg_value (hw w) OV5647_REG_CHIPID_H) =? 0x56);
          [cbn [andb] in Hid; rewrite Hid |]; reflexivity. }
      split; [exact P1 |]. split; [exact P2 |]. split; [exact P3 |].
      split; [exact P4 |].
      unfold probe_abort_trace, detect_transfers.
      destruct (reset_gpio_found env);
        (destruct (to_u8 (reg_value (hw w) OV5647_REG_CHIPID_H) =? 0x56);
         [cbn [andb] in Hid; rewrite Hid |]); split; reflexivity.
Qed.

(** A sensor answering 0x55 for the high identifier byte. *)
Lemma C9_detect_chip_id_witness :
  fst (ov5647_detect wrong_chip_world) = - ENODEV /\
  fst (ov5647_probe probe_env_ok wrong_chip_world) = - ENODEV /\
  count_ev is_registration
    (trace (hw (snd (ov5647_probe probe_env_ok wrong_chip_world)))) = 0%nat.
Proof.
  assert (HT : transfers_succeed (hw wrong_chip_world)) by constructor.
  assert (HP : probe_reaches_detect probe_env_ok (hw wrong_chip_world)).
  { unfold probe_reaches_detect. cbn. repeat split; auto; lia. }
  pose proof (C9_detect_chip_id probe_env_ok wrong_chip_world HT HP) as H.
  cbv zeta in H. destruct H as (_ & _ & H).
  change ((to_u8 (reg_value (hw wrong_chip_world) OV5647_REG_CHIPID_H) =? 0x56) &&
          (to_u8 (reg_value (hw wrong_chip_world) OV5647_REG_CHIPID_L) =? 0x47))
    with false in H.
  destruct H as (D & _ & _ & P & _ & _ & T & C & _).
  split; [exact D |]. split; [exact P |].
  rewrite T. exact C.
Defined.

(** ** Power sequencing on a board without failures *)

Lemma bus_ok_bind {A B : Type} (m : M A) (k : A -> M B) (w : world)
    (a : A) (r : gmap Z Z) (t : list event) (b : B) (r' : gmap Z Z) (t' : list event) :
  bus_ok m w a r t ->
  (forall w1, sensor w1 = sensor w -> transfers_succeed (hw w1) ->
              regs (hw w1) = r -> bus_ok (k a) w1 b r' t') ->
  bus_ok (bind m k) w b r' (t ++ t').
Proof.
  intros (Ha & Hs & Ht & Hr & Htr) Hk. unfold bus_ok. rewrite bind_eq, Ha.
  destruct (Hk (snd (m w)) Hs Ht Hr) as (Hb & Hs' & Ht' & Hr' & Htr').
  repeat split; try assumption.
  - congruence.
  - rewrite Htr', Htr, app_assoc. reflexivity.
Qed.

Lemma bus_ok_pure {A : Type} (a : A) (w : world) (r : gmap Z Z) :
  transfers_succeed (hw w) -> regs (hw w) = r -> bus_ok (pure a) w a r [].
Proof.
  intros H R. unfold bus_ok, pure. cbn [fst snd]. rewrite app_nil_r. auto.
Qed.

Lemma bus_ok_get_sensor (w : world) (r : gmap Z Z) :
  transfers_succeed (hw w) -> regs (hw w) = r ->
  bus_ok get_sensor w (sensor w) r [].
Proof.
  intros H R. unfold bus_ok, get_sensor. cbn [fst snd]. rewrite app_nil_r. auto.
Qed.

Lemma bus_ok_weaken {A : Type} (m : M A) (w : world) (a a' : A)
    (r r' : gmap Z Z) (t t' : list event) :
  bus_ok m w a r t -> a = a' -> r = r' -> t = t' -> bus_ok m w a' r' t'.
Proof. intros H <- <- <-. exact H. Qed.

Lemma bus_ok_if {A : Type} (c : bool) (m1 m2 : M A) (w : world)
    (a1 a2 : A) (r1 r2 : gmap Z Z) (t1 t2 : list event) :
  bus_ok m1 w a1 r1 t1 -> bus_ok m2 w a2 r2 t2 ->
  bus_ok (if c then m1 else m2) w
         (if c then a1 else a2) (if c then r1 else r2) (if c then t1 else t2).
Proof. destruct c; auto. Qed.

Lemma bus_ok_write (reg val : Z) (w : world) (r : gmap Z Z) :
  transfers_succeed (hw w) -> regs (hw w) = r ->
  bus_ok (ov5647_write reg val) w 3 (<[to_u16 reg := to_u8 val]> r)
         [EvI2cSend [to_u16 reg / 256; to_u16 reg mod 256; to_u8 val] 3].
Proof.
  intros H <-. destruct (ov5647_write_ok reg val w H) as [E H'].
  unfold bus_ok. rewrite E. cbn [fst snd hw sensor]. repeat split; auto.
Qed.

Lemma bus_ok_read (reg : Z) (w : world) (r : gmap Z Z) :
  transfers_succeed (hw w) -> regs (hw w) = r ->
  bus_ok (ov5647_read reg) w (1, reg_byte r (to_u16 reg)) r (read_events reg).
Proof.
  intros H <-. destruct (ov5647_read_ok reg w H) as [E H'].
  unfold bus_ok. rewrite E. cbn [fst snd hw sensor]. repeat split; auto.
  cbn. rewrite <- app_assoc. reflexivity.
Qed.

Lemma bus_ok_write_regs (rs : list regval_list) :
  forall (w : world) (r : gmap Z Z),
    transfers_succeed (hw w) -> regs (hw w) = r ->
    bus_ok (write_regs rs) w 0 (store_regs rs r) (map write_event rs).
Proof.
  induction rs as [|x rest IH]; intros w r H R.
  - cbn [write_regs store_regs fold_left map]. apply bus_ok_pure; assumption.
  - cbn [write_regs map].
    change (store_regs (x :: rest) r)
      with (store_regs rest (<[to_u16 (addr x) := to_u8 (data x)]> r)).
    change (write_event x :: map write_event rest)
      with ([write_event x] ++ map write_event rest).
    eapply bus_ok_bind; [apply bus_ok_write; eassumption |].
    intros w1 S1 T1 R1. change (3 <? 0) with false. cbn iota.
    apply IH; assumption.
Qed.

Lemma bus_ok_write_array (rs : list regval_list) (w : world) (r : gmap Z Z) :
  transfers_succeed (hw w) -> regs (hw w) = r ->
  bus_ok (ov5647_write_array rs (ARRAY_SIZE rs)) w 0 (store_regs rs r)
         (map write_event rs).
Proof.
  unfold ov5647_write_array, ARRAY_SIZE. rewrite Nat2Z.id, firstn_all.
  apply bus_ok_write_regs.
Qed.

Lemma bus_ok_stream_off (w : world) (r : gmap Z Z) :
  transfers_succeed (hw w) -> regs (hw w) = r ->
  bus_ok ov5647_stream_off w 3
         (<[0x300d := 0x01]> (<[0x4202 := 0x0f]> (<[0x4800 := 0x25]> r)))
         stream_off_events.
Proof.
  intros H R. unfold ov5647_stream_off.
  eapply bus_ok_weaken.
  - eapply bus_ok_bind; [apply bus_ok_write; eassumption |].
    intros w1 S1 T1 R1. change (3 <? 0) with false. cbn iota.
    eapply bus_ok_bind; [apply bus_ok_write; eassumption |].
    intros w2 S2 T2 R2. change (3 <? 0) with false. cbn iota.
    apply bus_ok_write; eassumption.
  - reflexivity.
  - reflexivity.
  - reflexivity.
Qed.

Lemma byte_cases (P : Z -> bool) :
  forallb (fun n => P (Z.of_nat n)) (seq 0 256) = true ->
  forall v, 0 <= v < 256 -> P v = true.
Proof.
  intros H v Hv. rewrite List.forallb_forall in H.
  specialize (H (Z.to_nat v)). rewrite Z2Nat.id in H by lia.
  apply H. apply in_seq. lia.
Qed.

Lemma to_u8_range (z : Z) : 0 <= to_u8 z < 256.
Proof. unfold to_u8. apply Z.mod_pos_bound. lia. Qed.

Lemma reg_byte_range (r : gmap Z Z) (a : Z) : 0 <= reg_byte r a < 256.
Proof. apply to_u8_range. Qed.

Lemma vc0_bits (v : Z) :
  0 <= v < 256 ->
  to_u8 (Z.lor (to_u8 (Z.land v (Z.lnot (Z.shiftl 3 6)))) (to_int (Z.shiftl 0 6))) =
  v mod 64.
Proof.
  intros Hv. apply Z.eqb_eq.
  apply (byte_cases
           (fun v => to_u8 (Z.lor (to_u8 (Z.land v (Z.lnot (Z.shiftl 3 6))))
                                  (to_int (Z.shiftl 0 6))) =? v mod 64));
    [vm_compute; reflexivity | exact Hv].
Qed.

Lemma standby_on_bits (v : Z) :
  0 <= v < 256 -> to_u8 (to_u8 (Z.land v (Z.lnot 0x01))) = 2 * (v / 2).
Proof.
  intros Hv. apply Z.eqb_eq.
  apply (byte_cases (fun v => to_u8 (to_u8 (Z.land v (Z.lnot 0x01))) =? 2 * (v / 2)));
    [vm_compute; reflexivity | exact Hv].
Qed.

Lemma standby_off_bits (v : Z) :
  0 <= v < 256 -> to_u8 (to_u8 (Z.lor v 0x01)) = 2 * (v / 2) + 1.
Proof.
  intros Hv. apply Z.eqb_eq.
  apply (byte_cases (fun v => to_u8 (to_u8 (Z.lor v 0x01)) =? 2 * (v / 2) + 1));
    [vm_compute; reflexivity | exact Hv].
Qed.

Lemma bus_ok_set_virtual_channel_0 (w : world) (r : gmap Z Z) :
  transfers_succeed (hw w) -> regs (hw w) = r ->
  bus_ok (ov5647_set_virtual_channel 0) w 3
         (<[0x4814 := reg_byte r 0x4814 mod 64]> r)
         (read_events 0x4814 ++ [EvI2cSend [0x48; 0x14; reg_byte r 0x4814 mod 64] 3]).
Proof.
  intros H R. unfold ov5647_set_virtual_channel.
  eapply bus_ok_weaken.
  - eapply bus_ok_bind; [apply bus_ok_read; eassumption |].
    intros w1 S1 T1 R1. cbn iota beta. change (1 <? 0) with false. cbn iota.
    apply bus_ok_write; eassumption.
  - reflexivity.
  - change (to_u16 OV5647_REG_MIPI_CTRL14) with 0x4814.
    rewrite (vc0_bits _ (reg_byte_range r 0x4814)). reflexivity.
  - change (to_u16 OV5647_REG_MIPI_CTRL14) with 0x4814.
    rewrite (vc0_bits _ (reg_byte_range r 0x4814)). reflexivity.
Qed.

Lemma bus_ok_set_sw_standby (standby : bool) (w : world) (r : gmap Z Z) :
  transfers_succeed (hw w) -> regs (hw w) = r ->
  bus_ok (set_sw_standby standby) w 3
         (<[0x0100 := 2 * (reg_byte r 0x0100 / 2) + (if standby then 0 else 1)]> r)
         (read_events 0x0100 ++
          [EvI2cSend [0x01; 0x00;
                      2 * (reg_byte r 0x0100 / 2) + (if standby then 0 else 1)] 3]).
Proof.
  intros H R. unfold set_sw_standby.
  eapply bus_ok_weaken.
  - eapply bus_ok_bind; [apply bus_ok_read; eassumption |].
    intros w1 S1 T1 R1. cbn iota beta. change (1 <? 0) with false. cbn iota.
    apply bus_ok_write; eassumption.
  - reflexivity.
  - change (to_u16 OV5647_SW_STANDBY) with 0x0100.
    destruct standby.
    + rewrite (standby_on_bits _ (reg_byte_range r 0x0100)), Z.add_0_r. reflexivity.
    + rewrite (standby_off_bits _ (reg_byte_range r 0x0100)). reflexivity.
  - change (to_u16 OV5647_SW_STANDBY) with 0x0100.
    destruct standby.
    + rewrite (standby_on_bits _ (reg_byte_range r 0x0100)), Z.add_0_r. reflexivity.
    + rewrite (standby_off_bits _ (reg_byte_range r 0x0100)). reflexivity.
Qed.

Lemma bus_ok_sensor_init (w : world) (r : gmap Z Z) :
  transfers_succeed (hw w) -> regs (hw w) = r ->
  let mode := mode_at (current_mode (sensor w)) in
  bus_ok __sensor_init w 3 (sensor_init_regs mode r) (sensor_init_trace mode r).
Proof.
  intros H R mode. unfold __sensor_init.
  eapply bus_ok_weaken.
  - eapply bus_ok_bind; [apply bus_ok_get_sensor; eassumption |].
    intros w0 S0 T0 R0. cbv zeta. fold mode.
    eapply bus_ok_bind; [apply bus_ok_read; eassumption |].
    intros w1 S1 T1 R1. cbn [fst]. change (1 <? 0) with false. cbn iota.
    eapply bus_ok_bind; [apply (bus_ok_write_array (reg_list mode)); eassumption |].
    intros w2 S2 T2 R2. change (0 <? 0) with false. cbn iota.
    eapply bus_ok_bind; [apply bus_ok_read; eassumption |].
    intros w3 S3 T3 R3.
    eapply bus_ok_bind; [apply bus_ok_set_virtual_channel_0; eassumption |].
    intros w4 S4 T4 R4. change (3 <? 0) with false. cbn iota.
    eapply bus_ok_bind; [apply bus_ok_read; eassumption |].
    intros w5 S5 T5 R5. cbn iota beta. change (1 <? 0) with false. cbn iota.
    apply bus_ok_if.
    + eapply bus_ok_bind; [apply bus_ok_write; eassumption |].
      intros w6 S6 T6 R6. change (3 <? 0) with false. cbn iota.
      apply bus_ok_stream_off; eassumption.
    + apply bus_ok_stream_off; eassumption.
  - destruct (_ =? 0); reflexivity.
  - unfold sensor_init_regs, sensor_init_standby_regs, sensor_init_channel.
    change (to_u16 OV5647_SW_STANDBY) with 0x0100. cbv zeta.
    destruct (_ =? 0); reflexivity.
  - unfold sensor_init_trace, sensor_init_standby_regs, sensor_init_channel.
    change (to_u16 OV5647_SW_STANDBY) with 0x0100.
    change (read_events OV5647_SW_STANDBY) with (read_events 0x0100).
    change (read_events OV5647_REG_MIPI_CTRL00) with (read_events 0x4800).
    destruct (_ =? 0); cbn [app]; rewrite <- ?app_assoc; reflexivity.
Qed.

Lemma clk_prepare_enable_ok (w : world) :
  0 <= fst (next_fault (clk_faults (hw w))) ->
  fst (clk_prepare_enable w) = 0.
Proof.
  unfold clk_prepare_enable, on_board.
  destruct (next_fault (clk_faults (hw w))) as [e rest]. cbn [fst]. intros He.
  destruct (Z.ltb_spec e 0); [lia | reflexivity].
Qed.

(** A first acquire on a board without failures. *)
Lemma acquire_fault_free (w : world) :
  power_count (sensor w) = 0 ->
  transfers_succeed (hw w) ->
  0 <= fst (next_fault (clk_faults (hw w))) ->
  let mode := mode_at (current_mode (sensor w)) in
  let w1 := snd (acquire w) in
  fst (acquire w) = 3 /\
  sensor w1 = with_power_count 1 (sensor w) /\
  transfers_succeed (hw w1) /\
  regs (hw w1) = power_on_regs mode (regs (hw w)) /\
  trace (hw w1) =
    trace (hw w) ++ power_on_trace (reset_gpio (sensor w)) mode (regs (hw w)) /\
  xclk_enabled (hw w1) = xclk_enabled (hw w) + 1.
Proof.
  intros Hpc HT HC. cbv zeta.
  pose proof (clk_prepare_enable_ok w HC) as C0.
  destruct (clk_prepare_enable_cases w) as (SC & RC & FC & TC & _).
  destruct (stage_reset_facts w) as (SR & TR & XR).
  destruct (deassert_reset_eq (snd (clk_prepare_enable w))) as (_ & RR & FR & _ & _).
  fold (stage_clock w) in C0, SC, RC, FC, TC, RR, FR.
  fold (stage_reset w) in RR, FR.
  assert (HTR : transfers_succeed (hw (stage_reset w))).
  { unfold transfers_succeed. rewrite FR, FC. exact HT. }
  assert (RR' : regs (hw (stage_reset w)) = regs (hw w)) by congruence.
  pose proof (bus_ok_write_array sensor_oe_enable_regs (stage_reset w) _ HTR RR')
    as (O1 & O2 & O3 & O4 & O5).
  fold (stage_oe w) in O1, O2, O3, O4, O5.
  pose proof (bus_ok_sensor_init (snd (stage_oe w)) _ O3 O4) as I. cbv zeta in I.
  destruct I as (I1 & I2 & I3 & I4 & I5).
  fold (stage_init w) in I1, I2, I3, I4, I5.
  destruct (stage_init_frame w) as (_ & XI & _).
  pose proof (acquire_succeeds w Hpc) as A.
  rewrite update_power_count_eq in A. cbn [snd] in A. cbv zeta in A.
  assert (SI : sensor (snd (stage_init w)) = sensor w) by congruence.
  rewrite SI, Hpc in A.
  change (to_int (0 + (if truthy 1 then 1 else -1))) with 1 in A.
  change (1 <? 0) with false in A. cbn iota in A.
  rewrite O2, SR in I4, I5.
  set (a := acquire w) in *. set (sc := stage_clock w) in *.
  set (sr := stage_reset w) in *. set (so := stage_oe w) in *.
  set (si := stage_init w) in *.
  clearbody a sc sr so si.
  rewrite A by lia. cbn [fst snd hw sensor].
  split; [exact I1 |]. split; [reflexivity |]. split; [exact I3 |].
  split; [exact I4 |]. split.
  - rewrite I5, O5, TR, C0. unfold power_on_trace.
    rewrite <- !app_assoc. reflexivity.
  - destruct XR as [(? & _) | [_ X]]; [lia | lia].
Qed.

Lemma release_fault_free (w : world) :
  power_count (sensor w) = 1 ->
  transfers_succeed (hw w) ->
  let wF := snd (release w) in
  fst (release w) = 3 /\
  sensor wF = with_power_count 0 (sensor w) /\
  transfers_succeed (hw wF) /\
  trace (hw wF) =
    trace (hw w) ++ power_off_trace (reset_gpio (sensor w)) (regs (hw w)) /\
  xclk_enabled (hw wF) = xclk_enabled (hw w) - 1.
Proof.
  intros Hpc HT. cbv zeta.
  assert (B : bus_ok (ov5647_write_array sensor_oe_disable_regs
                        (ARRAY_SIZE sensor_oe_disable_regs) ;;;
                      set_sw_standby true) w 3
                (<[0x0100 := 2 * (reg_byte (store_regs sensor_oe_disable_regs (regs (hw w)))
                                           0x0100 / 2) + 0]>
                   (store_regs sensor_oe_disable_regs (regs (hw w))))
                (map write_event sensor_oe_disable_regs ++
                 read_events 0x0100 ++
                 [EvI2cSend [0x01; 0x00;
                    2 * (reg_byte (store_regs sensor_oe_disable_regs (regs (hw w)))
                                  0x0100 / 2) + 0] 3])).
  { eapply bus_ok_bind; [apply bus_ok_write_array; [exact HT | reflexivity] |].
    intros w1 S1 T1 R1. apply (bus_ok_set_sw_standby true); assumption. }
  destruct B as (B1 & B2 & B3 & B4 & B5).
  assert (F : bus_frame w (snd ((ov5647_write_array sensor_oe_disable_regs
                                   (ARRAY_SIZE sensor_oe_disable_regs) ;;;
                                 set_sw_standby true) w))).
  { apply bus_only_bind; [apply bus_only_write_array |].
    intros _. apply bus_only_set_sw_standby. }
  destruct F as (_ & FX & _).
  unfold release, ov5647_sensor_power. rewrite bind_eq.
  cbn [get_sensor fst snd]. rewrite Hpc.
  change (truthy 0 && (1 =? 0)) with false.
  change (negb (truthy 0) && (1 =? 1)) with true. cbn iota.
  rewrite bind_eq in B1, B2, B3, B4, B5, FX.
  set (w1 := snd (ov5647_write_array sensor_oe_disable_regs
                    (ARRAY_SIZE sensor_oe_disable_regs) w)) in *.
  rewrite (bind_eq (ov5647_write_array _ _)). fold w1.
  rewrite (bind_eq (set_sw_standby true)).
  set (w2 := snd (set_sw_standby true w1)) in *.
  set (r2 := fst (set_sw_standby true w1)) in *.
  rewrite (bind_eq clk_disable_unprepare).
  destruct (clk_disable_unprepare_eq w2) as (S3 & X3 & T3).
  set (w3 := snd (clk_disable_unprepare w2)) in *.
  rewrite (bind_eq assert_reset).
  destruct (assert_reset_eq w3) as (S4 & X4 & T4).
  assert (F4 : i2c_faults (hw (snd (assert_reset w3))) = i2c_faults (hw w2)).
  { unfold assert_reset. rewrite bind_eq. cbn [get_sensor fst snd].
    destruct (reset_gpio (sensor w3)); reflexivity. }
  set (w4 := snd (assert_reset w3)) in *.
  rewrite (bind_eq (update_power_count 0)), update_power_count_eq.
  cbn [fst snd pure]. cbv zeta.
  assert (S : sensor w4 = sensor w) by congruence.
  rewrite S, Hpc. change (to_int (1 + (if truthy 0 then 1 else -1))) with 0.
  change (0 <? 0) with false. cbn iota. cbn [sensor hw].
  clearbody w1 w2 w3 w4 r2.
  split; [exact B1 |]. split; [reflexivity |].
  split; [unfold transfers_succeed; rewrite F4; exact B3 |].
  split.
  - rewrite T4, T3, B5. unfold power_off_trace.
    rewrite S3, B2, Z.add_0_r, <- !app_assoc. reflexivity.
  - lia.
Qed.

Lemma writes_i2c (rs : list regval_list) :
  forallb is_i2c (map write_event rs) = true.
Proof. induction rs as [|r rs IH]; [reflexivity | exact IH]. Qed.

Lemma sensor_init_trace_i2c (mode : ov5647_mode) (r0 : gmap Z Z) :
  forallb is_i2c (sensor_init_trace mode r0) = true.
Proof.
  unfold sensor_init_trace, stream_off_events, read_events.
  rewrite !forallb_app, writes_i2c. destruct (_ =? 0); reflexivity.
Qed.

Lemma count_ev_power_on (p : event -> bool) gpio mode r0 :
  (forall e, is_i2c e = true -> p e = false) ->
  p (EvGpioSet 0) = false -> p (EvUsleepRange 5000 10000) = false ->
  count_ev p (power_on_trace gpio mode r0) =
  (if p (EvClkPrepareEnable 0) then 1 else 0)%nat.
Proof.
  intros Hp Hg Hu. unfold power_on_trace.
  rewrite !count_ev_app.
  rewrite (count_ev_i2c p (map write_event _) Hp (writes_i2c _)).
  rewrite (count_ev_i2c p (sensor_init_trace _ _) Hp (sensor_init_trace_i2c _ _)).
  destruct gpio; cbn [count_ev]; rewrite ?Hg, ?Hu;
    destruct (p (EvClkPrepareEnable 0)); reflexivity.
Qed.

Lemma count_ev_power_off (p : event -> bool) gpio r0 :
  (forall e, is_i2c e = true -> p e = false) ->
  p (EvGpioSet 1) = false ->
  count_ev p (power_off_trace gpio r0) =
  (if p EvClkDisableUnprepare then 1 else 0)%nat.
Proof.
  intros Hp Hg. unfold power_off_trace.
  rewrite !count_ev_app.
  rewrite (count_ev_i2c p (map write_event _) Hp (writes_i2c _)).
  rewrite (count_ev_i2c p (read_events _) Hp eq_refl).
  rewrite (count_ev_i2c p [EvI2cSend _ 3] Hp eq_refl).
  destruct gpio; cbn [count_ev]; rewrite ?Hg;
    destruct (p EvClkDisableUnprepare); reflexivity.
Qed.

(** C5 (amended): for [1 <= n <= INT_MAX], on a board where no bus
    transfer and no clock request fails, [n] acquires followed by [n]
    releases: the first acquire returns 3 having performed the power-on
    sequence (clock enable, reset de-assertion when the GPIO is there, the
    three output-enable writes, then the sensor initialisation: the mode's
    whole register table, the virtual-channel update, the standby check
    and the stream-off group) and takes the count to 1; every later
    acquire and every release but the last changes the count only and
    leaves the board, trace included, untouched; the last release performs
    the power-off sequence (the three output-disable writes, software
    standby, clock disable, reset assertion) and takes the count to 0.
    The trace of the whole run is the power-on sequence followed by the
    power-off sequence: one clock enable, one clock disable. *)
Theorem C5_power_once (n : nat) (w : world) :
  (1 <= n)%nat -> Z.of_nat n <= INT_MAX ->
  power_count (sensor w) = 0 ->
  transfers_succeed (hw w) ->
  0 <= fst (next_fault (clk_faults (hw w))) ->
  let gpio := reset_gpio (sensor w) in
  let mode := mode_at (current_mode (sensor w)) in
  let on_events := power_on_trace gpio mode (regs (hw w)) in
  let off_events := power_off_trace gpio (power_on_regs mode (regs (hw w))) in
  let w1 := snd (acquire w) in
  let wN := snd (repeat_op n acquire w) in
  let wF := snd (repeat_op n release wN) in
  (fst (acquire w) = 3 /\
   trace (hw w1) = trace (hw w) ++ on_events /\
   regs (hw w1) = power_on_regs mode (regs (hw w)) /\
   xclk_enabled (hw w1) = xclk_enabled (hw w) + 1 /\
   power_count (sensor w1) = 1) /\
  (forall k, (1 <= k <= n)%nat ->
     hw (snd (repeat_op k acquire w)) = hw w1 /\
     power_count (sensor (snd (repeat_op k acquire w))) = Z.of_nat k) /\
  (forall k, (k < n)%nat ->
     hw (snd (repeat_op k release wN)) = hw w1 /\
     power_count (sensor (snd (repeat_op k release wN))) = Z.of_nat n - Z.of_nat k) /\
  (trace (hw wF) = trace (hw w) ++ on_events ++ off_events /\
   xclk_enabled (hw wF) = xclk_enabled (hw w) /\
   power_count (sensor wF) = 0) /\
  count_ev is_clk_enable (on_events ++ off_events) = 1%nat /\
  count_ev is_clk_disable (on_events ++ off_events) = 1%nat.
Proof.
  intros Hn Hmax Hpc HT HC. cbv zeta.
  destruct (acquire_fault_free w Hpc HT HC) as (A1 & A2 & A3 & A4 & A5 & A6).
  cbv zeta in *.
  set (w1 := snd (acquire w)) in *.
  assert (P1 : power_count (sensor w1) = 1) by (rewrite A2; reflexivity).
  assert (EA : forall k, (1 <= k <= n)%nat ->
            snd (repeat_op k acquire w) =
            World (with_power_count (Z.of_nat k) (sensor w1)) (hw w1)).
  { intros [|k] Hk; [lia |].
    cbn [repeat_op]. rewrite bind_eq. fold w1.
    rewrite repeat_acquire by lia. rewrite P1. do 2 f_equal. lia. }
  set (wN := snd (repeat_op n acquire w)) in *.
  assert (EN : wN = World (with_power_count (Z.of_nat n) (sensor w1)) (hw w1))
    by (apply EA; lia).
  assert (ER : forall k, (k < n)%nat ->
            snd (repeat_op k release wN) =
            World (with_power_count (Z.of_nat n - Z.of_nat k) (sensor w1)) (hw w1)).
  { intros k Hk. rewrite repeat_release; rewrite EN;
      cbn [sensor hw with_power_count power_count]; [reflexivity | lia]. }
  set (wM := snd (repeat_op (n - 1) release wN)) in *.
  assert (EM : wM = World (with_power_count 1 (sensor w1)) (hw w1)).
  { unfold wM. rewrite ER by lia. do 2 f_equal. lia. }
  assert (EF : snd (repeat_op n release wN) = snd (release wM)).
  { destruct n as [|n']; [lia |]. rewrite repeat_op_last.
    unfold wM. replace (S n' - 1)%nat with n' by lia. reflexivity. }
  assert (PM : power_count (sensor wM) = 1) by (rewrite EM; reflexivity).
  assert (TM : transfers_succeed (hw wM)) by (rewrite EM; exact A3).
  destruct (release_fault_free wM PM TM) as (_ & R2 & _ & R4 & R5). cbv zeta in *.
  rewrite EF.
  split; [repeat split; assumption |].
  split; [intros k Hk; rewrite (EA k Hk); split; reflexivity |].
  split; [intros k Hk; rewrite (ER k Hk); split; reflexivity |].
  split.
  - split; [| split].
    + rewrite R4, EM. cbn [hw sensor with_power_count reset_gpio].
      rewrite A5, A4, A2, <- app_assoc. reflexivity.
    + rewrite R5, EM. cbn [hw]. lia.
    + rewrite R2. reflexivity.
  - rewrite !count_ev_app.
    rewrite !count_ev_power_on, !count_ev_power_off;
      try reflexivity; try (intros []; cbn; congruence).
    split; reflexivity.
Qed.

(** Three acquires and three releases on the idle board. *)
Lemma C5_power_once_witness :
  let wN := snd (repeat_op 3 acquire fresh_world) in
  let wF := snd (repeat_op 3 release wN) in
  power_count (sensor wN) = 3 /\
  trace (hw wF) =
    power_on_trace true (mode_at 0) ∅ ++
    power_off_trace true (power_on_regs (mode_at 0) ∅) /\
  power_count (sensor wF) = 0 /\
  xclk_enabled (hw wF) = 0.
Proof.
  assert (H1 : (1 <= 3)%nat) by lia.
  assert (H2 : Z.of_nat 3 <= INT_MAX) by (vm_compute; discriminate).
  assert (H3 : power_count (sensor fresh_world) = 0) by reflexivity.
  assert (H4 : transfers_succeed (hw fresh_world)) by constructor.
  assert (H5 : 0 <= fst (next_fault (clk_faults (hw fresh_world)))) by (cbn; lia).
  destruct (C5_power_once 3 fresh_world H1 H2 H3 H4 H5)
    as (_ & HA & _ & (HT & HX & HF) & _).
  cbv zeta. split; [apply (HA 3%nat); lia |].
  split; [exact HT |]. split; [exact HF | exact HX].
Defined.

(** ** The counter wraps *)

Lemma to_int_range (z : Z) : - 2 ^ 31 <= to_int z < 2 ^ 31.
Proof.
  unfold to_int. pose proof (Z.mod_pos_bound (z + 2 ^ 31) (2 ^ 32) ltac:(lia)). lia.
Qed.

Lemma to_int_add_l (a b : Z) : to_int (to_int a + b) = to_int (a + b).
Proof.
  unfold to_int.
  replace ((a + 2 ^ 31) mod 2 ^ 32 - 2 ^ 31 + b + 2 ^ 31)
    with ((a + 2 ^ 31) mod 2 ^ 32 + b) by lia.
  rewrite Zplus_mod_idemp_l. do 2 f_equal. lia.
Qed.

Lemma to_int_nonzero (x : Z) : 1 <= x < 2 ^ 32 -> to_int x <> 0.
Proof.
  intros Hx. unfold to_int.
  destruct (Z_lt_ge_dec x (2 ^ 31)).
  - rewrite Z.mod_small by lia. lia.
  - replace (x + 2 ^ 31) with (x - 2 ^ 31 + 1 * 2 ^ 32) by lia.
    rewrite Z.mod_add by lia. rewrite Z.mod_small by lia. lia.
Qed.

(** An acquire at a non-zero count touches nothing but the counter and,
    when the new count is negative, the warning. *)
Lemma acquire_nonzero (w : world) :
  power_count (sensor w) <> 0 ->
  let pc := to_int (power_count (sensor w) + 1) in
  acquire w =
  (0, World (with_power_count pc (sensor w))
            (if pc <? 0 then warned (hw w) else hw w)).
Proof.
  intros H. cbv zeta. unfold acquire. rewrite power_else.
  - rewrite update_power_count_eq. reflexivity.
  - destruct (Z.eqb_spec (power_count (sensor w)) 0); [contradiction |].
    apply andb_false_r.
  - reflexivity.
Qed.

Lemma repeat_acquire_wrap (k : nat) :
  forall w,
    - 2 ^ 31 <= power_count (sensor w) < 2 ^ 31 ->
    (forall i, 0 <= i < Z.of_nat k -> to_int (power_count (sensor w) + i) <> 0) ->
    let w' := snd (repeat_op k acquire w) in
    power_count (sensor w') = to_int (power_count (sensor w) + Z.of_nat k) /\
    current_mode (sensor w') = current_mode (sensor w) /\
    reset_gpio (sensor w') = reset_gpio (sensor w) /\
    regs (hw w') = regs (hw w) /\
    i2c_faults (hw w') = i2c_faults (hw w) /\
    clk_faults (hw w') = clk_faults (hw w) /\
    count_ev is_clk_enable (trace (hw w')) = count_ev is_clk_enable (trace (hw w)).
Proof.
  induction k as [|k IH]; intros w Hr Hnz; cbv zeta.
  - cbn [repeat_op pure snd]. rewrite Z.add_0_r, to_int_small by lia. auto 10.
  - rewrite repeat_op_S.
    assert (H0 : power_count (sensor w) <> 0).
    { specialize (Hnz 0 ltac:(lia)). rewrite Z.add_0_r, to_int_small in Hnz by lia.
      exact Hnz. }
    rewrite (acquire_nonzero w H0). cbn [snd]. cbv zeta.
    set (w1 := World _ _).
    assert (P1 : power_count (sensor w1) = to_int (power_count (sensor w) + 1))
      by reflexivity.
    destruct (IH w1) as (Q1 & Q2 & Q3 & Q4 & Q5 & Q6 & Q7).
    + rewrite P1. apply to_int_range.
    + intros i Hi. rewrite P1, to_int_add_l.
      replace (power_count (sensor w) + 1 + i) with (power_count (sensor w) + (i + 1)) by lia.
      apply Hnz. lia.
    + cbv zeta in *. rewrite Q1, Q2, Q3, Q4, Q5, Q6, Q7, P1, to_int_add_l.
      unfold w1. cbn [sensor hw with_power_count current_mode reset_gpio].
      replace (power_count (sensor w) + 1 + Z.of_nat k)
        with (power_count (sensor w) + Z.of_nat (S k)) by lia.
      destruct (to_int (power_count (sensor w) + 1) <? 0);
        cbn [warned regs i2c_faults clk_faults trace];
        rewrite ?count_ev_app; cbn [count_ev is_clk_enable];
        repeat split; try reflexivity; lia.
Qed.

Lemma acquire_clk_faults (w : world) :
  power_count (sensor w) = 0 ->
  transfers_succeed (hw w) ->
  0 <= fst (next_fault (clk_faults (hw w))) ->
  clk_faults (hw (snd (acquire w))) = snd (next_fault (clk_faults (hw w))).
Proof.
  intros Hpc HT HC.
  destruct (acquire_fault_free w Hpc HT HC) as (A1 & _).
  pose proof (acquire_first_ok w Hpc ltac:(rewrite A1; lia)) as (E & _).
  rewrite E, power_on_sequence_eq. cbn [hw].
  destruct (stage_init_frame w) as (_ & _ & _ & CI & _). rewrite CI.
  unfold stage_reset, stage_clock, deassert_reset, clk_prepare_enable, on_board.
  rewrite bind_eq. cbn [get_sensor fst snd].
  destruct (next_fault (clk_faults (hw w))) as [e rest]. cbn [fst snd] in *.
  destruct (Z.ltb_spec e 0); [lia |]. cbn [snd sensor hw].
  destruct (reset_gpio (sensor w)); reflexivity.
Qed.

(** After 2^32 acquires the counter is back at zero, and the next acquire
    powers the sensor on a second time. *)
Lemma power_on_repeats (k : nat) (w : world) :
  Z.of_nat k = 2 ^ 32 - 1 ->
  power_count (sensor w) = 0 ->
  transfers_succeed (hw w) ->
  Forall (fun e => 0 <= e) (clk_faults (hw w)) ->
  let w' := snd (repeat_op (S (S k)) acquire w) in
  power_count (sensor w') = 1 /\
  count_ev is_clk_enable (trace (hw w')) =
    S (S (count_ev is_clk_enable (trace (hw w)))).
Proof.
  intros Hk Hpc HT HCs. cbv zeta.
  destruct (next_fault_ok _ HCs) as [HC HCr]. apply Z.ltb_ge in HC.
  destruct (acquire_fault_free w Hpc HT HC) as (_ & A2 & A3 & _ & A5 & _).
  pose proof (acquire_clk_faults w Hpc HT HC) as A7.
  cbv zeta in *.
  rewrite repeat_op_S, repeat_op_last.
  set (w1 := snd (acquire w)) in *.
  assert (P1 : power_count (sensor w1) = 1) by (rewrite A2; reflexivity).
  destruct (repeat_acquire_wrap k w1) as (Q1 & Q2 & Q3 & Q4 & Q5 & Q6 & Q7).
  { rewrite P1. lia. }
  { intros i Hi. rewrite P1. apply to_int_nonzero. lia. }
  cbv zeta in *.
  set (w2 := snd (repeat_op k acquire w1)) in *.
  assert (P2 : power_count (sensor w2) = 0).
  { rewrite Q1, P1, Hk. reflexivity. }
  assert (T2 : transfers_succeed (hw w2)).
  { unfold transfers_succeed. rewrite Q5. exact A3. }
  assert (C2 : 0 <= fst (next_fault (clk_faults (hw w2)))).
  { rewrite Q6, A7. destruct (next_fault_ok _ HCr) as [H _].
    apply Z.ltb_ge in H. exact H. }
  destruct (acquire_fault_free w2 P2 T2 C2) as (_ & B2 & _ & _ & B5 & _).
  cbv zeta in *.
  split.
  - rewrite B2. reflexivity.
  - rewrite B5, count_ev_app, Q7, A5, count_ev_app.
    rewrite !count_ev_power_on; try reflexivity; try (intros []; cbn; congruence).
    cbn [is_clk_enable]. lia.
Qed.

(** C5 (as stated, refuted): [power_count] is a C [int].  On the idle
    board the first acquire succeeds; 4294967296 acquires take the counter
    through [INT_MAX] and the negative numbers back to 0, so that the
    4294967297th acquire runs the power-on branch again: after
    N = 4294967297 acquires the clock has been enabled twice and the
    counter reads 1. *)
Lemma C5_counter_wraps :
  let n := Z.to_nat 4294967297 in
  let wN := snd (repeat_op n acquire fresh_world) in
  fst (acquire fresh_world) = 3 /\
  power_count (sensor wN) = 1 /\
  count_ev is_clk_enable (trace (hw wN)) = 2%nat.
Proof.
  cbv zeta. split; [vm_compute; reflexivity |].
  assert (E : 4294967297 = Z.succ (Z.succ 4294967295)) by reflexivity.
  rewrite E, !Z2Nat.inj_succ by lia.
  apply (power_on_repeats (Z.to_nat 4294967295) fresh_world).
  - rewrite Z2Nat.id by lia. reflexivity.
  - reflexivity.
  - constructor.
  - constructor.
Qed.


(** ** Format negotiation, enumeration and selection *)

Lemma best_mode_cases (fw fh fcode : Z) :
  let b := set_fmt_best_mode fw fh fcode in
  b = 0 \/ b = 2 \/ b = 3 \/ b = 4 \/ b = 5.
Proof.
  cbv zeta.
  destruct (set_fmt_best_mode_spec fw fh fcode) as (k & m & Eb & Hk & Hbefore & _).
  rewrite Eb.
  destruct k as [|[|[|[|[|[|k]]]]]]; cbn in Hk; auto 6.
  - exfalso. injection Hk as <-.
    specialize (Hbefore 0%nat _ (Nat.lt_0_1) eq_refl).
    unfold mode_diff in Hbefore. cbn [width height mbus_code] in Hbefore. lia.
  - destruct k; discriminate.
Qed.

Lemma best_mode_fixed (b : Z) :
  b = 0 \/ b = 2 \/ b = 3 \/ b = 4 \/ b = 5 ->
  set_fmt_best_mode (width (mode_at b)) (height (mode_at b)) (mbus_code (mode_at b)) = b.
Proof.
  intros [-> | [-> | [-> | [-> | ->]]]]; vm_compute; reflexivity.
Qed.

(** X1: ov5647_set_fmt is idempotent: for every request (any width, height,
    code, which and pad, 32-bit wrap-around included) and every driver
    state, calling it again with the format it handed back returns 0 and
    changes neither the driver state, nor the pad's TRY format, nor the
    format. *)
Theorem set_fmt_idempotent (subdev_api : bool) (s : ov5647)
    (cfg : list v4l2_mbus_framefmt) (fmt : v4l2_subdev_format) :
  let '(_, s1, cfg1, fmt1) := ov5647_set_fmt subdev_api s cfg fmt in
  ov5647_set_fmt subdev_api s1 cfg1 fmt1 = (0, s1, cfg1, fmt1).
Proof.
  unfold ov5647_set_fmt. cbv zeta.
  set (b := set_fmt_best_mode (fmt_width (format fmt)) (fmt_height (format fmt))
                              (code (format fmt))).
  pose proof (best_mode_fixed b (best_mode_cases _ _ _)) as F.
  destruct (which fmt =? V4L2_SUBDEV_FORMAT_TRY) eqn:W;
    cbn [which pad format fmt_width fmt_height code]; rewrite W, F.
  - destruct subdev_api; [| reflexivity].
    rewrite list_insert_insert_eq. reflexivity.
  - reflexivity.
Qed.

(** X2: Mode-table entry 1 (640x480 binned) is never selected: entries 0 and
    1 have the same size and media-bus code, so they always get the same
    diff and the strict comparison keeps the lower index. Hence a
    current_mode that is inside the table and different from 1 stays so
    across every ov5647_set_fmt call, whatever is requested. *)
Theorem set_fmt_never_selects_binned_mode (subdev_api : bool) (s : ov5647)
    (cfg : list v4l2_mbus_framefmt) (fmt : v4l2_subdev_format) :
  0 <= current_mode s < OV5647_NUM_MODES -> current_mode s <> 1 ->
  let '(_, s1, _, _) := ov5647_set_fmt subdev_api s cfg fmt in
  0 <= current_mode s1 < OV5647_NUM_MODES /\ current_mode s1 <> 1.
Proof.
  intros R N. unfold ov5647_set_fmt. cbv zeta.
  pose proof (best_mode_cases (fmt_width (format fmt)) (fmt_height (format fmt))
                              (code (format fmt))) as H. cbv zeta in H.
  change OV5647_NUM_MODES with 6 in *.
  destruct (which fmt =? V4L2_SUBDEV_FORMAT_TRY); cbn [current_mode]; lia.
Qed.

(** A request for exactly 640 x 480 in the 8-bit format. *)
Lemma set_fmt_never_selects_binned_mode_witness :
  let s1 := snd (fst (fst (ov5647_set_fmt true (Sensor 0 0 0 true 0) []
                             (SubdevFmt V4L2_SUBDEV_FORMAT_ACTIVE 0
                                (FrameFmt 640 480 MEDIA_BUS_FMT_SBGGR8_1X8 0 0))))) in
  0 <= current_mode s1 < OV5647_NUM_MODES /\ current_mode s1 <> 1.
Proof.
  cbv zeta.
  pose proof (set_fmt_never_selects_binned_mode true (Sensor 0 0 0 true 0) []
                (SubdevFmt V4L2_SUBDEV_FORMAT_ACTIVE 0
                   (FrameFmt 640 480 MEDIA_BUS_FMT_SBGGR8_1X8 0 0))) as H.
  cbn [current_mode] in H.
  specialize (H ltac:(vm_compute; split; [discriminate | reflexivity]) ltac:(discriminate)).
  destruct (ov5647_set_fmt _ _ _ _) as [[[r s1] c1] f1].
  exact H.
Defined.

(** X3: ov5647_get_fmt reads back what ov5647_set_fmt stored: asked with the
    same which and pad, it returns 0 and exactly the format set_fmt handed
    back (for TRY this needs CONFIG_VIDEO_V4L2_SUBDEV_API and a valid pad);
    and a TRY set_fmt does not change what an ACTIVE get_fmt reports. *)
Theorem get_fmt_after_set_fmt (subdev_api : bool) (s : ov5647)
    (cfg : list v4l2_mbus_framefmt) (fmt query : v4l2_subdev_format) :
  which query = which fmt -> pad query = pad fmt ->
  (which fmt = V4L2_SUBDEV_FORMAT_TRY ->
   subdev_api = true /\ 0 <= pad fmt /\ (Z.to_nat (pad fmt) < length cfg)%nat) ->
  let '(_, s1, cfg1, fmt1) := ov5647_set_fmt subdev_api s cfg fmt in
  ov5647_get_fmt subdev_api s1 cfg1 query = (0, fmt1) /\
  (which fmt = V4L2_SUBDEV_FORMAT_TRY ->
   forall q, which q <> V4L2_SUBDEV_FORMAT_TRY ->
     ov5647_get_fmt subdev_api s1 cfg1 q = ov5647_get_fmt subdev_api s cfg q).
Proof.
  intros Hw Hp Htry. unfold ov5647_set_fmt, ov5647_get_fmt. cbv zeta.
  rewrite Hw, Hp.
  destruct (Z.eqb_spec (which fmt) V4L2_SUBDEV_FORMAT_TRY) as [E | NE].
  - destruct (Htry E) as (-> & P0 & PL). split.
    + rewrite list_lookup_insert_eq by exact PL. reflexivity.
    + intros _ q Hq.
      destruct (Z.eqb_spec (which q) V4L2_SUBDEV_FORMAT_TRY); [contradiction | reflexivity].
  - split; [reflexivity | intros; contradiction].
Qed.

(** A TRY request for 1900 x 1000 in the 10-bit format on pad 0. *)
Lemma get_fmt_after_set_fmt_witness :
  let fmt := SubdevFmt V4L2_SUBDEV_FORMAT_TRY 0
               (FrameFmt 1900 1000 MEDIA_BUS_FMT_SBGGR10_1X10 0 0) in
  let cfg := [FrameFmt 0 0 0 0 0] in
  let s := Sensor 0 0 0 true 0 in
  ov5647_get_fmt true s (snd (fst (ov5647_set_fmt true s cfg fmt))) fmt =
  (0, SubdevFmt V4L2_SUBDEV_FORMAT_TRY 0
        (FrameFmt 1920 1080 MEDIA_BUS_FMT_SBGGR10_1X10
                  V4L2_FIELD_NONE V4L2_COLORSPACE_SRGB)).
Proof.
  cbv zeta.
  pose proof (get_fmt_after_set_fmt true (Sensor 0 0 0 true 0) [FrameFmt 0 0 0 0 0]
                (SubdevFmt V4L2_SUBDEV_FORMAT_TRY 0
                   (FrameFmt 1900 1000 MEDIA_BUS_FMT_SBGGR10_1X10 0 0))
                (SubdevFmt V4L2_SUBDEV_FORMAT_TRY 0
                   (FrameFmt 1900 1000 MEDIA_BUS_FMT_SBGGR10_1X10 0 0))
                eq_refl eq_refl) as H.
  specialize (H ltac:(intros _; cbn; split; [reflexivity | split; [lia | lia]])).
  revert H. vm_compute. intros [H _]. exact H.
Defined.



(** X5: ov5647_enum_mbus_code enumerates exactly the media-bus codes of the
    mode table: every entry's code is returned at index 0 or 1, every code
    returned is the code of some table entry, and any index >= 2 gives
    -EINVAL with the code field untouched. *)
Theorem enum_mbus_code_covers_modes :
  (forall m, In m ov5647_modes ->
     exists i, 0 <= i < 2 /\ forall c, ov5647_enum_mbus_code i c = (0, mbus_code m)) /\
  (forall i c, fst (ov5647_enum_mbus_code i c) = 0 ->
     exists m, In m ov5647_modes /\ snd (ov5647_enum_mbus_code i c) = mbus_code m) /\
  (forall i c, 2 <= i -> ov5647_enum_mbus_code i c = (- EINVAL, c)).
Proof.
  split; [| split].
  - intros m Hin. unfold ov5647_modes in Hin. cbn [In] in Hin.
    destruct Hin as [<- | [<- | [<- | [<- | [<- | [<- | []]]]]]]; cbn [mbus_code];
      ((exists 0; split; [lia | reflexivity]) || (exists 1; split; [lia | reflexivity])).
  - intros i c. unfold ov5647_enum_mbus_code.
    destruct (Z.eqb_spec i 0); [| destruct (Z.eqb_spec i 1)]; cbn [fst snd].
    + intros _. exists (mode_at 0). split; [left; reflexivity | reflexivity].
    + intros _. exists (mode_at 4). split; [do 4 right; left; reflexivity | reflexivity].
    + unfold EINVAL. discriminate.
  - intros i c Hi. unfold ov5647_enum_mbus_code.
    destruct (Z.eqb_spec i 0); [lia |]. destruct (Z.eqb_spec i 1); [lia | reflexivity].
Qed.

(** X6: ov5647_get_selection answers the four targets CROP, CROP_DEFAULT,
    CROP_BOUNDS and NATIVE_SIZE with 0 and a rectangle at the origin that is
    non-empty and lies within the native 2624 x 1956 array (the three crop
    targets report the current mode's size); any other target gives -EINVAL
    and leaves the rectangle untouched. *)
Theorem get_selection_within_native (s : ov5647) (target : Z) (r : v4l2_rect) :
  let res := ov5647_get_selection s target r in
  (0 <= target <= 3 ->
   fst res = 0 /\ left (snd res) = 0 /\ top (snd res) = 0 /\
   0 < rect_width (snd res) <= OV5647_NATIVE_WIDTH /\
   0 < rect_height (snd res) <= OV5647_NATIVE_HEIGHT /\
   (target <> V4L2_SEL_TGT_NATIVE_SIZE ->
    rect_width (snd res) = width (mode_at (current_mode s)) /\
    rect_height (snd res) = height (mode_at (current_mode s)))) /\
  (~ 0 <= target <= 3 -> res = (- EINVAL, r)).
Proof.
  cbv zeta. unfold ov5647_get_selection.
  assert (B : 0 < width (mode_at (current_mode s)) <= OV5647_NATIVE_WIDTH /\
              0 < height (mode_at (current_mode s)) <= OV5647_NATIVE_HEIGHT).
  { unfold mode_at, ov5647_modes, OV5647_NATIVE_WIDTH, OV5647_NATIVE_HEIGHT.
    destruct (Z.to_nat (current_mode s)) as [|[|[|[|[|[|[|k]]]]]]]; cbn; lia. }
  unfold V4L2_SEL_TGT_CROP, V4L2_SEL_TGT_NATIVE_SIZE, V4L2_SEL_TGT_CROP_DEFAULT,
    V4L2_SEL_TGT_CROP_BOUNDS.
  split.
  - intros Ht.
    assert (C : target = 0 \/ target = 1 \/ target = 2 \/ target = 3) by lia.
    set (m := mode_at (current_mode s)) in *. clearbody m.
    unfold OV5647_NATIVE_WIDTH, OV5647_NATIVE_HEIGHT in *.
    destruct C as [-> | [-> | [-> | ->]]]; cbn;
      (split; [reflexivity |]); (split; [reflexivity |]); (split; [reflexivity |]);
      (split; [lia |]); (split; [lia |]); intros N; try (split; reflexivity).
    exfalso. apply N. reflexivity.
  - intros Ht.
    destruct (Z.eqb_spec target 0); [lia |]. destruct (Z.eqb_spec target 3); [lia |].
    destruct (Z.eqb_spec target 1); [lia |]. destruct (Z.eqb_spec target 2); [lia |].
    reflexivity.
Qed.


(** ** Register transport *)

(** X7: When no transfer fails, ov5647_write_array(regs, n) returns 0 after
    exactly one 3-byte write per entry for the first n entries, in table
    order (nothing for n <= 0): the trace grows by those writes and the
    register file is the old one updated by them in order. *)
Theorem write_array_writes_prefix (rs : list regval_list) (n : Z) (w : world) :
  transfers_succeed (hw w) -> n <= ARRAY_SIZE rs ->
  let w' := snd (ov5647_write_array rs n w) in
  fst (ov5647_write_array rs n w) = 0 /\
  sensor w' = sensor w /\
  transfers_succeed (hw w') /\
  regs (hw w') = store_regs (take (Z.to_nat n) rs) (regs (hw w)) /\
  trace (hw w') = trace (hw w) ++ map write_event (take (Z.to_nat n) rs).
Proof.
  intros H _. cbv zeta. unfold ov5647_write_array.
  exact (bus_ok_write_regs (take (Z.to_nat n) rs) w (regs (hw w)) H eq_refl).
Qed.

(** The first two entries of the output-enable table on the idle board. *)
Lemma write_array_writes_prefix_witness :
  let w' := snd (ov5647_write_array sensor_oe_enable_regs 2 fresh_world) in
  fst (ov5647_write_array sensor_oe_enable_regs 2 fresh_world) = 0 /\
  trace (hw w') = [EvI2cSend [0x30; 0x00; 0x0f] 3; EvI2cSend [0x30; 0x01; 0xff] 3] /\
  regs (hw w') = <[0x3001 := 0xff]> (<[0x3000 := 0x0f]> ∅).
Proof.
  cbv zeta.
  destruct (write_array_writes_prefix sensor_oe_enable_regs 2 fresh_world)
    as (R & _ & _ & G & T); [constructor | vm_compute; discriminate |].
  split; [exact R |]. split; [rewrite T; reflexivity | rewrite G; reflexivity].
Defined.

Lemma write_array_all (rs : list regval_list) :
  ov5647_write_array rs (ARRAY_SIZE rs) = write_regs rs.
Proof.
  unfold ov5647_write_array, ARRAY_SIZE. rewrite Nat2Z.id, firstn_all. reflexivity.
Qed.

Lemma ov5647_write_head_ok (reg val : Z) (w : world) (o : Z) (rest : list Z) :
  i2c_faults (hw w) = o :: rest -> 0 <= o ->
  ov5647_write reg val w =
    (3, World (sensor w) (wr (to_u16 reg) (to_u8 val) (hw w))) /\
  i2c_faults (wr (to_u16 reg) (to_u8 val) (hw w)) = rest.
Proof.
  intros HF Ho. split; [| unfold wr; cbn; rewrite HF; reflexivity].
  destruct (ov5647_write_cases reg val w) as [(e & He & E) | E]; [| exact E].
  exfalso. revert E. unfold ov5647_write, i2c_master_send, on_board.
  rewrite HF. cbn [next_fault].
  destruct (Z.ltb_spec o 0); [lia |].
  destruct (sccb_receive _ _). intros [= <- _]. lia.
Qed.

Lemma ov5647_write_head_fail (reg val : Z) (w : world) (e : Z) (rest : list Z) :
  i2c_faults (hw w) = e :: rest -> e < 0 ->
  ov5647_write reg val w =
    (e, World (sensor w)
          (failed (EvI2cSend [to_u16 reg / 256; to_u16 reg mod 256; to_u8 val] e)
                  (hw w))) /\
  i2c_faults (failed (EvI2cSend [to_u16 reg / 256; to_u16 reg mod 256; to_u8 val] e)
                     (hw w)) = rest.
Proof.
  intros HF He. split; [| unfold failed; cbn; rewrite HF; reflexivity].
  unfold ov5647_write, i2c_master_send, on_board, failed.
  destruct (u16_bytes reg) as [-> ->].
  rewrite HF. cbn [next_fault snd].
  destruct (Z.ltb_spec e 0); [reflexivity | lia].
Qed.

Lemma write_regs_first_failure (pre : list regval_list) :
  forall oks r post e rest w,
    i2c_faults (hw w) = oks ++ e :: rest ->
    Forall (fun x => 0 <= x) oks -> length oks = length pre -> e < 0 ->
    let res := write_regs (pre ++ r :: post) w in
    fst res = e /\
    sensor (snd res) = sensor w /\
    i2c_faults (hw (snd res)) = rest /\
    regs (hw (snd res)) = store_regs pre (regs (hw w)) /\
    trace (hw (snd res)) =
      trace (hw w) ++ map write_event pre ++ [failed_write_event r e].
Proof.
  induction pre as [|p pre IH]; intros oks r post e rest w HF Hok Hlen He; cbv zeta.
  - destruct oks; [| discriminate]. cbn [app] in *.
    cbn [write_regs]. rewrite bind_eq.
    destruct (ov5647_write_head_fail (addr r) (data r) w e rest HF He) as [E F].
    rewrite E. cbn [fst snd]. destruct (Z.ltb_spec e 0); [| lia].
    cbn [pure fst snd hw sensor]. rewrite F.
    repeat split; reflexivity.
  - destruct oks as [|o oks]; [discriminate |].
    inversion Hok as [|? ? Ho Hoks]; subst.
    cbn [app write_regs]. rewrite bind_eq.
    destruct (ov5647_write_head_ok (addr p) (data p) w o (oks ++ e :: rest) HF Ho) as [E F].
    rewrite E. cbn [fst snd]. change (3 <? 0) with false. cbn iota.
    destruct (IH oks r post e rest
                (World (sensor w) (wr (to_u16 (addr p)) (to_u8 (data p)) (hw w))))
      as (R & S & F' & G & T);
      [exact F | assumption | cbn in Hlen; lia | assumption |].
    rewrite R, S, F', G, T.
    cbn [sensor hw wr regs trace map store_regs fold_left].
    repeat split; auto.
    rewrite <- app_assoc. reflexivity.
Qed.

(** X8: ov5647_write_array stops at the first failing transfer: if the
    writes of a prefix succeed and the next one fails with errno e, it
    returns e, the register file holds exactly the prefix's writes, the
    trace ends with the failed transfer, and no later entry is sent (the
    rest of the fault script is left unconsumed). *)
Theorem write_array_stops_at_first_failure
    (pre post : list regval_list) (r : regval_list)
    (oks rest : list Z) (e : Z) (w : world) :
  i2c_faults (hw w) = oks ++ e :: rest ->
  Forall (fun x => 0 <= x) oks -> length oks = length pre -> e < 0 ->
  let rs := pre ++ r :: post in
  let w' := snd (ov5647_write_array rs (ARRAY_SIZE rs) w) in
  fst (ov5647_write_array rs (ARRAY_SIZE rs) w) = e /\
  regs (hw w') = store_regs pre (regs (hw w)) /\
  trace (hw w') =
    trace (hw w) ++ map write_event pre ++ [failed_write_event r e] /\
  i2c_faults (hw w') = rest.
Proof.
  intros HF Hok Hlen He. cbv zeta. rewrite write_array_all.
  destruct (write_regs_first_failure pre oks r post e rest w HF Hok Hlen He)
    as (R & _ & F & G & T).
  auto.
Qed.

(** The second of the three output-enable writes fails with -121. *)
Lemma write_array_stops_at_first_failure_witness :
  let w := World (Sensor 0 0 0 true 0) (Board ∅ 0 0 1 [0; -121; 0] [] []) in
  let w' := snd (ov5647_write_array sensor_oe_enable_regs
                   (ARRAY_SIZE sensor_oe_enable_regs) w) in
  fst (ov5647_write_array sensor_oe_enable_regs
         (ARRAY_SIZE sensor_oe_enable_regs) w) = -121 /\
  trace (hw w') = [EvI2cSend [0x30; 0x00; 0x0f] 3; EvI2cSend [0x30; 0x01; 0xff] (-121)] /\
  regs (hw w') = <[0x3000 := 0x0f]> ∅ /\
  i2c_faults (hw w') = [0].
Proof.
  cbv zeta.
  destruct (write_array_stops_at_first_failure
              [RV 0x3000 0x0f] [RV 0x3002 0xe4] (RV 0x3001 0xff) [0] [0] (-121)
              (World (Sensor 0 0 0 true 0) (Board ∅ 0 0 1 [0; -121; 0] [] [])))
    as (R & G & T & F);
    [reflexivity | repeat constructor; lia | reflexivity | lia |].
  split; [exact R |]. split; [exact T |]. split; [exact G | exact F].
Defined.





Lemma send_head_fail (data : list Z) (count : Z) (w : world) (e : Z) (rest : list Z) :
  i2c_faults (hw w) = e :: rest -> e < 0 ->
  i2c_master_send data count w =
    (e, World (sensor w) (failed (EvI2cSend data e) (hw w))).
Proof.
  intros HF He. unfold i2c_master_send, on_board, failed.
  rewrite HF. cbn [next_fault snd].
  destruct (Z.ltb_spec e 0); [reflexivity | lia].
Qed.

Lemma ov5647_read_head_fail (reg : Z) (w : world) (e : Z) (rest : list Z) :
  i2c_faults (hw w) = e :: rest -> e < 0 ->
  ov5647_read reg w =
    ((e, 0), World (sensor w)
               (failed (EvI2cSend [to_u16 reg / 256; to_u16 reg mod 256] e) (hw w))) /\
  i2c_faults (failed (EvI2cSend [to_u16 reg / 256; to_u16 reg mod 256] e) (hw w)) = rest.
Proof.
  intros HF He. split; [| unfold failed; cbn; rewrite HF; reflexivity].
  unfold ov5647_read. rewrite bind_eq.
  destruct (u16_bytes reg) as [-> ->].
  rewrite (send_head_fail _ 2 w e rest HF He). cbn [fst snd].
  destruct (Z.ltb_spec e 0); [reflexivity | lia].
Qed.

(** X10: ov5647_read propagates the errno of whichever phase fails: if the
    address write fails it returns that errno without attempting the receive
    (one transfer in the trace); if the address write succeeds and the
    receive fails it returns the receive's errno (two transfers). The
    register file is untouched in both cases. *)
Theorem read_failure_modes (reg : Z) (w : world) (e : Z) (rest : list Z) :
  e < 0 ->
  (i2c_faults (hw w) = e :: rest ->
   let w' := snd (ov5647_read reg w) in
   fst (fst (ov5647_read reg w)) = e /\
   trace (hw w') =
     trace (hw w) ++ [EvI2cSend [to_u16 reg / 256; to_u16 reg mod 256] e] /\
   regs (hw w') = regs (hw w) /\ i2c_faults (hw w') = rest) /\
  (forall o, 0 <= o -> i2c_faults (hw w) = o :: e :: rest ->
   let w' := snd (ov5647_read reg w) in
   fst (fst (ov5647_read reg w)) = e /\
   trace (hw w') =
     trace (hw w) ++ [EvI2cSend [to_u16 reg / 256; to_u16 reg mod 256] 2;
                      EvI2cRecv 1 e] /\
   regs (hw w') = regs (hw w) /\ i2c_faults (hw w') = rest).
Proof.
  intros He. split.
  - intros HF. cbv zeta.
    destruct (ov5647_read_head_fail reg w e rest HF He) as [E F].
    rewrite E. cbn [fst snd hw]. rewrite F. repeat split; reflexivity.
  - intros o Ho HF. cbv zeta.
    unfold ov5647_read, bind, i2c_master_send, i2c_master_recv, on_board, pure.
    destruct (u16_bytes reg) as [-> ->].
    rewrite HF. cbn [next_fault].
    destruct (Z.ltb_spec o 0); [lia |].
    cbn [sccb_receive]. change (2 <? 0) with false. cbn iota.
    cbn [hw i2c_faults next_fault].
    destruct (Z.ltb_spec e 0); [| lia].
    cbn [fst snd hw trace regs i2c_faults].
    rewrite <- app_assoc. repeat split; reflexivity.
Qed.

(** The address phase succeeds and the receive fails with -5. *)
Lemma read_failure_modes_witness :
  let w := World (Sensor 0 0 1 true 0) (Board ∅ 0 1 0 [0; -5] [] []) in
  fst (fst (ov5647_read 0x0100 w)) = -5 /\
  trace (hw (snd (ov5647_read 0x0100 w))) = [EvI2cSend [0x01; 0x00] 2; EvI2cRecv 1 (-5)].
Proof.
  cbv zeta.
  destruct (read_failure_modes 0x0100
              (World (Sensor 0 0 1 true 0) (Board ∅ 0 1 0 [0; -5] [] []))
              (-5) [] ltac:(lia)) as [_ H].
  destruct (H 0 ltac:(lia) eq_refl) as (R & T & _).
  split; [exact R | exact T].
Defined.

(** ** Read-modify-write operations *)

Lemma bus_ok_rmw (reg : Z) (f : Z -> Z) (w : world) (r : gmap Z Z) :
  transfers_succeed (hw w) -> regs (hw w) = r ->
  bus_ok (x <- ov5647_read reg ;;
          let (ret, v) := x : Z * Z in
          if ret <? 0 then pure ret else ov5647_write reg (f v)) w 3
         (<[to_u16 reg := to_u8 (f (reg_byte r (to_u16 reg)))]> r)
         (read_events reg ++
          [EvI2cSend [to_u16 reg / 256; to_u16 reg mod 256;
                      to_u8 (f (reg_byte r (to_u16 reg)))] 3]).
Proof.
  intros H R.
  eapply bus_ok_bind; [apply bus_ok_read; eassumption |].
  intros w1 S1 T1 R1. cbn iota beta. change (1 <? 0) with false. cbn iota.
  apply bus_ok_write; eassumption.
Qed.

Lemma vc_bits (ch v : Z) :
  0 <= ch <= 3 -> 0 <= v < 256 ->
  to_u8 (Z.lor (to_u8 (Z.land v (Z.lnot (Z.shiftl 3 6)))) (to_int (Z.shiftl ch 6))) =
  v mod 64 + 64 * ch.
Proof.
  intros Hch Hv.
  assert (C : ch = 0 \/ ch = 1 \/ ch = 2 \/ ch = 3) by lia.
  apply Z.eqb_eq.
  destruct C as [-> | [-> | [-> | ->]]].
  - apply (byte_cases
             (fun v => to_u8 (Z.lor (to_u8 (Z.land v (Z.lnot (Z.shiftl 3 6))))
                                    (to_int (Z.shiftl 0 6))) =? v mod 64 + 64 * 0));
      [vm_compute; reflexivity | exact Hv].
  - apply (byte_cases
             (fun v => to_u8 (Z.lor (to_u8 (Z.land v (Z.lnot (Z.shiftl 3 6))))
                                    (to_int (Z.shiftl 1 6))) =? v mod 64 + 64 * 1));
      [vm_compute; reflexivity | exact Hv].
  - apply (byte_cases
             (fun v => to_u8 (Z.lor (to_u8 (Z.land v (Z.lnot (Z.shiftl 3 6))))
                                    (to_int (Z.shiftl 2 6))) =? v mod 64 + 64 * 2));
      [vm_compute; reflexivity | exact Hv].
  - apply (byte_cases
             (fun v => to_u8 (Z.lor (to_u8 (Z.land v (Z.lnot (Z.shiftl 3 6))))
                                    (to_int (Z.shiftl 3 6))) =? v mod 64 + 64 * 3));
      [vm_compute; reflexivity | exact Hv].
Qed.

(** X11: When no transfer fails, ov5647_set_virtual_channel(ch) for 0 <= ch
    <= 3 returns 3 after one read and one write of MIPI_CTRL14 (0x4814):
    bits 7:6 of the register become ch, bits 5:0 are preserved, and no other
    register changes. *)
Theorem set_virtual_channel_bits (channel : Z) (w : world) :
  transfers_succeed (hw w) -> 0 <= channel <= 3 ->
  let old := reg_byte (regs (hw w)) OV5647_REG_MIPI_CTRL14 in
  let w' := snd (ov5647_set_virtual_channel channel w) in
  fst (ov5647_set_virtual_channel channel w) = 3 /\
  regs (hw w') = <[OV5647_REG_MIPI_CTRL14 := old mod 64 + 64 * channel]> (regs (hw w)) /\
  reg_byte (regs (hw w')) OV5647_REG_MIPI_CTRL14 / 64 = channel /\
  reg_byte (regs (hw w')) OV5647_REG_MIPI_CTRL14 mod 64 = old mod 64 /\
  trace (hw w') =
    trace (hw w) ++
    [EvI2cSend [0x48; 0x14] 2; EvI2cRecv 1 1;
     EvI2cSend [0x48; 0x14; old mod 64 + 64 * channel] 3].
Proof.
  intros H Hch. cbv zeta. unfold ov5647_set_virtual_channel.
  destruct (bus_ok_rmw OV5647_REG_MIPI_CTRL14
              (fun v => Z.lor (to_u8 (Z.land v (Z.lnot (Z.shiftl 3 6))))
                              (to_int (Z.shiftl channel 6))) w _ H eq_refl)
    as (R & _ & _ & G & T).
  cbv beta in G, T.
  change (to_u16 OV5647_REG_MIPI_CTRL14) with OV5647_REG_MIPI_CTRL14 in G, T.
  rewrite (vc_bits channel _ Hch (reg_byte_range _ _)) in G, T.
  pose proof (reg_byte_range (regs (hw w)) OV5647_REG_MIPI_CTRL14) as B.
  set (old := reg_byte (regs (hw w)) OV5647_REG_MIPI_CTRL14) in *.
  split; [exact R |]. split; [exact G |].
  assert (V : reg_byte (regs (hw (snd (ov5647_set_virtual_channel channel w))))
                OV5647_REG_MIPI_CTRL14 = old mod 64 + 64 * channel).
  { unfold ov5647_set_virtual_channel. rewrite G. unfold reg_byte.
    rewrite lookup_insert_eq. cbn [default]. unfold to_u8.
    pose proof (Z.mod_pos_bound old 64 ltac:(lia)).
    apply Z.mod_small. lia. }
  unfold ov5647_set_virtual_channel in V. rewrite V.
  pose proof (Z.mod_pos_bound old 64 ltac:(lia)) as M.
  split; [| split].
  - replace (old mod 64 + 64 * channel) with (old mod 64 + channel * 64) by lia.
    rewrite Z.div_add by lia.
    rewrite (Z.div_small (old mod 64) 64) by lia. lia.
  - replace (old mod 64 + 64 * channel) with (old mod 64 + channel * 64) by lia.
    rewrite Z.mod_add by lia. apply Z.mod_mod. lia.
  - exact T.
Qed.

(** Channel 2 on a register holding 0x2a gives 0xaa. *)
Lemma set_virtual_channel_bits_witness :
  let w := World (Sensor 0 0 1 true 0)
                 (Board (<[0x4814 := 0x2a]> ∅) 0 1 0 [] [] []) in
  regs (hw (snd (ov5647_set_virtual_channel 2 w))) =
    <[0x4814 := 0xaa]> (<[0x4814 := 0x2a]> ∅).
Proof.
  cbv zeta.
  destruct (set_virtual_channel_bits 2
              (World (Sensor 0 0 1 true 0)
                     (Board (<[0x4814 := 0x2a]> ∅) 0 1 0 [] [] [])))
    as (_ & G & _); [constructor | lia |].
  rewrite G. reflexivity.
Defined.

(** X12: When no transfer fails, set_sw_standby(standby) returns 3 after one
    read and one write of register 0x0100: bit 0 becomes 0 for standby and 1
    otherwise, and every other bit of the byte is preserved; no other
    register changes. *)
Theorem set_sw_standby_bit (standby : bool) (w : world) :
  transfers_succeed (hw w) ->
  let old := reg_byte (regs (hw w)) OV5647_SW_STANDBY in
  let new := 2 * (old / 2) + (if standby then 0 else 1) in
  let w' := snd (set_sw_standby standby w) in
  fst (set_sw_standby standby w) = 3 /\
  regs (hw w') = <[OV5647_SW_STANDBY := new]> (regs (hw w)) /\
  Z.testbit new 0 = negb standby /\
  (forall i, 0 < i -> Z.testbit new i = Z.testbit old i) /\
  trace (hw w') =
    trace (hw w) ++ [EvI2cSend [0x01; 0x00] 2; EvI2cRecv 1 1; EvI2cSend [0x01; 0x00; new] 3].
Proof.
  intros H. cbv zeta.
  destruct (bus_ok_set_sw_standby standby w _ H eq_refl) as (R & _ & _ & G & T).
  split; [exact R |]. split; [exact G |]. split; [| split].
  - destruct standby; cbn [negb].
    + rewrite Z.add_0_r. apply Z.testbit_even_0.
    + apply Z.testbit_odd_0.
  - intros i Hi.
    replace i with (Z.succ (Z.pred i)) by lia.
    destruct standby.
    + rewrite Z.add_0_r, Z.testbit_even_succ by lia.
      apply Z.div2_bits. lia.
    + rewrite Z.testbit_odd_succ by lia.
      apply Z.div2_bits. lia.
  - exact T.
Qed.

(** Standby on a register holding 0x81 gives 0x80. *)
Lemma set_sw_standby_bit_witness :
  let w := World (Sensor 0 0 1 true 0)
                 (Board (<[0x0100 := 0x81]> ∅) 0 1 0 [] [] []) in
  regs (hw (snd (set_sw_standby true w))) = <[0x0100 := 0x80]> (<[0x0100 := 0x81]> ∅).
Proof.
  cbv zeta.
  destruct (set_sw_standby_bit true
              (World (Sensor 0 0 1 true 0)
                     (Board (<[0x0100 := 0x81]> ∅) 0 1 0 [] [] [])))
    as (_ & G & _); [constructor |].
  rewrite G. reflexivity.
Defined.


(** ** Controls on a powered sensor *)

Lemma s_ctrl_powered (ctrl : v4l2_ctrl) (w : world) :
  power_count (sensor w) <> 0 ->
  ov5647_s_ctrl ctrl w =
  (let r :=
     (if id ctrl =? V4L2_CID_AUTO_WHITE_BALANCE then
        ov5647_write OV5647_REG_AWB (if truthy (val ctrl) then 1 else 0)
      else if id ctrl =? V4L2_CID_AUTOGAIN then
        r <- ov5647_read OV5647_REG_AEC_AGC ;;
        let (ret, reg) := r : Z * Z in
        if ret <? 0 then pure ret
        else
          ov5647_write OV5647_REG_AEC_AGC
            (if truthy (val ctrl)
             then to_u8 (Z.land reg (Z.lnot OV5647_AGC_ENABLE))
             else to_u8 (Z.lor reg OV5647_AGC_ENABLE))
      else if id ctrl =? V4L2_CID_EXPOSURE_AUTO then
        r <- ov5647_read OV5647_REG_AEC_AGC ;;
        let (ret, reg) := r : Z * Z in
        if ret <? 0 then pure ret
        else
          ov5647_write OV5647_REG_AEC_AGC
            (if val ctrl =? V4L2_EXPOSURE_AUTO
             then to_u8 (Z.land reg (Z.lnot OV5647_AEC_ENABLE))
             else to_u8 (Z.lor reg OV5647_AEC_ENABLE))
      else if id ctrl =? V4L2_CID_EXPOSURE then
        ret <- ov5647_write OV5647_REG_EXPOSURE_HI
                 (Z.land (Z.shiftr (val ctrl) 12) 0x0f) ;;
        if ret <? 0 then pure ret
        else
          ret <- ov5647_write OV5647_REG_EXPOSURE_MID
                   (Z.land (Z.shiftr (val ctrl) 4) 0xff) ;;
          if ret <? 0 then pure ret
          else
            ov5647_write OV5647_REG_EXPOSURE_LO
              (Z.land (to_int (Z.shiftl (val ctrl) 4)) 0xf0)
      else if id ctrl =? V4L2_CID_ANALOGUE_GAIN then
        ret <- ov5647_write OV5647_REG_GAIN_HI
                 (Z.land (Z.shiftr (val ctrl) 8) 0x03) ;;
        if ret <? 0 then pure ret
        else ov5647_write OV5647_REG_GAIN_LO (Z.land (val ctrl) 0xff)
      else pure (- EINVAL)) w in
   (if fst r <? 0 then fst r else 0, snd r)).
Proof.
  intros Hp. unfold ov5647_s_ctrl. rewrite bind_eq. cbn [get_sensor fst snd].
  destruct (Z.eqb_spec (power_count (sensor w)) 0) as [? | _]; [contradiction |].
  rewrite bind_eq. reflexivity.
Qed.

Lemma agc_auto_bits (v : Z) :
  0 <= v < 256 ->
  to_u8 (to_u8 (Z.land v (Z.lnot OV5647_AGC_ENABLE))) = 4 * (v / 4) + v mod 2.
Proof.
  intros Hv. apply Z.eqb_eq.
  apply (byte_cases
           (fun v => to_u8 (to_u8 (Z.land v (Z.lnot OV5647_AGC_ENABLE))) =?
                     4 * (v / 4) + v mod 2));
    [vm_compute; reflexivity | exact Hv].
Qed.

Lemma agc_manual_bits (v : Z) :
  0 <= v < 256 ->
  to_u8 (to_u8 (Z.lor v OV5647_AGC_ENABLE)) = 4 * (v / 4) + 2 + v mod 2.
Proof.
  intros Hv. apply Z.eqb_eq.
  apply (byte_cases
           (fun v => to_u8 (to_u8 (Z.lor v OV5647_AGC_ENABLE)) =?
                     4 * (v / 4) + 2 + v mod 2));
    [vm_compute; reflexivity | exact Hv].
Qed.

(** X13: On a powered sensor with no transfer failing, the three automatic-
    mode controls return 0 and: AUTOGAIN rewrites only bit 1 of register
    0x3503 (0 for auto, 1 for manual) and preserves bit 0 and bits 7:2;
    EXPOSURE_AUTO rewrites only bit 0 (0 for V4L2_EXPOSURE_AUTO, 1
    otherwise) and preserves the other bits; AUTO_WHITE_BALANCE writes 1 to
    register 0x5001 for any non-zero value and 0 for zero, in a single
    transfer. *)
Theorem s_ctrl_auto_flags (v : Z) (w : world) :
  power_count (sensor w) <> 0 -> transfers_succeed (hw w) ->
  let old := reg_byte (regs (hw w)) OV5647_REG_AEC_AGC in
  let gain := 4 * (old / 4) + 2 * (if truthy v then 0 else 1) + old mod 2 in
  let expo := 2 * (old / 2) + (if v =? V4L2_EXPOSURE_AUTO then 0 else 1) in
  let rg := ov5647_s_ctrl (Ctrl V4L2_CID_AUTOGAIN v) w in
  let re := ov5647_s_ctrl (Ctrl V4L2_CID_EXPOSURE_AUTO v) w in
  let rw := ov5647_s_ctrl (Ctrl V4L2_CID_AUTO_WHITE_BALANCE v) w in
  (fst rg = 0 /\
   regs (hw (snd rg)) = <[OV5647_REG_AEC_AGC := gain]> (regs (hw w)) /\
   gain / 4 = old / 4 /\ gain mod 2 = old mod 2 /\
   (gain / 2) mod 2 = (if truthy v then 0 else 1)) /\
  (fst re = 0 /\
   regs (hw (snd re)) = <[OV5647_REG_AEC_AGC := expo]> (regs (hw w)) /\
   expo / 2 = old / 2 /\ expo mod 2 = (if v =? V4L2_EXPOSURE_AUTO then 0 else 1)) /\
  (fst rw = 0 /\
   regs (hw (snd rw)) = <[OV5647_REG_AWB := if truthy v then 1 else 0]> (regs (hw w)) /\
   trace (hw (snd rw)) =
     trace (hw w) ++ [EvI2cSend [0x50; 0x01; if truthy v then 1 else 0] 3]).
Proof.
  intros Hp H. cbv zeta.
  pose proof (reg_byte_range (regs (hw w)) OV5647_REG_AEC_AGC) as B.
  split; [| split].
  - rewrite (s_ctrl_powered _ w Hp). cbn [id val]. cbv zeta.
    change (V4L2_CID_AUTOGAIN =? V4L2_CID_AUTO_WHITE_BALANCE) with false.
    change (V4L2_CID_AUTOGAIN =? V4L2_CID_AUTOGAIN) with true. cbn iota.
    destruct (bus_ok_rmw OV5647_REG_AEC_AGC
                (fun reg => if truthy v
                            then to_u8 (Z.land reg (Z.lnot OV5647_AGC_ENABLE))
                            else to_u8 (Z.lor reg OV5647_AGC_ENABLE)) w _ H eq_refl)
      as (R & _ & _ & G & _).
    cbv beta in G. change (to_u16 OV5647_REG_AEC_AGC) with OV5647_REG_AEC_AGC in G.
    cbn [fst snd]. rewrite R, G. change (3 <? 0) with false. cbn iota.
    set (old := reg_byte (regs (hw w)) OV5647_REG_AEC_AGC) in *. clearbody old.
    split; [reflexivity |]. split.
    + destruct (truthy v).
      * rewrite (agc_auto_bits old B). do 2 f_equal. lia.
      * rewrite (agc_manual_bits old B). do 2 f_equal.
    + destruct (truthy v); repeat split; Z.div_mod_to_equations; lia.
  - rewrite (s_ctrl_powered _ w Hp). cbn [id val]. cbv zeta.
    change (V4L2_CID_EXPOSURE_AUTO =? V4L2_CID_AUTO_WHITE_BALANCE) with false.
    change (V4L2_CID_EXPOSURE_AUTO =? V4L2_CID_AUTOGAIN) with false.
    change (V4L2_CID_EXPOSURE_AUTO =? V4L2_CID_EXPOSURE_AUTO) with true. cbn iota.
    destruct (bus_ok_rmw OV5647_REG_AEC_AGC
                (fun reg => if v =? V4L2_EXPOSURE_AUTO
                            then to_u8 (Z.land reg (Z.lnot OV5647_AEC_ENABLE))
                            else to_u8 (Z.lor reg OV5647_AEC_ENABLE)) w _ H eq_refl)
      as (R & _ & _ & G & _).
    cbv beta in G. change (to_u16 OV5647_REG_AEC_AGC) with OV5647_REG_AEC_AGC in G.
    cbn [fst snd]. rewrite R, G. change (3 <? 0) with false. cbn iota.
    set (old := reg_byte (regs (hw w)) OV5647_REG_AEC_AGC) in *. clearbody old.
    split; [reflexivity |]. split.
    + destruct (v =? V4L2_EXPOSURE_AUTO).
      * change (Z.lnot OV5647_AEC_ENABLE) with (Z.lnot 0x01).
        rewrite (standby_on_bits old B). do 2 f_equal. lia.
      * change OV5647_AEC_ENABLE with 0x01.
        rewrite (standby_off_bits old B). reflexivity.
    + destruct (v =? V4L2_EXPOSURE_AUTO); split; Z.div_mod_to_equations; lia.
  - rewrite (s_ctrl_powered _ w Hp). cbn [id val]. cbv zeta.
    change (V4L2_CID_AUTO_WHITE_BALANCE =? V4L2_CID_AUTO_WHITE_BALANCE) with true.
    cbn iota.
    destruct (bus_ok_write OV5647_REG_AWB (if truthy v then 1 else 0) w _ H eq_refl)
      as (R & _ & _ & G & T).
    cbn [fst snd]. rewrite R, G, T. change (3 <? 0) with false. cbn iota.
    split; [reflexivity |].
    destruct (truthy v); split; reflexivity.
Qed.

(** Register 0x3503 holding 0x03: auto gain gives 0x01, auto exposure gives
    0x02. *)
Lemma s_ctrl_auto_flags_witness :
  let w := World (Sensor 640 480 1 true 0)
                 (Board (<[0x3503 := 0x03]> ∅) 0 1 0 [] [] []) in
  regs (hw (snd (ov5647_s_ctrl (Ctrl V4L2_CID_AUTOGAIN 1) w))) =
    <[0x3503 := 0x01]> (<[0x3503 := 0x03]> ∅) /\
  regs (hw (snd (ov5647_s_ctrl (Ctrl V4L2_CID_EXPOSURE_AUTO V4L2_EXPOSURE_AUTO) w))) =
    <[0x3503 := 0x02]> (<[0x3503 := 0x03]> ∅).
Proof.
  cbv zeta.
  assert (P : power_count (sensor (World (Sensor 640 480 1 true 0)
                 (Board (<[0x3503 := 0x03]> ∅) 0 1 0 [] [] []))) <> 0)
    by (cbn; lia).
  assert (T : transfers_succeed (hw (World (Sensor 640 480 1 true 0)
                 (Board (<[0x3503 := 0x03]> ∅) 0 1 0 [] [] []))))
    by constructor.
  split.
  - destruct (s_ctrl_auto_flags 1 _ P T) as ((_ & G & _) & _ & _).
    rewrite G. reflexivity.
  - destruct (s_ctrl_auto_flags V4L2_EXPOSURE_AUTO _ P T) as (_ & (_ & G & _) & _).
    rewrite G. reflexivity.
Defined.

(** X14: On a powered sensor, ov5647_s_ctrl with a control id other than the
    five it handles returns -EINVAL and touches nothing: no bus transfer, no
    change of the driver state. *)
Theorem s_ctrl_unknown_control (ctrl : v4l2_ctrl) (w : world) :
  power_count (sensor w) <> 0 ->
  id ctrl <> V4L2_CID_AUTO_WHITE_BALANCE -> id ctrl <> V4L2_CID_AUTOGAIN ->
  id ctrl <> V4L2_CID_EXPOSURE_AUTO -> id ctrl <> V4L2_CID_EXPOSURE ->
  id ctrl <> V4L2_CID_ANALOGUE_GAIN ->
  ov5647_s_ctrl ctrl w = (- EINVAL, w).
Proof.
  intros Hp H1 H2 H3 H4 H5. rewrite (s_ctrl_powered _ w Hp). cbv zeta.
  destruct (Z.eqb_spec (id ctrl) V4L2_CID_AUTO_WHITE_BALANCE); [contradiction |].
  destruct (Z.eqb_spec (id ctrl) V4L2_CID_AUTOGAIN); [contradiction |].
  destruct (Z.eqb_spec (id ctrl) V4L2_CID_EXPOSURE_AUTO); [contradiction |].
  destruct (Z.eqb_spec (id ctrl) V4L2_CID_EXPOSURE); [contradiction |].
  destruct (Z.eqb_spec (id ctrl) V4L2_CID_ANALOGUE_GAIN); [contradiction |].
  reflexivity.
Qed.

(** V4L2_CID_BRIGHTNESS on the powered sensor. *)
Lemma s_ctrl_unknown_control_witness :
  ov5647_s_ctrl (Ctrl 0x00980900 128) powered_world = (- EINVAL, powered_world).
Proof.
  apply (s_ctrl_unknown_control (Ctrl 0x00980900 128) powered_world);
    cbn; unfold V4L2_CID_AUTO_WHITE_BALANCE, V4L2_CID_AUTOGAIN, V4L2_CID_EXPOSURE_AUTO,
           V4L2_CID_EXPOSURE, V4L2_CID_ANALOGUE_GAIN; lia.
Defined.

(** X15: The exposure update is not atomic: on a powered sensor, if the
    write of the high register 0x3500 succeeds and the write of 0x3501 fails
    with errno e, ov5647_s_ctrl(EXPOSURE, v) returns e, register 0x3500
    already holds the new high bits (v >> 12) & 0x0f, and the low register
    0x3502 is never written. *)
Theorem s_ctrl_exposure_partial_failure (v o e : Z) (rest : list Z) (w : world) :
  power_count (sensor w) <> 0 ->
  i2c_faults (hw w) = o :: e :: rest -> 0 <= o -> e < 0 ->
  let hi := to_u8 (Z.land (Z.shiftr v 12) 0x0f) in
  let mid := to_u8 (Z.land (Z.shiftr v 4) 0xff) in
  let r := ov5647_s_ctrl (Ctrl V4L2_CID_EXPOSURE v) w in
  fst r = e /\
  regs (hw (snd r)) = <[OV5647_REG_EXPOSURE_HI := hi]> (regs (hw w)) /\
  trace (hw (snd r)) =
    trace (hw w) ++ [EvI2cSend [0x35; 0x00; hi] 3; EvI2cSend [0x35; 0x01; mid] e] /\
  i2c_faults (hw (snd r)) = rest.
Proof.
  intros Hp HF Ho He. cbv zeta.
  rewrite (s_ctrl_powered _ w Hp). cbn [id val]. cbv zeta.
  change (V4L2_CID_EXPOSURE =? V4L2_CID_AUTO_WHITE_BALANCE) with false.
  change (V4L2_CID_EXPOSURE =? V4L2_CID_AUTOGAIN) with false.
  change (V4L2_CID_EXPOSURE =? V4L2_CID_EXPOSURE_AUTO) with false.
  change (V4L2_CID_EXPOSURE =? V4L2_CID_EXPOSURE) with true. cbn iota.
  rewrite bind_eq.
  destruct (ov5647_write_head_ok OV5647_REG_EXPOSURE_HI
              (Z.land (Z.shiftr v 12) 0x0f) w o (e :: rest) HF Ho) as [E F].
  rewrite E. cbn [fst snd]. change (3 <? 0) with false. cbn iota.
  rewrite bind_eq.
  destruct (ov5647_write_head_fail OV5647_REG_EXPOSURE_MID
              (Z.land (Z.shiftr v 4) 0xff)
              (World (sensor w)
                 (wr (to_u16 OV5647_REG_EXPOSURE_HI)
                     (to_u8 (Z.land (Z.shiftr v 12) 0x0f)) (hw w)))
              e rest F He) as [E2 F2].
  rewrite E2. cbn [fst snd]. destruct (Z.ltb_spec e 0); [| lia].
  cbn [pure fst snd hw]. destruct (Z.ltb_spec e 0); [| lia].
  cbn [hw] in F2. rewrite F2.
  split; [reflexivity |]. split; [reflexivity |]. split; [| reflexivity].
  cbn. rewrite <- app_assoc. reflexivity.
Qed.

(** Exposure 0xabcd with the second write failing with -121. *)
Lemma s_ctrl_exposure_partial_failure_witness :
  let w := World (Sensor 640 480 1 true 0) (Board ∅ 0 1 0 [0; -121] [] []) in
  fst (ov5647_s_ctrl (Ctrl V4L2_CID_EXPOSURE 0xabcd) w) = -121 /\
  regs (hw (snd (ov5647_s_ctrl (Ctrl V4L2_CID_EXPOSURE 0xabcd) w))) = <[0x3500 := 0x0a]> ∅.
Proof.
  cbv zeta.
  destruct (s_ctrl_exposure_partial_failure 0xabcd 0 (-121) []
              (World (Sensor 640 480 1 true 0) (Board ∅ 0 1 0 [0; -121] [] [])))
    as (R & G & _); [cbn; lia | reflexivity | lia | lia |].
  split; [exact R | rewrite G; reflexivity].
Defined.


(** ** Streaming *)

Lemma bus_ok_stream_on_writes (w : world) (r : gmap Z Z) :
  transfers_succeed (hw w) -> regs (hw w) = r ->
  bus_ok (ret <- ov5647_write OV5647_REG_MIPI_CTRL00
                   (Z.lor MIPI_CTRL00_LINE_SYNC_ENABLE MIPI_CTRL00_BUS_IDLE) ;;
          if ret <? 0 then pure ret
          else
            ret <- ov5647_write OV5647_REG_FRAME_OFF_NUMBER 0x00 ;;
            if ret <? 0 then pure ret
            else ov5647_write OV5640_REG_PAD_OUT 0x00) w 3
         (<[0x300d := 0x00]> (<[0x4202 := 0x00]> (<[0x4800 := 0x14]> r)))
         stream_on_events.
Proof.
  intros H R.
  eapply bus_ok_weaken.
  - eapply bus_ok_bind; [apply bus_ok_write; eassumption |].
    intros w1 S1 T1 R1. change (3 <? 0) with false. cbn iota.
    eapply bus_ok_bind; [apply bus_ok_write; eassumption |].
    intros w2 S2 T2 R2. change (3 <? 0) with false. cbn iota.
    apply bus_ok_write; eassumption.
  - reflexivity.
  - reflexivity.
  - reflexivity.
Qed.

(** X16: When no transfer fails, ov5647_s_stream(enable) with any non-zero
    enable returns 3 after reading MIPI_CTRL00 and writing 0x14 to 0x4800,
    0x00 to 0x4202 and 0x00 to 0x300d, in that order; the driver state is
    unchanged. *)
Theorem stream_on_sequence (enable : Z) (w : world) :
  enable <> 0 -> transfers_succeed (hw w) ->
  let w' := snd (ov5647_s_stream enable w) in
  fst (ov5647_s_stream enable w) = 3 /\
  sensor w' = sensor w /\
  regs (hw w') =
    <[0x300d := 0x00]> (<[0x4202 := 0x00]> (<[0x4800 := 0x14]> (regs (hw w)))) /\
  trace (hw w') = trace (hw w) ++ read_events 0x4800 ++ stream_on_events.
Proof.
  intros He H. cbv zeta. unfold ov5647_s_stream, truthy.
  destruct (Z.eqb_spec enable 0) as [? | _]; [contradiction |]. cbn [negb].
  assert (B : bus_ok ov5647_stream_on w 3
                (<[0x300d := 0x00]> (<[0x4202 := 0x00]> (<[0x4800 := 0x14]> (regs (hw w)))))
                (read_events 0x4800 ++ stream_on_events)).
  { unfold ov5647_stream_on.
    eapply bus_ok_bind; [apply bus_ok_read; [exact H | reflexivity] |].
    intros w1 S1 T1 R1. apply bus_ok_stream_on_writes; assumption. }
  destruct B as (R & S & _ & G & T). auto.
Qed.

(** Stream on from the powered, idle sensor. *)
Lemma stream_on_sequence_witness :
  let w' := snd (ov5647_s_stream 1 powered_world) in
  fst (ov5647_s_stream 1 powered_world) = 3 /\
  trace (hw w') =
    [EvI2cSend [0x48; 0x00] 2; EvI2cRecv 1 1; EvI2cSend [0x48; 0x00; 0x14] 3;
     EvI2cSend [0x42; 0x02; 0x00] 3; EvI2cSend [0x30; 0x0d; 0x00] 3].
Proof.
  cbv zeta.
  destruct (stream_on_sequence 1 powered_world) as (R & _ & _ & T);
    [lia | constructor |].
  split; [exact R | exact T].
Defined.

(** X17: The read at the start of ov5647_stream_on only feeds a log message:
    if its address write fails with errno e and the later transfers succeed,
    ov5647_stream_on still performs its three register writes and returns 3. *)
Theorem stream_on_ignores_read_failure (e : Z) (rest : list Z) (w : world) :
  e < 0 -> i2c_faults (hw w) = e :: rest -> Forall (fun x => 0 <= x) rest ->
  let w' := snd (ov5647_stream_on w) in
  fst (ov5647_stream_on w) = 3 /\
  regs (hw w') =
    <[0x300d := 0x00]> (<[0x4202 := 0x00]> (<[0x4800 := 0x14]> (regs (hw w)))) /\
  trace (hw w') = trace (hw w) ++ EvI2cSend [0x48; 0x00] e :: stream_on_events.
Proof.
  intros He HF Hrest. cbv zeta. unfold ov5647_stream_on. rewrite bind_eq.
  destruct (ov5647_read_head_fail OV5647_REG_MIPI_CTRL00 w e rest HF He) as [E F].
  rewrite E. cbn [snd].
  assert (T1 : transfers_succeed
                 (hw (World (sensor w)
                        (failed (EvI2cSend [to_u16 OV5647_REG_MIPI_CTRL00 / 256;
                                            to_u16 OV5647_REG_MIPI_CTRL00 mod 256] e)
                                (hw w))))).
  { unfold transfers_succeed. cbn [hw]. rewrite F. exact Hrest. }
  destruct (bus_ok_stream_on_writes _ _ T1 eq_refl) as (R & _ & _ & G & T).
  rewrite R, G, T. cbn [hw failed regs trace].
  split; [reflexivity |]. split; [reflexivity |].
  rewrite <- app_assoc. reflexivity.
Qed.

(** The diagnostic read fails with -121. *)
Lemma stream_on_ignores_read_failure_witness :
  let w := World (Sensor 640 480 1 true 0) (Board ∅ 0 1 0 [-121] [] []) in
  fst (ov5647_stream_on w) = 3 /\
  trace (hw (snd (ov5647_stream_on w))) =
    [EvI2cSend [0x48; 0x00] (-121); EvI2cSend [0x48; 0x00; 0x14] 3;
     EvI2cSend [0x42; 0x02; 0x00] 3; EvI2cSend [0x30; 0x0d; 0x00] 3].
Proof.
  cbv zeta.
  destruct (stream_on_ignores_read_failure (-121) []
              (World (Sensor 640 480 1 true 0) (Board ∅ 0 1 0 [-121] [] [])))
    as (R & _ & T); [lia | reflexivity | constructor |].
  split; [exact R | exact T].
Defined.

(** X18: Starting and then stopping the stream leaves the register file
    exactly as a plain stop would: 0x4800 = 0x25, 0x4202 = 0x0f, 0x300d =
    0x01 and every other register as before; the stop returns 3 and the
    trace is the start sequence followed by the three stop writes. *)
Theorem s_stream_on_then_off (enable : Z) (w : world) :
  enable <> 0 -> transfers_succeed (hw w) ->
  let w1 := snd (ov5647_s_stream enable w) in
  let w2 := snd (ov5647_s_stream 0 w1) in
  fst (ov5647_s_stream 0 w1) = 3 /\
  regs (hw w2) = regs (hw (snd (ov5647_s_stream 0 w))) /\
  regs (hw w2) =
    <[0x300d := 0x01]> (<[0x4202 := 0x0f]> (<[0x4800 := 0x25]> (regs (hw w)))) /\
  trace (hw w2) =
    trace (hw w) ++ read_events 0x4800 ++ stream_on_events ++ stream_off_events.
Proof.
  intros He H. cbv zeta.
  assert (B1 : bus_ok (ov5647_s_stream enable) w 3
                 (<[0x300d := 0x00]> (<[0x4202 := 0x00]> (<[0x4800 := 0x14]> (regs (hw w)))))
                 (read_events 0x4800 ++ stream_on_events)).
  { unfold ov5647_s_stream, truthy.
    destruct (Z.eqb_spec enable 0) as [? | _]; [contradiction |]. cbn [negb].
    unfold ov5647_stream_on.
    eapply bus_ok_bind; [apply bus_ok_read; [exact H | reflexivity] |].
    intros w1 S1 T1 R1. apply bus_ok_stream_on_writes; assumption. }
  destruct B1 as (_ & _ & T1 & G1 & Tr1).
  destruct (bus_ok_stream_off _ _ T1 G1) as (R2 & _ & _ & G2 & Tr2).
  destruct (bus_ok_stream_off w _ H eq_refl) as (_ & _ & _ & G0 & _).
  change (ov5647_s_stream 0) with ov5647_stream_off.
  assert (E : <[0x300d := 0x01]> (<[0x4202 := 0x0f]> (<[0x4800 := 0x25]>
                (<[0x300d := 0x00]> (<[0x4202 := 0x00]> (<[0x4800 := 0x14]> (regs (hw w))))))) =
              <[0x300d := 0x01]> (<[0x4202 := 0x0f]> (<[0x4800 := 0x25]> (regs (hw w))))).
  { apply map_eq. intros k.
    destruct (decide (k = 0x300d)) as [-> | N1]; [rewrite !lookup_insert_eq; reflexivity |].
    do 2 (rewrite (lookup_insert_ne _ 0x300d k); [| congruence]).
    destruct (decide (k = 0x4202)) as [-> | N2]; [rewrite !lookup_insert_eq; reflexivity |].
    do 2 (rewrite (lookup_insert_ne _ 0x4202 k); [| congruence]).
    destruct (decide (k = 0x4800)) as [-> | N3]; [rewrite !lookup_insert_eq; reflexivity |].
    repeat (rewrite lookup_insert_ne; [| congruence]).
    reflexivity. }
  split; [exact R2 |]. split; [rewrite G2, G0; exact E |].
  split; [rewrite G2; exact E |].
  rewrite Tr2, Tr1, <- !app_assoc. reflexivity.
Qed.

(** On, then off, from the powered, idle sensor. *)
Lemma s_stream_on_then_off_witness :
  regs (hw (snd (ov5647_s_stream 0 (snd (ov5647_s_stream 1 powered_world))))) =
  <[0x300d := 0x01]> (<[0x4202 := 0x0f]> (<[0x4800 := 0x25]> ∅)).
Proof.
  destruct (s_stream_on_then_off 1 powered_world) as (_ & _ & G & _);
    [lia | constructor | exact G].
Defined.


(** ** Sensor initialisation *)

Lemma reg_byte_insert_eq (r : gmap Z Z) (a v : Z) :
  reg_byte (<[a := v]> r) a = to_u8 v.
Proof. unfold reg_byte. rewrite lookup_insert_eq. reflexivity. Qed.

Lemma reg_byte_insert_ne (r : gmap Z Z) (a b v : Z) :
  a <> b -> reg_byte (<[a := v]> r) b = reg_byte r b.
Proof. intros N. unfold reg_byte. rewrite lookup_insert_ne by exact N. reflexivity. Qed.

Lemma land_1_testbit (x : Z) : Z.land x 0x01 <> 0 -> Z.testbit x 0 = true.
Proof.
  intros H. change 0x01 with (Z.ones 1) in H. rewrite Z.land_ones in H by lia.
  pose proof (Z.bit0_mod x) as B. change (2 ^ 1) with 2 in H.
  destruct (Z.testbit x 0); [reflexivity |]. cbn in B. congruence.
Qed.

(** X19: When no transfer fails, __sensor_init returns 3 and, whatever the
    current mode's table and the previous register contents, leaves the
    sensor out of software standby (bit 0 of 0x0100 set), on virtual channel
    0 (bits 7:6 of 0x4814 clear) and with the stream stopped (0x4800 = 0x25,
    0x4202 = 0x0f, 0x300d = 0x01); the driver state is unchanged. *)
Theorem sensor_init_postcondition (w : world) :
  transfers_succeed (hw w) ->
  let w' := snd (__sensor_init w) in
  let r' := regs (hw w') in
  fst (__sensor_init w) = 3 /\
  sensor w' = sensor w /\
  transfers_succeed (hw w') /\
  reg_byte r' OV5647_REG_MIPI_CTRL00 = 0x25 /\
  reg_byte r' OV5647_REG_FRAME_OFF_NUMBER = 0x0f /\
  reg_byte r' OV5640_REG_PAD_OUT = 0x01 /\
  Z.testbit (reg_byte r' OV5647_SW_STANDBY) 0 = true /\
  reg_byte r' OV5647_REG_MIPI_CTRL14 / 64 = 0.
Proof.
  intros H. cbv zeta.
  pose proof (bus_ok_sensor_init w _ H eq_refl) as B. cbv zeta in B.
  destruct B as (R & S & T & G & _).
  split; [exact R |]. split; [exact S |]. split; [exact T |].
  rewrite G. unfold sensor_init_regs. cbv zeta.
  set (r := sensor_init_standby_regs _ _).
  unfold OV5647_REG_MIPI_CTRL00, OV5647_REG_FRAME_OFF_NUMBER, OV5640_REG_PAD_OUT,
    OV5647_SW_STANDBY, OV5647_REG_MIPI_CTRL14.
  split; [| split; [| split; [| split]]].
  - rewrite !reg_byte_insert_ne by lia. apply reg_byte_insert_eq.
  - rewrite reg_byte_insert_ne by lia. apply reg_byte_insert_eq.
  - apply reg_byte_insert_eq.
  - rewrite !reg_byte_insert_ne by lia.
    destruct (Z.eqb_spec (Z.land (reg_byte r 0x0100) 0x01) 0) as [E | NE].
    + rewrite reg_byte_insert_eq. reflexivity.
    + apply land_1_testbit. exact NE.
  - rewrite !reg_byte_insert_ne by lia.
    assert (C : reg_byte r 0x4814 =
                reg_byte (store_regs (reg_list (mode_at (current_mode (sensor w))))
                            (regs (hw w))) 0x4814 mod 64).
    { unfold r, sensor_init_standby_regs, sensor_init_channel.
      rewrite reg_byte_insert_eq. unfold to_u8.
      apply Z.mod_small.
      pose proof (Z.mod_pos_bound
                    (reg_byte (store_regs (reg_list (mode_at (current_mode (sensor w))))
                                 (regs (hw w))) 0x4814) 64 ltac:(lia)).
      lia. }
    destruct (Z.land (reg_byte r 0x0100) 0x01 =? 0).
    + rewrite reg_byte_insert_ne by lia. rewrite C.
      apply Z.div_small. apply Z.mod_pos_bound. lia.
    + rewrite C. apply Z.div_small. apply Z.mod_pos_bound. lia.
Qed.

(** Initialisation of mode 0 on the idle board. *)
Lemma sensor_init_postcondition_witness :
  let r' := regs (hw (snd (__sensor_init powered_world))) in
  fst (__sensor_init powered_world) = 3 /\
  reg_byte r' OV5647_REG_MIPI_CTRL00 = 0x25 /\
  Z.testbit (reg_byte r' OV5647_SW_STANDBY) 0 = true.
Proof.
  cbv zeta.
  destruct (sensor_init_postcondition powered_world) as (R & _ & _ & A & _ & _ & B & _);
    [constructor |].
  split; [exact R |]. split; [exact A | exact B].
Defined.

(** ** Debug register access *)

Lemma land_ff (x : Z) : Z.land x 0xff = x mod 256.
Proof. change 0xff with (Z.ones 8). rewrite Z.land_ones by lia. reflexivity. Qed.

(** X20: The debug register accessors use only the low byte of the register
    number: ov5647_sensor_set_register writes dbg_val mod 256 to address
    dbg_reg mod 256 (always below 0x100), and ov5647_sensor_get_register of
    any register number with the same low byte then returns 0 with that
    value and size 1. *)
Theorem debug_register_low_byte (reg query : v4l2_dbg_register) (w : world) :
  transfers_succeed (hw w) ->
  dbg_reg query mod 256 = dbg_reg reg mod 256 ->
  let a := dbg_reg reg mod 256 in
  let w1 := snd (ov5647_sensor_set_register reg w) in
  fst (ov5647_sensor_set_register reg w) = 3 /\
  0 <= a < 256 /\
  regs (hw w1) = <[a := dbg_val reg mod 256]> (regs (hw w)) /\
  fst (ov5647_sensor_get_register query w1) =
    (0, DbgReg (dbg_reg query) (dbg_val reg mod 256) 1).
Proof.
  intros H Hq. cbv zeta.
  unfold ov5647_sensor_set_register, ov5647_sensor_get_register.
  rewrite !land_ff.
  assert (A : 0 <= dbg_reg reg mod 256 < 256) by (apply Z.mod_pos_bound; lia).
  assert (U16 : to_u16 (dbg_reg reg mod 256) = dbg_reg reg mod 256).
  { unfold to_u16. apply Z.mod_small. lia. }
  assert (U8 : to_u8 (dbg_val reg mod 256) = dbg_val reg mod 256).
  { unfold to_u8. apply Z.mod_mod. lia. }
  destruct (bus_ok_write (dbg_reg reg mod 256) (dbg_val reg mod 256) w _ H eq_refl)
    as (R & _ & T & G & _).
  rewrite U16, U8 in G.
  split; [exact R |]. split; [exact A |]. split; [exact G |].
  rewrite bind_eq.
  destruct (bus_ok_read (dbg_reg query mod 256) _ _ T G) as (R2 & _).
  rewrite R2, Hq, U16. cbn iota beta. change (1 <? 0) with false. cbn iota.
  rewrite reg_byte_insert_eq, U8. reflexivity.
Qed.

(** A write addressed to 0x3503 lands at 0x0003 and is read back through
    0x0103. *)
Lemma debug_register_low_byte_witness :
  let w1 := snd (ov5647_sensor_set_register (DbgReg 0x3503 0x07 1) powered_world) in
  regs (hw w1) = <[0x03 := 0x07]> ∅ /\
  fst (ov5647_sensor_get_register (DbgReg 0x0103 0 0) w1) = (0, DbgReg 0x0103 0x07 1).
Proof.
  cbv zeta.
  destruct (debug_register_low_byte (DbgReg 0x3503 0x07 1) (DbgReg 0x0103 0 0)
              powered_world) as (_ & _ & G & Q); [constructor | reflexivity |].
  split; [exact G | exact Q].
Defined.


(** ** Power requests in any order *)

Lemma power_off_sequence_board (w : world) :
  let w' := snd (power_off_sequence w) in
  clk_faults (hw w') = clk_faults (hw w) /\
  reset_level (hw w') = (if reset_gpio (sensor w) then 1 else reset_level (hw w)).
Proof.
  unfold power_off_sequence. rewrite !bind_eq.
  set (w1 := snd (ov5647_write_array _ _ w)).
  set (w2 := snd (set_sw_standby true w1)).
  assert (F : bus_frame w w2).
  { eapply bus_frame_trans; [apply bus_only_write_array | apply bus_only_set_sw_standby]. }
  destruct F as (S2 & _ & R2 & C2 & _).
  unfold assert_reset. rewrite bind_eq. cbn [get_sensor fst snd].
  change (sensor (snd (clk_disable_unprepare w2))) with (sensor w2). rewrite S2.
  cbv zeta. destruct (reset_gpio (sensor w)); cbn; auto.
Qed.

(** X21: The power-off branch is best effort: a release at power_count = 1
    always takes the count to 0, disables the clock once and asserts the
    reset line when the GPIO is present, whatever the bus does; when both
    the first output-disable write and the standby read fail, only those two
    transfers are attempted and the errno of the standby read (not of the
    write) is returned. *)
Theorem last_release_always_powers_off (w : world) :
  power_count (sensor w) = 1 ->
  let w' := snd (release w) in
  power_count (sensor w') = 0 /\
  xclk_enabled (hw w') = xclk_enabled (hw w) - 1 /\
  reset_level (hw w') = (if reset_gpio (sensor w) then 1 else reset_level (hw w)) /\
  (exists t,
     trace (hw w') =
       trace (hw w) ++ t ++ EvClkDisableUnprepare ::
       (if reset_gpio (sensor w) then [EvGpioSet 1] else []) /\
     forallb is_i2c t = true) /\
  (forall e1 e2 rest,
     e1 < 0 -> e2 < 0 -> i2c_faults (hw w) = e1 :: e2 :: rest ->
     fst (release w) = e2 /\
     regs (hw w') = regs (hw w) /\
     trace (hw w') =
       trace (hw w) ++
       [EvI2cSend [0x30; 0x00; 0x00] e1; EvI2cSend [0x01; 0x00] e2;
        EvClkDisableUnprepare] ++
       (if reset_gpio (sensor w) then [EvGpioSet 1] else [])).
Proof.
  intros Hpc. cbv zeta.
  rewrite (release_last w Hpc). cbn [sensor hw with_power_count power_count].
  destruct (power_off_sequence_facts w) as (_ & X & t & T & F).
  destruct (power_off_sequence_board w) as (_ & RL).
  split; [reflexivity |]. split; [exact X |]. split; [exact RL |].
  split; [exists t; split; assumption |].
  intros e1 e2 rest He1 He2 HF.
  unfold release, ov5647_sensor_power. rewrite bind_eq.
  cbn [get_sensor fst snd]. rewrite Hpc.
  change (truthy 0 && (1 =? 0)) with false.
  change (negb (truthy 0) && (1 =? 1)) with true. cbn iota.
  unfold power_off_sequence. rewrite !bind_eq.
  rewrite write_array_all. unfold sensor_oe_disable_regs. cbn [write_regs addr data].
  rewrite bind_eq.
  destruct (ov5647_write_head_fail 0x3000 0x00 w e1 (e2 :: rest) HF He1) as [E1 F1].
  rewrite E1. cbn [fst snd addr data]. destruct (Z.ltb_spec e1 0); [| lia].
  cbn [pure fst snd].
  unfold set_sw_standby. rewrite bind_eq.
  destruct (ov5647_read_head_fail OV5647_SW_STANDBY
              (World (sensor w)
                 (failed (EvI2cSend [to_u16 0x3000 / 256; to_u16 0x3000 mod 256; to_u8 0x00] e1)
                         (hw w)))
              e2 rest F1 He2) as [E2 _].
  rewrite E2. cbn [fst snd]. destruct (Z.ltb_spec e2 0); [| lia].
  cbn [pure fst snd].
  unfold assert_reset. rewrite !bind_eq. cbn [get_sensor fst snd pure].
  change (sensor (snd (clk_disable_unprepare ?x))) with (sensor x).
  cbn [sensor].
  split; [reflexivity |].
  destruct (reset_gpio (sensor w)); cbn; rewrite <- ?app_assoc; split; reflexivity.
Qed.

(** Both transfers fail with -121. *)
Lemma last_release_always_powers_off_witness :
  let w := World (Sensor 640 480 1 true 0) (Board ∅ 0 1 0 [-121; -121] [] []) in
  fst (release w) = -121 /\
  power_count (sensor (snd (release w))) = 0 /\
  xclk_enabled (hw (snd (release w))) = 0 /\
  reset_level (hw (snd (release w))) = 1.
Proof.
  cbv zeta.
  destruct (last_release_always_powers_off
              (World (Sensor 640 480 1 true 0) (Board ∅ 0 1 0 [-121; -121] [] []))
              eq_refl) as (P & X & R & _ & H).
  destruct (H (-121) (-121) [] ltac:(lia) ltac:(lia) eq_refl) as (E & _).
  split; [exact E |]. split; [exact P |]. split; [exact X | exact R].
Defined.


Lemma is_warning_not_i2c (e : event) : is_i2c e = true -> is_warning e = false.
Proof. destruct e; cbn; congruence. Qed.

Lemma clock_succeeds_next (b : board) :
  clock_succeeds b ->
  0 <= fst (next_fault (clk_faults b)) /\
  Forall (fun e => 0 <= e) (snd (next_fault (clk_faults b))).
Proof.
  unfold clock_succeeds. intros H. destruct H as [|e l He Hl]; cbn.
  - split; [lia | constructor].
  - split; assumption.
Qed.

(** One request on a board without failures keeps the board without
    failures, moves the count by one and keeps the clock enabled exactly
    while the count is positive. *)
Lemma power_request_step (op : bool) (w : world) :
  transfers_succeed (hw w) -> clock_succeeds (hw w) ->
  0 <= power_count (sensor w) <= INT_MAX - 1 ->
  (op = false -> 0 < power_count (sensor w)) ->
  let w' := snd (ov5647_sensor_power (if op then 1 else 0) w) in
  transfers_succeed (hw w') /\ clock_succeeds (hw w') /\
  power_count (sensor w') =
    (if op then power_count (sensor w) + 1 else power_count (sensor w) - 1) /\
  xclk_enabled (hw w') - (if 0 <? power_count (sensor w') then 1 else 0) =
    xclk_enabled (hw w) - (if 0 <? power_count (sensor w) then 1 else 0) /\
  count_ev is_warning (trace (hw w')) = count_ev is_warning (trace (hw w)).
Proof.
  intros HT HC Hpc Hop. cbv zeta.
  destruct (clock_succeeds_next _ HC) as [HC1 HC2].
  destruct op.
  - fold acquire.
    destruct (Z.eq_dec (power_count (sensor w)) 0) as [Z0 | NZ].
    + destruct (acquire_fault_free w Z0 HT HC1) as (_ & S & T & _ & Tr & X).
      pose proof (acquire_clk_faults w Z0 HT HC1) as CF.
      rewrite S, Tr, X, Z0. cbn [with_power_count power_count].
      split; [exact T |]. split; [unfold clock_succeeds; rewrite CF; exact HC2 |].
      split; [reflexivity |]. split; [cbn; lia |].
      rewrite count_ev_app, count_ev_power_on; auto using is_warning_not_i2c.
    + rewrite acquire_again by lia. cbn [snd sensor hw with_power_count power_count].
      split; [exact HT |]. split; [exact HC |]. split; [reflexivity |].
      split; [| reflexivity].
      destruct (Z.ltb_spec 0 (power_count (sensor w) + 1));
        destruct (Z.ltb_spec 0 (power_count (sensor w))); lia.
  - fold release. specialize (Hop eq_refl).
    destruct (Z.eq_dec (power_count (sensor w)) 1) as [Z1 | NZ].
    + destruct (release_fault_free w Z1 HT) as (_ & S & T & Tr & X).
      pose proof (release_last w Z1) as RL.
      destruct (power_off_sequence_board w) as (CF & _).
      rewrite S, Tr, X, Z1. cbn [with_power_count power_count].
      split; [exact T |]. split.
      { unfold clock_succeeds. rewrite RL. cbn [hw]. rewrite CF. exact HC. }
      split; [reflexivity |]. split; [cbn; lia |].
      rewrite count_ev_app, count_ev_power_off; auto using is_warning_not_i2c.
    + rewrite release_again by (unfold INT_MAX in *; lia).
      cbn [snd sensor hw with_power_count power_count].
      split; [exact HT |]. split; [exact HC |]. split; [reflexivity |].
      split; [| reflexivity].
      destruct (Z.ltb_spec 0 (power_count (sensor w) - 1));
        destruct (Z.ltb_spec 0 (power_count (sensor w))); lia.
Qed.

Lemma power_requests_from (ops : list bool) :
  forall w,
    transfers_succeed (hw w) -> clock_succeeds (hw w) ->
    0 <= power_count (sensor w) ->
    power_count (sensor w) + Z.of_nat (length ops) <= INT_MAX ->
    balanced_from (power_count (sensor w)) ops = true ->
    let w' := snd (power_requests ops w) in
    power_count (sensor w') = count_after (power_count (sensor w)) ops /\
    0 <= power_count (sensor w') /\
    xclk_enabled (hw w') - (if 0 <? power_count (sensor w') then 1 else 0) =
      xclk_enabled (hw w) - (if 0 <? power_count (sensor w) then 1 else 0) /\
    count_ev is_warning (trace (hw w')) = count_ev is_warning (trace (hw w)).
Proof.
  induction ops as [|op ops IH]; intros w HT HC H0 Hlen Hbal; cbv zeta.
  - cbn [power_requests pure snd count_after]. auto.
  - cbn [power_requests count_after]. rewrite bind_eq.
    cbn [length] in Hlen.
    assert (Hop : op = false -> 0 < power_count (sensor w)).
    { intros ->. cbn [balanced_from] in Hbal.
      apply andb_prop in Hbal as [L _]. apply Z.ltb_lt. exact L. }
    destruct (power_request_step op w HT HC ltac:(lia) Hop) as (T1 & C1 & P1 & X1 & W1).
    set (w1 := snd (ov5647_sensor_power (if op then 1 else 0) w)) in *.
    assert (Hbal1 : balanced_from (power_count (sensor w1)) ops = true).
    { rewrite P1. destruct op; cbn [balanced_from] in Hbal; [exact Hbal |].
      apply andb_prop in Hbal as [_ B]. exact B. }
    assert (H1 : 0 <= power_count (sensor w1)).
    { rewrite P1. destruct op; [lia |]. specialize (Hop eq_refl). lia. }
    assert (Hlen1 : power_count (sensor w1) + Z.of_nat (length ops) <= INT_MAX).
    { rewrite P1. destruct op; lia. }
    destruct (IH w1 T1 C1 H1 Hlen1 Hbal1) as (P & N & X & W).
    clearbody w1.
    split; [rewrite P, P1; reflexivity |]. split; [exact N |].
    split; [lia | congruence].
Qed.

(** X22: Use-count invariant for any interleaving: on a board where no
    transfer and no clock request fails, after any sequence of at most
    INT_MAX acquires and releases, started at count 0, in which no release
    comes at count 0, power_count equals acquires minus releases and is not
    negative, the clock's enable count is one above its starting value while
    power_count is positive and equal to it when power_count is 0, and
    WARN_ON never fired. *)
Theorem power_requests_invariant (ops : list bool) (w : world) :
  power_count (sensor w) = 0 ->
  transfers_succeed (hw w) -> clock_succeeds (hw w) ->
  balanced_from 0 ops = true -> Z.of_nat (length ops) <= INT_MAX ->
  let w' := snd (power_requests ops w) in
  power_count (sensor w') = count_after 0 ops /\
  0 <= power_count (sensor w') /\
  xclk_enabled (hw w') =
    xclk_enabled (hw w) + (if 0 <? power_count (sensor w') then 1 else 0) /\
  count_ev is_warning (trace (hw w')) = count_ev is_warning (trace (hw w)).
Proof.
  intros Hpc HT HC Hbal Hlen. cbv zeta.
  destruct (power_requests_from ops w HT HC) as (P & N & X & W);
    [lia | lia | rewrite Hpc; exact Hbal |].
  rewrite Hpc in P, X. change (0 <? 0) with false in X. cbn iota in X.
  split; [exact P |]. split; [exact N |]. split; [| exact W].
  destruct (0 <? power_count (sensor (snd (power_requests ops w)))); lia.
Qed.

(** Acquire, acquire, release, acquire, release, release, acquire. *)
Lemma power_requests_invariant_witness :
  let ops := [true; true; false; true; false; false; true] in
  let w' := snd (power_requests ops fresh_world) in
  power_count (sensor w') = 1 /\ xclk_enabled (hw w') = 1.
Proof.
  cbv zeta.
  destruct (power_requests_invariant [true; true; false; true; false; false; true]
              fresh_world eq_refl) as (P & _ & X & _);
    [constructor | constructor | reflexivity | vm_compute; discriminate |].
  rewrite P in X. split; [exact P | exact X].
Defined.


(** ** Attach and runtime power management *)

Ltac probe_unfold :=
  unfold framework, probe_power_off, probe_error, probe_ctrl_free, probe_mutex_remove,
    framework, __ov5647_power_on, __ov5647_power_off, deassert_reset, assert_reset,
    usleep_range, emit, gpiod_set_value_cansleep, clk_disable_unprepare,
    clk_prepare_enable, devm_gpiod_get_optional, put_sensor, get_sensor,
    bind, pure, on_board.

Ltac probe_simpl :=
  repeat (progress
    (cbn [fst snd hw sensor regs reg_ptr xclk_enabled reset_level i2c_faults
          clk_faults trace reset_gpio negb];
     try change (0 <? 0) with false; try change (0 =? 0) with true)).


Ltac probe_with H := repeat (progress (rewrite ?H; cbn [negb]; probe_simpl)).




(** X25: Runtime PM: ov5647_runtime_resume either fails with the clock's
    errno having changed neither clock count nor reset line, or returns 0
    with the clock enabled (and the reset line de-asserted when the GPIO is
    present); a following ov5647_runtime_suspend returns 0, asserts the
    reset line before disabling the clock, and restores the clock count,
    leaving the register file and the driver state as they were before the
    resume. *)
Theorem runtime_pm_round_trip (w : world) :
  let r := ov5647_runtime_resume w in
  let gpio := reset_gpio (sensor w) in
  (fst r < 0 ->
   fst r = fst (next_fault (clk_faults (hw w))) /\
   sensor (snd r) = sensor w /\
   xclk_enabled (hw (snd r)) = xclk_enabled (hw w) /\
   reset_level (hw (snd r)) = reset_level (hw w) /\
   trace (hw (snd r)) = trace (hw w) ++ [EvClkPrepareEnable (fst r)]) /\
  (0 <= fst r ->
   let s := ov5647_runtime_suspend (snd r) in
   fst r = 0 /\ fst s = 0 /\
   xclk_enabled (hw (snd r)) = xclk_enabled (hw w) + 1 /\
   reset_level (hw (snd r)) = (if gpio then 0 else reset_level (hw w)) /\
   sensor (snd s) = sensor w /\
   regs (hw (snd s)) = regs (hw w) /\
   xclk_enabled (hw (snd s)) = xclk_enabled (hw w) /\
   reset_level (hw (snd s)) = (if gpio then 1 else reset_level (hw w)) /\
   trace (hw (snd s)) =
     trace (hw w) ++
     [EvClkPrepareEnable 0] ++
     (if gpio then [EvGpioSet 0; EvUsleepRange 5000 10000; EvGpioSet 1] else []) ++
     [EvClkDisableUnprepare]).
Proof.
  cbv zeta. unfold ov5647_runtime_resume, ov5647_runtime_suspend.
  probe_unfold. probe_simpl.
  destruct (next_fault (clk_faults (hw w))) as [ce crest]. probe_simpl.
  destruct (ce <? 0) eqn:Ece; probe_simpl.
  - probe_with Ece. split; [| intros; lia].
    intros _. repeat split; reflexivity.
  - probe_with Ece.
    destruct (reset_gpio (sensor w)) eqn:G; probe_simpl;
      (split; [intros; lia |]); intros _; probe_with G;
      repeat split; try reflexivity; try lia;
      cbn [app]; rewrite <- ?app_assoc; reflexivity.
Qed.


(** ** File-handle defaults and frame intervals *)

(** X26: The TRY format that ov5647_open stores on pad 0 is a supported
    mode: a TRY get_fmt on pad 0 after open returns the format of table
    entry 5 (2592x1944, 8-bit Bayer), and ov5647_set_fmt with that format
    returns it unchanged and leaves the pad configuration as it is. *)
Theorem open_try_format_is_a_mode (s : ov5647)
    (cfg : list v4l2_mbus_framefmt) (crops : list v4l2_rect) (f : v4l2_mbus_framefmt) :
  (0 < length cfg)%nat ->
  let cfg1 := snd (fst (ov5647_open cfg crops)) in
  let query := SubdevFmt V4L2_SUBDEV_FORMAT_TRY 0 f in
  let got := snd (ov5647_get_fmt true s cfg1 query) in
  fst (fst (ov5647_open cfg crops)) = 0 /\
  fst (ov5647_get_fmt true s cfg1 query) = 0 /\
  format got =
    FrameFmt (width (mode_at 5)) (height (mode_at 5)) (mbus_code (mode_at 5))
             V4L2_FIELD_NONE V4L2_COLORSPACE_SRGB /\
  ov5647_set_fmt true s cfg1 got = (0, s, cfg1, got).
Proof.
  intros Hlen. unfold ov5647_open. cbv zeta. cbn [fst snd].
  unfold ov5647_get_fmt. cbn [which pad]. change (Z.to_nat 0) with 0%nat.
  change (V4L2_SUBDEV_FORMAT_TRY =? V4L2_SUBDEV_FORMAT_TRY) with true. cbn iota.
  rewrite list_lookup_insert_eq by exact Hlen. cbn [default fst snd format].
  split; [reflexivity |]. split; [reflexivity |]. split; [reflexivity |].
  unfold ov5647_set_fmt. cbn [which pad format fmt_width fmt_height code].
  change (V4L2_SUBDEV_FORMAT_TRY =? V4L2_SUBDEV_FORMAT_TRY) with true.
  change (set_fmt_best_mode OV5647_WINDOW_WIDTH_DEF OV5647_WINDOW_HEIGHT_DEF
            MEDIA_BUS_FMT_SBGGR8_1X8) with 5.
  cbv zeta. cbn iota. change (Z.to_nat 0) with 0%nat.
  rewrite list_insert_insert_eq. reflexivity.
Qed.

(** A file handle with one pad. *)
Lemma open_try_format_is_a_mode_witness :
  format
    (snd (ov5647_get_fmt true (Sensor 0 0 0 true 0)
            (snd (fst (ov5647_open [FrameFmt 0 0 0 0 0] [Rect 0 0 0 0])))
            (SubdevFmt V4L2_SUBDEV_FORMAT_TRY 0 (FrameFmt 0 0 0 0 0)))) =
  FrameFmt 2592 1944 MEDIA_BUS_FMT_SBGGR8_1X8 V4L2_FIELD_NONE V4L2_COLORSPACE_SRGB.
Proof.
  destruct (open_try_format_is_a_mode (Sensor 0 0 0 true 0)
              [FrameFmt 0 0 0 0 0] [Rect 0 0 0 0] (FrameFmt 0 0 0 0 0)
              ltac:(cbn; lia)) as (_ & _ & F & _).
  exact F.
Defined.

(** X27: ov5647_enum_frame_interval has one entry: index 0 returns 0 with
    the size and code of table entry 0 (which ov5647_enum_frame_size
    accepts) and the interval that ov5647_g_frame_interval reports (1/30 s),
    overwriting whatever size and code were asked for; every other index
    gives -EINVAL and leaves the structure untouched. *)
Theorem enum_frame_interval_single_entry
    (fie : v4l2_subdev_frame_interval_enum) (fi : v4l2_fract) :
  0 <= fie_index fie ->
  let r := ov5647_enum_frame_interval fie in
  (fie_index fie = 0 ->
   fst r = 0 /\
   fie_code (snd r) = mbus_code (mode_at 0) /\
   fie_width (snd r) = width (mode_at 0) /\
   fie_height (snd r) = height (mode_at 0) /\
   fie_interval (snd r) = snd (ov5647_g_frame_interval fi) /\
   fst (ov5647_enum_frame_size
          (FrameSizeEnum 0 (fie_code (snd r)) 0 0 0 0)) = 0) /\
  (fie_index fie <> 0 -> r = (- EINVAL, fie)).
Proof.
  intros H0. cbv zeta. unfold ov5647_enum_frame_interval. split.
  - intros ->. cbn. repeat split; reflexivity.
  - intros N. destruct (Z.ltb_spec 0 (fie_index fie)); [reflexivity | lia].
Qed.

(** Index 0 asked with the 10-bit code and 1920 x 1080; index 1. *)
Lemma enum_frame_interval_single_entry_witness :
  ov5647_enum_frame_interval
    (FrameIntervalEnum 0 MEDIA_BUS_FMT_SBGGR10_1X10 1920 1080 (Fract 0 0)) =
    (0, FrameIntervalEnum 0 MEDIA_BUS_FMT_SBGGR8_1X8 640 480 (Fract 1 30)) /\
  ov5647_enum_frame_interval
    (FrameIntervalEnum 1 MEDIA_BUS_FMT_SBGGR8_1X8 640 480 (Fract 0 0)) =
    (- EINVAL, FrameIntervalEnum 1 MEDIA_BUS_FMT_SBGGR8_1X8 640 480 (Fract 0 0)).
Proof.
  split.
  - reflexivity.
  - destruct (enum_frame_interval_single_entry
                (FrameIntervalEnum 1 MEDIA_BUS_FMT_SBGGR8_1X8 640 480 (Fract 0 0))
                (Fract 0 0) ltac:(cbn; lia)) as [_ H].
    apply H. cbn. lia.
Defined.
